(** * Google Spreadsheet MCP server: formatter, client and dispatcher

    A shallow embedding of the output formatter ([formatter.ts]), of the
    parts of the Sheets client ([sheetsClient.ts]) and of the tool handlers
    and request dispatcher ([index.ts]) that the specification talks about,
    followed by the properties proved about them.

    Conventions.
    - A JavaScript string is a [string] holding its UTF-8 bytes.  Every
      character the code inspects (pipe, line feed, the letters A-Z) is
      ASCII, and no byte of a multi-byte UTF-8 sequence is ASCII, so
      searching and replacing those characters agrees on both views.
    - A JavaScript number is an element of the abstract type [Number] of the
      class [JsRuntime], which also carries the built-ins applied to numbers
      and strings that are not code of this repository.
    - Array lengths and loop counters are [nat]; the counter of
      [columnLabel], which goes below zero to leave its loop, is a [Z]. *)

From Stdlib Require Import ZArith List String Ascii Bool Arith Lia.
From Stdlib Require Import DecimalString.
From Stdlib Require HexadecimalString.
From Equations Require Import Equations.
Import ListNotations.

Set Implicit Arguments.
Set Warnings "-register-all".
Open Scope string_scope.

(* ===================================================================== *)
(** ** JavaScript built-ins used by the code                              *)
(* ===================================================================== *)

Module Js.

(** [Array.prototype.join] on an array of strings. *)
Fixpoint join (sep : string) (parts : list string) : string :=
  match parts with
  | [] => ""
  | [p] => p
  | p :: rest => p ++ sep ++ join sep rest
  end.

(** [arr.push(x)], as the array after the call. *)
Definition push {A : Type} (arr : list A) (x : A) : list A :=
  (arr ++ [x])%list.

(** [text.replace(/c/g, by)] for a single character [c]. *)
Fixpoint replaceAll (c : ascii) (by_ : string) (text : string) : string :=
  match text with
  | EmptyString => EmptyString
  | String a rest =>
      if Ascii.eqb a c then by_ ++ replaceAll c by_ rest
      else String a (replaceAll c by_ rest)
  end.

(** [String(n)] for a non-negative integer such as an array length. *)
Definition natToString (n : nat) : string :=
  NilZero.string_of_uint (Nat.to_uint n).

(** [String(z)] for an integer. *)
Definition intToString (z : Z) : string :=
  NilZero.string_of_int (Z.to_int z).

(** [String.fromCharCode(code)] for a code below 256. *)
Definition fromCharCode (code : Z) : ascii :=
  ascii_of_nat (Z.to_nat code).

(** The double quote character, as a string. *)
Definition quote : string := String "034"%char EmptyString.

(** The line feed, ['\n']. *)
Definition nl : string := String "010"%char EmptyString.

(** [s.padStart(2, '0')]. *)
Definition padStart2 (s : string) : string :=
  match String.length s with
  | 0 => "00" ++ s
  | 1 => "0" ++ s
  | _ => s
  end.

End Js.

(** The part of the JavaScript runtime that the code uses on numbers and on
    non-ASCII text.  None of it is code of this repository. *)
Class JsRuntime := {
  Number : Type;
  (** [String(n)], also the rendering of [n] in a template literal *)
  numberToString : Number -> string;
  (** [ToBoolean(n)]: false for zero and NaN *)
  numberTruthy : Number -> bool;
  (** [Math.round(x * 255).toString(16)] *)
  scaledHex : Number -> string;
  (** [s.toLowerCase()] *)
  toLowerCase : string -> string;
  (** the number written as an integer literal, such as [0] *)
  fromInt : Z -> Number;
  (** the number of arguments that the engine accepts in one call: a call
      [f(...array)] with a longer array throws a [RangeError] *)
  spreadLimit : N;
  (** the message of that [RangeError] *)
  spreadOverflow : string;
  (** every engine accepts a call with some hundreds of arguments *)
  spreadLimit_floor : (500 <= spreadLimit)%N
}.

(* ===================================================================== *)
(** ** formatter.ts                                                       *)
(* ===================================================================== *)

Module Formatter.

Definition MAX_ROWS : nat := 500.

(** The loop of [columnLabel]:
    [while (n >= 0) { label = chr(65 + n % 26) + label; n = floor(n / 26) - 1 }]. *)
Equations? columnLabelLoop (n : Z) (label : string) : string
  by wf (Z.to_nat (n + 1)) lt :=
  columnLabelLoop n label with Z_le_gt_dec 0 n => {
    | left _ =>
        columnLabelLoop (n / 26 - 1)
          (String (Js.fromCharCode (65 + n mod 26)) label);
    | right _ => label }.
Proof.
  assert (n / 26 <= n)%Z by (apply Z.div_le_upper_bound; lia).
  lia.
Qed.

Definition columnLabel (index : nat) : string :=
  columnLabelLoop (Z.of_nat index) "".

(** [escapeMarkdown]: [text.replace(/\|/g, '\\|').replace(/\n/g, ' ')]. *)
Definition escapeMarkdown (text : string) : string :=
  Js.replaceAll "010"%char " " (Js.replaceAll "|"%char "\|" text).

(** A cell of a block of values: [string | number | boolean | null | undefined]. *)
Inductive Cell `{JsRuntime} : Type :=
| CString (s : string)
| CNumber (n : Number)
| CBoolean (b : bool)
| CNull
| CUndefined.

Section Table.
Context `{JsRuntime}.

(** [String(val ?? '')]. *)
Definition cellText (val : Cell) : string :=
  match val with
  | CString s => s
  | CNumber n => numberToString n
  | CBoolean true => "true"
  | CBoolean false => "false"
  | CNull => ""
  | CUndefined => ""
  end.

(** [Math.max(a1, ..., an)] of the lengths of the rows. *)
Definition widest (data : list (list Cell)) : nat :=
  list_max (map (@List.length Cell) data).

(** [Math.max(...data.map(row => row.length))], for the non-empty [data] on
    which the code evaluates it.  The spread passes one argument for each
    row: the call throws a [RangeError], here [inl] of its message, when the
    rows are more than the engine accepts as arguments. *)
Definition colCountOf (data : list (list Cell)) : string + nat :=
  if (N.of_nat (List.length data) <=? spreadLimit)%N
  then inr (widest data)
  else inl spreadOverflow.

(** [while (headerRow.length < colCount) headerRow.push(columnLabel(headerRow.length))];
    [missing] is [colCount - headerRow.length], the number of iterations left. *)
Fixpoint padHeader (missing : nat) (headerRow : list string) : list string :=
  match missing with
  | 0 => headerRow
  | S missing' =>
      padHeader missing'
        (Js.push headerRow (columnLabel (List.length headerRow)))
  end.

(** One line of the table: ['| ' + cells.join(' | ') + ' |']. *)
Definition tableLine (cells : list string) : string :=
  "| " ++ Js.join " | " cells ++ " |".

(** The inner loop over [i < colCount] that collects the cells of a data row. *)
Definition rowCells (colCount : nat) (row : list Cell) : list string :=
  map (fun i => escapeMarkdown (cellText (nth i row CUndefined)))
      (seq 0 colCount).

(** The notice appended to a truncated table; [total] is
    [data.length - (hasHeader ? 1 : 0)]. *)
Definition truncationNotice (total : nat) : string :=
  Js.nl ++ Js.nl ++ "⚠️ " ++ Js.natToString MAX_ROWS
    ++ "行を超えるため、先頭" ++ Js.natToString MAX_ROWS
    ++ "行のみ表示しています（全" ++ Js.natToString total ++ "行）".

(** The function from the test [colCount === 0] on, for the column count
    that [Math.max] has returned. *)
Definition tableOf (colCount : nat) (data : list (list Cell))
    (hasHeader : bool) : string :=
  if (colCount =? 0)%nat then "(empty)"
  else
    let cap := MAX_ROWS + (if hasHeader then 1 else 0) in
    let truncated := (cap <? List.length data)%nat in
    let rows := if truncated then firstn cap data else data in
    let '(headerRow, dataRows) :=
      match hasHeader, rows with
      | true, first :: rest => (map cellText first, rest)
      | _, _ => (map columnLabel (seq 0 colCount), rows)
      end in
    let headerRow := padHeader (colCount - List.length headerRow) headerRow in
    let lines :=
      tableLine headerRow
      :: tableLine (map (fun _ => "---") headerRow)
      :: map (fun row => tableLine (rowCells colCount row)) dataRows in
    let result := Js.join Js.nl lines in
    if truncated
    then result ++ truncationNotice
                     (List.length data - (if hasHeader then 1 else 0))
    else result.

(** [formatAsMarkdownTable]: the text returned, or [inl] of the message
    of the [RangeError] thrown by the call of [Math.max]. *)
Definition formatAsMarkdownTable (data : list (list Cell)) (hasHeader : bool)
  : string + string :=
  match data with
  | [] => inr "(empty)"
  | _ =>
      match colCountOf data with
      | inl thrown => inl thrown
      | inr colCount => inr (tableOf colCount data hasHeader)
      end
  end.

End Table.

(** Grid data returned for a range with
    [fields: 'sheets.data.rowData.values(effectiveFormat,formattedValue)'].
    A field is [None] when the response leaves the key out. *)
Record Color `{JsRuntime} := {
  red : option Number;
  green : option Number;
  blue : option Number
}.

Record ColorStyle `{JsRuntime} := {
  rgbColor : option Color
}.

Record TextFormat `{JsRuntime} := {
  bold : option bool;
  italic : option bool;
  strikethrough : option bool;
  fontSize : option Number;
  foregroundColorStyle : option ColorStyle
}.

Record NumberFormat := {
  type : option string;
  pattern : option string
}.

Record CellFormat `{JsRuntime} := {
  textFormat : option TextFormat;
  backgroundColor : option Color;
  numberFormat : option NumberFormat;
  horizontalAlignment : option string
}.

Record CellData `{JsRuntime} := {
  effectiveFormat : option CellFormat;
  formattedValue : option string
}.

Record RowData `{JsRuntime} := {
  values : option (list CellData)
}.

Section Formatting.
Context `{JsRuntime}.

(** Truthiness of an optional boolean, number and string. *)
Definition truthyBool (b : option bool) : bool :=
  match b with Some true => true | _ => false end.

Definition truthyNumber (n : option Number) : option Number :=
  match n with
  | Some x => if numberTruthy x then Some x else None
  | None => None
  end.

Definition truthyString (s : option string) : option string :=
  match s with
  | Some "" => None
  | Some x => Some x
  | None => None
  end.

(** [Math.round((channel ?? 0) * 255).toString(16).padStart(2, '0')]. *)
Definition channelHex (channel : option Number) : string :=
  Js.padStart2 (match channel with
                | Some x => scaledHex x
                | None => "0"
                end).

Definition formatColor (color : Color) : string :=
  "#" ++ channelHex (red color) ++ channelHex (green color)
      ++ channelHex (blue color).

(** The pushes to [props] guarded by [fmt.textFormat]. *)
Definition textFormatProps (tf : TextFormat) (props : list string)
  : list string :=
  let props := if truthyBool (bold tf) then Js.push props "bold" else props in
  let props := if truthyBool (italic tf) then Js.push props "italic" else props in
  let props := if truthyBool (strikethrough tf)
               then Js.push props "strikethrough" else props in
  let props := match truthyNumber (fontSize tf) with
               | Some n => Js.push props ("fontSize: " ++ numberToString n)
               | None => props
               end in
  match foregroundColorStyle tf with
  | Some {| rgbColor := Some rgb |} =>
      Js.push props ("color: " ++ formatColor rgb)
  | _ => props
  end.

(** The [props] array collected for one effective format. *)
Definition cellProps (fmt : CellFormat) : list string :=
  let props := [] in
  let props := match textFormat fmt with
               | Some tf => textFormatProps tf props
               | None => props
               end in
  let props := match backgroundColor fmt with
               | Some bg => Js.push props ("bg: " ++ formatColor bg)
               | None => props
               end in
  let props := match numberFormat fmt with
               | Some nf =>
                   Js.push props
                     ("format: "
                        ++ (match type nf with
                            | Some t => t
                            | None => "undefined"
                            end)
                        ++ " ("
                        ++ (match truthyString (pattern nf) with
                            | Some p => p
                            | None => "default"
                            end)
                        ++ ")")
               | None => props
               end in
  match truthyString (horizontalAlignment fmt) with
  | Some a => Js.push props ("align: " ++ a)
  | None => props
  end.

(** The body of the loop over the cells of a row; [lines] is the array the
    code pushes to. *)
Definition pushCell (lines : list string) (cell : CellData) : list string :=
  match effectiveFormat cell with
  | None => lines
  | Some fmt =>
      let addr := match formattedValue cell with
                  | Some v => v
                  | None => "(empty)"
                  end in
      let props := cellProps fmt in
      if (0 <? List.length props)%nat
      then Js.push lines ("- **" ++ addr ++ "**: " ++ Js.join ", " props)
      else lines
  end.

(** The body of the loop over the rows. *)
Definition pushRow (lines : list string) (row : RowData) : list string :=
  match values row with
  | None => lines
  | Some cells => fold_left pushCell cells lines
  end.

Definition formatCellFormatting (gridData : list RowData) (range : string)
  : string :=
  let lines := ["## Cell Formatting (" ++ range ++ ")"; ""] in
  let lines := fold_left pushRow gridData lines in
  let lines := if (List.length lines <=? 2)%nat
               then Js.push lines "No formatting data found."
               else lines in
  Js.join Js.nl lines.

End Formatting.

End Formatter.

(* ===================================================================== *)
(** ** sheetsClient.ts                                                    *)
(* ===================================================================== *)

Module Client.

(** A thrown value.  [ErrorObject m] is an instance of [Error] with message
    [m]; [OtherThrown t] is any other value, [t] being [String] of it. *)
Inductive Thrown : Type :=
| ErrorObject (message : string)
| OtherThrown (text : string).

(** [error instanceof Error ? error.message : String(error)]. *)
Definition errorText (error : Thrown) : string :=
  match error with
  | ErrorObject message => message
  | OtherThrown text => text
  end.

(** The [code] property of a rejected API call: an integer-valued number, or
    any other value, given by its rendering in a template literal. *)
Inductive ErrorCode : Type :=
| NumericCode (status : Z)
| OtherCode (text : string).

(** What a call to the remote API rejects with: an object that has a [code]
    property (and maybe a [message]), or any other thrown value. *)
Inductive ApiFailure : Type :=
| Coded (code : ErrorCode) (message : option string)
| Uncoded (error : Thrown).

(** [message || fallback]. *)
Definition orElse (s : option string) (fallback : string) : string :=
  match s with
  | Some EmptyString => fallback
  | Some x => x
  | None => fallback
  end.

(** [handleApiError]: always throws an [Error]; this is its message. *)
Definition handleApiError (error : ApiFailure) (context : string) : string :=
  match error with
  | Coded code message =>
      match code with
      | NumericCode 404 =>
          context ++ ": スプレッドシートが見つかりません。IDを確認し、サービスアカウントに共有してください。"
      | NumericCode 403 =>
          context ++ ": 権限がありません。スプレッドシートをサービスアカウントのメールアドレスに共有してください。"
      | NumericCode 400 =>
          context ++ ": 無効なリクエストです。範囲指定はA1記法を使用してください（例: Sheet1!A1:D10）。Detail: "
            ++ orElse message ""
      | NumericCode status =>
          context ++ " (" ++ Js.intToString status ++ "): "
            ++ orElse message "Unknown error"
      | OtherCode text =>
          context ++ " (" ++ text ++ "): " ++ orElse message "Unknown error"
      end
  | Uncoded e => context ++ ": " ++ errorText e
  end.

(** Data of the remote API. *)
Record GridProperties `{JsRuntime} := {
  gridRowCount : option Number;
  gridColumnCount : option Number
}.

Record SheetProperties `{JsRuntime} := {
  propSheetId : Number;
  propTitle : string;
  gridProperties : option GridProperties
}.

Record SpreadsheetProperties := {
  spreadsheetTitle : string;
  spreadsheetLocale : option string;
  spreadsheetTimeZone : option string
}.

(** The response of [spreadsheets.get] under the field mask the client asks
    for; the fields the code asserts with [!] are present. *)
Record Spreadsheet `{JsRuntime} := {
  dataSpreadsheetId : string;
  properties : SpreadsheetProperties;
  dataSheets : option (list SheetProperties)
}.

(** The format the handler of update-formatting builds and the client sends
    as [userEnteredFormat]. *)
Inductive HorizontalAlign : Type := LEFT | CENTER | RIGHT.

Inductive NumberFormatType : Type :=
| TEXT | NUMBER | PERCENT | CURRENCY | DATE | TIME | DATE_TIME | SCIENTIFIC.

Record RgbColor `{JsRuntime} := {
  red : option Number;
  green : option Number;
  blue : option Number
}.

Record NumberFormat := {
  type : NumberFormatType;
  pattern : option string
}.

Record TextFormat `{JsRuntime} := {
  bold : option bool;
  italic : option bool;
  strikethrough : option bool;
  fontSize : option Number;
  fontFamily : option string;
  foregroundColor : option RgbColor
}.

Record CellFormat `{JsRuntime} := {
  textFormat : option TextFormat;
  backgroundColor : option RgbColor;
  horizontalAlignment : option HorizontalAlign;
  numberFormat : option NumberFormat
}.

Record GridRange `{JsRuntime} := {
  sheetId : Number;
  startRowIndex : Number;
  endRowIndex : Number;
  startColumnIndex : Number;
  endColumnIndex : Number
}.

(** The entries of [requestBody.requests] that the client sends. *)
Inductive UpdateRequest `{JsRuntime} : Type :=
| DeleteSheet (sheetId : Number)
| RepeatCell (range : GridRange) (userEnteredFormat : CellFormat)
             (fields : string).

(** The calls to the remote API. *)
Inductive Request `{JsRuntime} : Type :=
| SpreadsheetsGet (spreadsheetId : string) (fields : string)
| ValuesGet (spreadsheetId : string) (range : string)
            (valueRenderOption : string)
| BatchUpdate (spreadsheetId : string) (requests : list UpdateRequest).

(** The world outside the process: what loading the credentials throws, if
    anything, and how the remote service answers each call.  An answer may
    depend on the calls the process has made before, which are the first
    argument. *)
Record World `{JsRuntime} := {
  loadCredentials : option Thrown;
  spreadsheets_get :
    list Request -> string -> string -> ApiFailure + Spreadsheet;
  values_get :
    list Request -> string -> string -> string
    -> ApiFailure + option (list (list Formatter.Cell));
  batchUpdate :
    list Request -> string -> list UpdateRequest -> ApiFailure + unit
}.

(** The state of the process: whether the singleton client exists, and the
    calls made to the remote API so far, oldest first. *)
Record State `{JsRuntime} := {
  clientInstance : bool;
  sent : list Request
}.

(** A computation that may throw and that may call the remote API. *)
Definition M `{JsRuntime} (A : Type) : Type :=
  State -> (Thrown + A) * State.

Section Monad.
Context `{JsRuntime}.

Definition ret {A : Type} (a : A) : M A :=
  fun st => (inr a, st).

Definition throw {A : Type} (e : Thrown) : M A :=
  fun st => (inl e, st).

Definition bind {A B : Type} (c : M A) (k : A -> M B) : M B :=
  fun st =>
    match c st with
    | (inr a, st') => k a st'
    | (inl e, st') => (inl e, st')
    end.

(** [try { c } catch (error) { handler }]. *)
Definition tryCatch {A : Type} (c : M A) (handler : Thrown -> M A) : M A :=
  fun st =>
    match c st with
    | (inr a, st') => (inr a, st')
    | (inl e, st') => handler e st'
    end.

(** A call of the formatter inside a handler: the [RangeError] that the
    formatter throws is an [Error] with that message. *)
Definition rendered {A : Type} (outcome : string + A) : M A :=
  fun st =>
    (match outcome with
     | inl message => inl (ErrorObject message)
     | inr a => inr a
     end,
     st).

(** One call to the remote API: the call is recorded and answered. *)
Definition call {A : Type} (request : Request)
    (answer : list Request -> ApiFailure + A)
  : State -> (ApiFailure + A) * State :=
  fun st =>
    (answer (sent st),
     {| clientInstance := clientInstance st;
        sent := Js.push (sent st) request |}).

End Monad.

Notation "x <- c ;; k" := (bind c (fun x => k))
  (at level 61, c at next level, right associativity).

(** [SheetInfo] and [SpreadsheetInfo] of the client. *)
Record SheetInfo `{JsRuntime} := {
  infoSheetId : Number;
  title : string;
  rowCount : Number;
  columnCount : Number
}.

Record SpreadsheetInfo `{JsRuntime} := {
  spreadsheetId : string;
  infoTitle : string;
  locale : string;
  timeZone : string;
  sheets : list SheetInfo
}.

Section SheetsClient.
Context `{JsRuntime}.
Variable world : World.

(** [getSheetsClient]: the singleton is built on first use, which loads the
    credentials. *)
Definition getSheetsClient : M unit :=
  fun st =>
    if clientInstance st then (inr tt, st)
    else match loadCredentials world with
         | Some e => (inl e, st)
         | None => (inr tt, {| clientInstance := true; sent := sent st |})
         end.

(** The shape of a client method:
    [try { r = await call; return result(r) } catch (error) { return handleApiError(error, context) }]. *)
Definition apiCall {A B : Type} (request : Request)
    (answer : list Request -> ApiFailure + A) (context : string)
    (result : A -> B) : M B :=
  fun st =>
    match call request answer st with
    | (inr a, st') => (inr (result a), st')
    | (inl failure, st') =>
        (inl (ErrorObject (handleApiError failure context)), st')
    end.

Definition infoFields : string :=
  "spreadsheetId,properties.title,properties.locale,properties.timeZone,sheets.properties".

Definition sheetInfoOf (s : SheetProperties) : SheetInfo :=
  {| infoSheetId := propSheetId s;
     title := propTitle s;
     rowCount :=
       match gridProperties s with
       | Some {| gridRowCount := Some n |} => n
       | _ => fromInt 0
       end;
     columnCount :=
       match gridProperties s with
       | Some {| gridColumnCount := Some n |} => n
       | _ => fromInt 0
       end |}.

(** The value [getSpreadsheetInfo] returns for the data of a response. *)
Definition spreadsheetInfoOf (data : Spreadsheet) : SpreadsheetInfo :=
  let props := properties data in
  let sheets :=
    map sheetInfoOf
      (match dataSheets data with Some l => l | None => [] end) in
  {| spreadsheetId := dataSpreadsheetId data;
     infoTitle := spreadsheetTitle props;
     locale := orElse (spreadsheetLocale props) "";
     timeZone := orElse (spreadsheetTimeZone props) "";
     sheets := sheets |}.

Definition getSpreadsheetInfo (spreadsheetId : string) : M SpreadsheetInfo :=
  apiCall (SpreadsheetsGet spreadsheetId infoFields)
    (fun history => spreadsheets_get world history spreadsheetId infoFields)
    "Failed to get spreadsheet info"
    spreadsheetInfoOf.

Definition getValues (spreadsheetId range : string)
  : M (list (list Formatter.Cell)) :=
  apiCall (ValuesGet spreadsheetId range "FORMATTED_VALUE")
    (fun history =>
       values_get world history spreadsheetId range "FORMATTED_VALUE")
    ("Failed to read values from " ++ range)
    (fun values => match values with Some v => v | None => [] end).

Definition deleteSheet (spreadsheetId : string) (sheetId : Number) : M unit :=
  apiCall (BatchUpdate spreadsheetId [DeleteSheet sheetId])
    (fun history =>
       batchUpdate world history spreadsheetId [DeleteSheet sheetId])
    ("Failed to delete sheet " ++ numberToString sheetId)
    (fun _ => tt).

Definition updateFormatting (spreadsheetId : string) (sheetId : Number)
    (startRowIndex endRowIndex startColumnIndex endColumnIndex : Number)
    (format : CellFormat) (fields : string) : M unit :=
  let requests :=
    [RepeatCell
       {| sheetId := sheetId;
          startRowIndex := startRowIndex;
          endRowIndex := endRowIndex;
          startColumnIndex := startColumnIndex;
          endColumnIndex := endColumnIndex |}
       format
       ("userEnteredFormat(" ++ fields ++ ")")] in
  apiCall (BatchUpdate spreadsheetId requests)
    (fun history => batchUpdate world history spreadsheetId requests)
    "Failed to update formatting"
    (fun _ => tt).

(** [resolveSheetId]: the first sheet whose lower-cased title equals the
    lower-cased [sheetTitle]. *)
Definition sameTitle (sheetTitle : string) (s : SheetInfo) : bool :=
  String.eqb (toLowerCase (title s)) (toLowerCase sheetTitle).

Definition resolveSheetId (spreadsheetId sheetTitle : string) : M Number :=
  info <- getSpreadsheetInfo spreadsheetId ;;
  match find (sameTitle sheetTitle) (sheets info) with
  | Some sheet => ret (infoSheetId sheet)
  | None =>
      throw (ErrorObject
               ("Sheet " ++ Js.quote ++ sheetTitle ++ Js.quote
                  ++ " not found. Available sheets: "
                  ++ Js.join ", " (map title (sheets info))))
  end.

End SheetsClient.

End Client.

(* ===================================================================== *)
(** ** Argument validation (the zod schemas of index.ts)                  *)
(* ===================================================================== *)

(** zod is a library, not code of this repository.  What [parse] does on
    the combinators that index.ts uses, and how its issues are rendered by
    [JSON.stringify], is written out below as zod 3 does it, the version
    whose [ZodError] has the [errors] property that the dispatcher reads. *)

(** The raw arguments of a tool call: a value decoded from JSON, or
    [undefined] when the request carries no [arguments]. *)
Inductive Value `{JsRuntime} : Type :=
| VUndefined
| VNull
| VBoolean (b : bool)
| VNumber (n : Number)
| VString (s : string)
| VArray (items : list Value)
| VObject (fields : list (string * Value)).

Module Zod.

(** The schema combinators that index.ts uses. *)
Inductive Schema : Type :=
| ZString
| ZNumber
| ZBoolean
| ZNull
| ZArray (element : Schema)
| ZObject (shape : list (string * Schema))
| ZOptional (inner : Schema)
| ZUnion (options : list Schema)
| ZEnum (values : list string).

Inductive PathSegment : Type :=
| Key (name : string)
| Index (i : nat).

(** The issues of a [ZodError].  Each constructor lists the keys of the issue
    object other than [path] and [message]:
    - [InvalidType]: [code], [expected], [received];
    - [InvalidEnumType], a non-string given to an enum: [expected],
      [received], [code];
    - [InvalidEnumValue]: [received], [code], [options];
    - [InvalidUnion]: [code], [unionErrors]. *)
Inductive Issue : Type :=
| InvalidType (expected received : string) (path : list PathSegment)
| InvalidEnumType (expected received : string) (path : list PathSegment)
| InvalidEnumValue (received : string) (options : list string)
                   (path : list PathSegment)
| InvalidUnion (unionErrors : list (list Issue)) (path : list PathSegment).

Definition issuePath (issue : Issue) : list PathSegment :=
  match issue with
  | InvalidType _ _ path => path
  | InvalidEnumType _ _ path => path
  | InvalidEnumValue _ _ path => path
  | InvalidUnion _ path => path
  end.

Section Parse.
Context `{JsRuntime}.

(** [data[key]] on a decoded object: [undefined] when the key is absent. *)
Fixpoint prop (fields : list (string * Value)) (key : string) : Value :=
  match fields with
  | [] => VUndefined
  | (k, v) :: rest => if String.eqb k key then v else prop rest key
  end.

Definition isUndefined (v : Value) : bool :=
  match v with VUndefined => true | _ => false end.

(** zod's name for the type of a value. *)
Definition parsedType (v : Value) : string :=
  match v with
  | VUndefined => "undefined"
  | VNull => "null"
  | VBoolean _ => "boolean"
  | VNumber _ => "number"
  | VString _ => "string"
  | VArray _ => "array"
  | VObject _ => "object"
  end.

(** [util.joinValues]: ['a' | 'b' | 'c']. *)
Definition joinValues (values : list string) : string :=
  Js.join " | " (map (fun v => "'" ++ v ++ "'") values).

Definition primitiveIssues (expected : string) (ok : bool)
    (path : list PathSegment) (v : Value) : list Issue :=
  if ok then [] else [InvalidType expected (parsedType v) path].

(** The issues that parsing [v] against a schema adds, in the order zod
    finds them; the empty list means that [v] is valid. *)
Fixpoint issuesOf (schema : Schema) (path : list PathSegment) (v : Value)
  {struct schema} : list Issue :=
  match schema with
  | ZString =>
      primitiveIssues "string"
        (match v with VString _ => true | _ => false end) path v
  | ZNumber =>
      primitiveIssues "number"
        (match v with VNumber _ => true | _ => false end) path v
  | ZBoolean =>
      primitiveIssues "boolean"
        (match v with VBoolean _ => true | _ => false end) path v
  | ZNull =>
      primitiveIssues "null"
        (match v with VNull => true | _ => false end) path v
  | ZArray element =>
      match v with
      | VArray items =>
          (fix elements (i : nat) (items : list Value) : list Issue :=
             match items with
             | [] => []
             | item :: rest =>
                 (issuesOf element (Js.push path (Index i)) item
                    ++ elements (S i) rest)%list
             end) 0 items
      | _ => [InvalidType "array" (parsedType v) path]
      end
  | ZObject shape =>
      match v with
      | VObject fields =>
          (fix members (shape : list (string * Schema)) : list Issue :=
             match shape with
             | [] => []
             | (key, member) :: rest =>
                 (issuesOf member (Js.push path (Key key)) (prop fields key)
                    ++ members rest)%list
             end) shape
      | _ => [InvalidType "object" (parsedType v) path]
      end
  | ZOptional inner =>
      if isUndefined v then [] else issuesOf inner path v
  | ZUnion options =>
      let attempts := map (fun option => issuesOf option path v) options in
      if existsb (fun found => match found with [] => true | _ => false end)
                 attempts
      then []
      else [InvalidUnion attempts path]
  | ZEnum values =>
      match v with
      | VString s =>
          if existsb (String.eqb s) values then []
          else [InvalidEnumValue s values path]
      | _ => [InvalidEnumType (joinValues values) (parsedType v) path]
      end
  end.

(** The value [parse] returns for a valid input: keys that the shape of an
    object does not declare are stripped. *)
Fixpoint outputOf (schema : Schema) (v : Value) {struct schema} : Value :=
  match schema with
  | ZArray element =>
      match v with
      | VArray items => VArray (map (outputOf element) items)
      | _ => v
      end
  | ZObject shape =>
      match v with
      | VObject fields =>
          VObject
            ((fix members (shape : list (string * Schema))
                : list (string * Value) :=
                match shape with
                | [] => []
                | (key, member) :: rest =>
                    let out := outputOf member (prop fields key) in
                    if isUndefined out && isUndefined (prop fields key)
                    then members rest
                    else (key, out) :: members rest
                end) shape)
      | _ => v
      end
  | ZOptional inner => if isUndefined v then v else outputOf inner v
  | ZUnion options =>
      (fix firstValid (options : list Schema) : Value :=
         match options with
         | [] => v
         | option :: rest =>
             match issuesOf option [] v with
             | [] => outputOf option v
             | _ => firstValid rest
             end
         end) options
  | _ => v
  end.

(** [schema.parse(data)]: the parsed value, or the issues of the
    [ZodError] it throws. *)
Definition parse (schema : Schema) (data : Value) : list Issue + Value :=
  match issuesOf schema [] data with
  | [] => inr (outputOf schema data)
  | issues => inl issues
  end.

End Parse.

(** *** [JSON.stringify] of the issues *)

Definition hexDigit (n : nat) : ascii :=
  match n with
  | 0 => "0" | 1 => "1" | 2 => "2" | 3 => "3" | 4 => "4" | 5 => "5"
  | 6 => "6" | 7 => "7" | 8 => "8" | 9 => "9" | 10 => "a" | 11 => "b"
  | 12 => "c" | 13 => "d" | 14 => "e" | _ => "f"
  end%char.

(** The escape of one byte inside a JSON string. *)
Definition jsonChar (c : ascii) : string :=
  let code := nat_of_ascii c in
  if (code =? 34)%nat then "\" ++ Js.quote
  else if (code =? 92)%nat then "\\"
  else if (code =? 8)%nat then "\b"
  else if (code =? 9)%nat then "\t"
  else if (code =? 10)%nat then "\n"
  else if (code =? 12)%nat then "\f"
  else if (code =? 13)%nat then "\r"
  else if (code <? 32)%nat
       then "\u00" ++ String (hexDigit (code / 16))
                         (String (hexDigit (code mod 16)) EmptyString)
  else String c EmptyString.

Fixpoint jsonEscape (s : string) : string :=
  match s with
  | EmptyString => EmptyString
  | String c rest => jsonChar c ++ jsonEscape rest
  end.

Definition jsonString (s : string) : string :=
  Js.quote ++ jsonEscape s ++ Js.quote.

Definition jsonArray (items : list string) : string :=
  "[" ++ Js.join "," items ++ "]".

Definition jsonField (key value : string) : string :=
  jsonString key ++ ":" ++ value.

Definition jsonObject (fields : list string) : string :=
  "{" ++ Js.join "," fields ++ "}".

Definition stringifySegment (segment : PathSegment) : string :=
  match segment with
  | Key name => jsonString name
  | Index i => Js.natToString i
  end.

Definition stringifyPath (path : list PathSegment) : string :=
  jsonArray (map stringifySegment path).

(** The message zod's default error map gives an [invalid_type] issue. *)
Definition invalidTypeMessage (expected received : string) : string :=
  if String.eqb received "undefined" then "Required"
  else "Expected " ++ expected ++ ", received " ++ received.

Fixpoint stringifyIssue (issue : Issue) : string :=
  match issue with
  | InvalidType expected received path =>
      jsonObject
        [jsonField "code" (jsonString "invalid_type");
         jsonField "expected" (jsonString expected);
         jsonField "received" (jsonString received);
         jsonField "path" (stringifyPath path);
         jsonField "message"
           (jsonString (invalidTypeMessage expected received))]
  | InvalidEnumType expected received path =>
      jsonObject
        [jsonField "expected" (jsonString expected);
         jsonField "received" (jsonString received);
         jsonField "code" (jsonString "invalid_type");
         jsonField "path" (stringifyPath path);
         jsonField "message"
           (jsonString (invalidTypeMessage expected received))]
  | InvalidEnumValue received options path =>
      jsonObject
        [jsonField "received" (jsonString received);
         jsonField "code" (jsonString "invalid_enum_value");
         jsonField "options" (jsonArray (map jsonString options));
         jsonField "path" (stringifyPath path);
         jsonField "message"
           (jsonString ("Invalid enum value. Expected " ++ joinValues options
                          ++ ", received '" ++ received ++ "'"))]
  | InvalidUnion unionErrors path =>
      jsonObject
        [jsonField "code" (jsonString "invalid_union");
         jsonField "unionErrors"
           (jsonArray
              (map (fun issues =>
                      jsonObject
                        [jsonField "issues"
                           (jsonArray (map stringifyIssue issues));
                         jsonField "name" (jsonString "ZodError")])
                   unionErrors));
         jsonField "path" (stringifyPath path);
         jsonField "message" (jsonString "Invalid input")]
  end.

(** [JSON.stringify(error.errors)]. *)
Definition stringifyIssues (issues : list Issue) : string :=
  jsonArray (map stringifyIssue issues).

End Zod.

(* ===================================================================== *)
(** ** index.ts                                                           *)
(* ===================================================================== *)

Module Server.

Import Client.

(** The response envelope.  [isError] is [None] when the key is absent. *)
Record TextContent := {
  contentType : string;
  text : string
}.

Record CallToolResult := {
  isError : option bool;
  content : list TextContent
}.

Definition createTextResponse (text : string) : CallToolResult :=
  {| isError := None;
     content := [{| contentType := "text"; text := text |}] |}.

Definition createErrorResponse (message : string) : CallToolResult :=
  {| isError := Some true;
     content := [{| contentType := "text"; text := message |}] |}.

(** *** Tool schemas *)

(** The keys of [schemas] and of [handlers]. *)
Inductive ToolName : Type :=
| get_spreadsheet_info
| read_values
| read_formulas
| read_all
| update_cells
| batch_update_cells
| append_rows
| add_sheet
| delete_sheet
| get_formatting
| update_formatting.

Definition allTools : list ToolName :=
  [get_spreadsheet_info; read_values; read_formulas; read_all; update_cells;
   batch_update_cells; append_rows; add_sheet; delete_sheet; get_formatting;
   update_formatting].

Definition toolKey (tool : ToolName) : string :=
  match tool with
  | get_spreadsheet_info => "get-spreadsheet-info"
  | read_values => "read-values"
  | read_formulas => "read-formulas"
  | read_all => "read-all"
  | update_cells => "update-cells"
  | batch_update_cells => "batch-update-cells"
  | append_rows => "append-rows"
  | add_sheet => "add-sheet"
  | delete_sheet => "delete-sheet"
  | get_formatting => "get-formatting"
  | update_formatting => "update-formatting"
  end.

Import Zod.

Definition cellValueSchema : Schema :=
  ZUnion [ZString; ZNumber; ZBoolean; ZNull].

Definition rangeSchema : Schema :=
  ZObject [("spreadsheetId", ZString); ("range", ZString)].

Definition valuesSchema : Schema :=
  ZObject [("spreadsheetId", ZString);
           ("range", ZString);
           ("values", ZArray (ZArray cellValueSchema))].

Definition colorSchema : Schema :=
  ZObject [("red", ZOptional ZNumber);
           ("green", ZOptional ZNumber);
           ("blue", ZOptional ZNumber)].

Definition formatSchema : Schema :=
  ZObject
    [("bold", ZOptional ZBoolean);
     ("italic", ZOptional ZBoolean);
     ("strikethrough", ZOptional ZBoolean);
     ("fontSize", ZOptional ZNumber);
     ("fontFamily", ZOptional ZString);
     ("foregroundColor", ZOptional colorSchema);
     ("backgroundColor", ZOptional colorSchema);
     ("horizontalAlignment", ZOptional (ZEnum ["LEFT"; "CENTER"; "RIGHT"]));
     ("numberFormat",
      ZOptional
        (ZObject
           [("type",
             ZEnum ["TEXT"; "NUMBER"; "PERCENT"; "CURRENCY"; "DATE"; "TIME";
                    "DATE_TIME"; "SCIENTIFIC"]);
            ("pattern", ZOptional ZString)]))].

Definition schemas (tool : ToolName) : Schema :=
  match tool with
  | get_spreadsheet_info => ZObject [("spreadsheetId", ZString)]
  | read_values => rangeSchema
  | read_formulas => rangeSchema
  | read_all => rangeSchema
  | update_cells => valuesSchema
  | batch_update_cells =>
      ZObject
        [("spreadsheetId", ZString);
         ("data",
          ZArray (ZObject [("range", ZString);
                           ("values", ZArray (ZArray cellValueSchema))]))]
  | append_rows => valuesSchema
  | add_sheet =>
      ZObject [("spreadsheetId", ZString);
               ("title", ZString);
               ("rowCount", ZOptional ZNumber);
               ("columnCount", ZOptional ZNumber)]
  | delete_sheet =>
      ZObject [("spreadsheetId", ZString); ("sheetTitle", ZString)]
  | get_formatting => rangeSchema
  | update_formatting =>
      ZObject [("spreadsheetId", ZString);
               ("sheetTitle", ZString);
               ("startRowIndex", ZNumber);
               ("endRowIndex", ZNumber);
               ("startColumnIndex", ZNumber);
               ("endColumnIndex", ZNumber);
               ("format", formatSchema)]
  end.

(** *** Tool handlers *)

(** The parameters of delete-sheet and of update-formatting, as the types
    inferred from their schemas. *)
Record DeleteSheetParams := {
  deleteSpreadsheetId : string;
  deleteSheetTitle : string
}.

Record FormatParams `{JsRuntime} := {
  bold : option bool;
  italic : option bool;
  strikethrough : option bool;
  fontSize : option Number;
  fontFamily : option string;
  foregroundColor : option RgbColor;
  backgroundColor : option RgbColor;
  horizontalAlignment : option HorizontalAlign;
  numberFormat : option NumberFormat
}.

Record UpdateFormattingParams `{JsRuntime} := {
  spreadsheetId : string;
  sheetTitle : string;
  startRowIndex : Number;
  endRowIndex : Number;
  startColumnIndex : Number;
  endColumnIndex : Number;
  format : FormatParams
}.

Section Handlers.
Context `{JsRuntime}.
Variable world : World.

(** The [try] block around the read of the data of the sheet to delete.
    Its [catch] takes whatever the block throws: a rejected read, and the
    [RangeError] of [formatAsMarkdownTable] as well. *)
Definition readBackup (params : DeleteSheetParams) : M string :=
  tryCatch
    (values <- getValues world (deleteSpreadsheetId params)
                 (deleteSheetTitle params ++ "!A:ZZ") ;;
     if (0 <? List.length values)%nat
     then
       table <- rendered (Formatter.formatAsMarkdownTable values false) ;;
       ret (Js.nl ++ Js.nl ++ "## Deleted Sheet Data (backup)" ++ Js.nl
              ++ Js.nl ++ table)
     else ret "")
    (fun _ => ret "").

(** [handlers['delete-sheet']]. *)
Definition deleteSheetHandler (params : DeleteSheetParams) : M CallToolResult :=
  tryCatch
    (_ <- getSheetsClient world ;;
     sheetId <- resolveSheetId world (deleteSpreadsheetId params)
                  (deleteSheetTitle params) ;;
     backupData <- readBackup params ;;
     _ <- deleteSheet world (deleteSpreadsheetId params) sheetId ;;
     ret (createTextResponse
            ("Sheet " ++ Js.quote ++ deleteSheetTitle params ++ Js.quote
               ++ " (ID: " ++ numberToString sheetId
               ++ ") deleted successfully." ++ backupData)))
    (fun error =>
       ret (createErrorResponse
              ("Failed to delete sheet: " ++ errorText error))).

Definition isDefined {A : Type} (x : option A) : bool :=
  match x with Some _ => true | None => false end.

(** [if (value !== undefined) { target.key = value; fieldParts.push(name) }],
    on the pair of the object under construction and [fieldParts]. *)
Definition assign {A T : Type} (value : option A) (set : A -> T -> T)
    (name : string) (acc : T * list string) : T * list string :=
  match value with
  | Some v => (set v (fst acc), Js.push (snd acc) name)
  | None => acc
  end.

Definition emptyTextFormat : TextFormat :=
  {| Client.bold := None; Client.italic := None; Client.strikethrough := None;
     Client.fontSize := None; Client.fontFamily := None;
     Client.foregroundColor := None |}.

Definition emptyCellFormat : CellFormat :=
  {| textFormat := None; Client.backgroundColor := None;
     Client.horizontalAlignment := None; Client.numberFormat := None |}.

Definition setBold (v : bool) (t : TextFormat) : TextFormat :=
  {| Client.bold := Some v; Client.italic := Client.italic t;
     Client.strikethrough := Client.strikethrough t;
     Client.fontSize := Client.fontSize t;
     Client.fontFamily := Client.fontFamily t;
     Client.foregroundColor := Client.foregroundColor t |}.

Definition setItalic (v : bool) (t : TextFormat) : TextFormat :=
  {| Client.bold := Client.bold t; Client.italic := Some v;
     Client.strikethrough := Client.strikethrough t;
     Client.fontSize := Client.fontSize t;
     Client.fontFamily := Client.fontFamily t;
     Client.foregroundColor := Client.foregroundColor t |}.

Definition setStrikethrough (v : bool) (t : TextFormat) : TextFormat :=
  {| Client.bold := Client.bold t; Client.italic := Client.italic t;
     Client.strikethrough := Some v;
     Client.fontSize := Client.fontSize t;
     Client.fontFamily := Client.fontFamily t;
     Client.foregroundColor := Client.foregroundColor t |}.

Definition setFontSize (v : Number) (t : TextFormat) : TextFormat :=
  {| Client.bold := Client.bold t; Client.italic := Client.italic t;
     Client.strikethrough := Client.strikethrough t;
     Client.fontSize := Some v;
     Client.fontFamily := Client.fontFamily t;
     Client.foregroundColor := Client.foregroundColor t |}.

Definition setFontFamily (v : string) (t : TextFormat) : TextFormat :=
  {| Client.bold := Client.bold t; Client.italic := Client.italic t;
     Client.strikethrough := Client.strikethrough t;
     Client.fontSize := Client.fontSize t;
     Client.fontFamily := Some v;
     Client.foregroundColor := Client.foregroundColor t |}.

Definition setForegroundColor (v : RgbColor) (t : TextFormat) : TextFormat :=
  {| Client.bold := Client.bold t; Client.italic := Client.italic t;
     Client.strikethrough := Client.strikethrough t;
     Client.fontSize := Client.fontSize t;
     Client.fontFamily := Client.fontFamily t;
     Client.foregroundColor := Some v |}.

Definition setTextFormat (v : TextFormat) (c : CellFormat) : CellFormat :=
  {| textFormat := Some v;
     Client.backgroundColor := Client.backgroundColor c;
     Client.horizontalAlignment := Client.horizontalAlignment c;
     Client.numberFormat := Client.numberFormat c |}.

Definition setBackgroundColor (v : RgbColor) (c : CellFormat) : CellFormat :=
  {| textFormat := textFormat c;
     Client.backgroundColor := Some v;
     Client.horizontalAlignment := Client.horizontalAlignment c;
     Client.numberFormat := Client.numberFormat c |}.

Definition setHorizontalAlignment (v : HorizontalAlign) (c : CellFormat)
  : CellFormat :=
  {| textFormat := textFormat c;
     Client.backgroundColor := Client.backgroundColor c;
     Client.horizontalAlignment := Some v;
     Client.numberFormat := Client.numberFormat c |}.

Definition setNumberFormat (v : NumberFormat) (c : CellFormat) : CellFormat :=
  {| textFormat := textFormat c;
     Client.backgroundColor := Client.backgroundColor c;
     Client.horizontalAlignment := Client.horizontalAlignment c;
     Client.numberFormat := Some v |}.

(** "Build CellFormat object": the [cellFormat] and the [fieldParts] that
    the handler of update-formatting builds from [params.format]. *)
Definition buildCellFormat (format : FormatParams) : CellFormat * list string :=
  let acc := (emptyCellFormat, []) in
  let acc :=
    if isDefined (bold format) || isDefined (italic format)
       || isDefined (strikethrough format) || isDefined (fontSize format)
       || isDefined (fontFamily format) || isDefined (foregroundColor format)
    then
      let text := (emptyTextFormat, snd acc) in
      let text := assign (bold format) setBold "textFormat.bold" text in
      let text := assign (italic format) setItalic "textFormat.italic" text in
      let text := assign (strikethrough format) setStrikethrough
                    "textFormat.strikethrough" text in
      let text := assign (fontSize format) setFontSize
                    "textFormat.fontSize" text in
      let text := assign (fontFamily format) setFontFamily
                    "textFormat.fontFamily" text in
      let text := assign (foregroundColor format) setForegroundColor
                    "textFormat.foregroundColor" text in
      (setTextFormat (fst text) (fst acc), snd text)
    else acc in
  let acc := assign (backgroundColor format) setBackgroundColor
               "backgroundColor" acc in
  let acc := assign (horizontalAlignment format) setHorizontalAlignment
               "horizontalAlignment" acc in
  assign (numberFormat format) setNumberFormat "numberFormat" acc.

(** [handlers['update-formatting']]. *)
Definition updateFormattingHandler (params : UpdateFormattingParams)
  : M CallToolResult :=
  tryCatch
    (_ <- getSheetsClient world ;;
     sheetId <- resolveSheetId world (spreadsheetId params)
                  (sheetTitle params) ;;
     let '(cellFormat, fieldParts) := buildCellFormat (format params) in
     if (List.length fieldParts =? 0)%nat
     then ret (createErrorResponse "No formatting properties specified.")
     else
       _ <- updateFormatting world (spreadsheetId params) sheetId
              (startRowIndex params) (endRowIndex params)
              (startColumnIndex params) (endColumnIndex params)
              cellFormat (Js.join "," fieldParts) ;;
       ret (createTextResponse
              ("Formatting updated for " ++ sheetTitle params ++ " "
                 ++ "[rows " ++ numberToString (startRowIndex params) ++ "-"
                 ++ numberToString (endRowIndex params) ++ ", cols "
                 ++ numberToString (startColumnIndex params) ++ "-"
                 ++ numberToString (endColumnIndex params) ++ "]" ++ Js.nl
                 ++ Js.nl ++ "Applied: " ++ Js.join ", " fieldParts)))
    (fun error =>
       ret (createErrorResponse
              ("Failed to update formatting: " ++ errorText error))).

End Handlers.

(** *** The handler of [CallToolRequestSchema] *)

(** What [handlers[name]] and [schemas[name]] find for a string [name]: one
    of the eleven own keys, a property inherited from [Object.prototype]
    (truthy, and not a schema), or nothing. *)
Inductive Lookup : Type :=
| Own (tool : ToolName)
| Inherited
| Absent.

Definition objectPrototypeKeys : list string :=
  ["constructor"; "__defineGetter__"; "__defineSetter__"; "hasOwnProperty";
   "__lookupGetter__"; "__lookupSetter__"; "isPrototypeOf";
   "propertyIsEnumerable"; "toString"; "valueOf"; "__proto__";
   "toLocaleString"].

Definition lookup (name : string) : Lookup :=
  match find (fun tool => String.eqb (toolKey tool) name) allTools with
  | Some tool => Own tool
  | None =>
      if existsb (String.eqb name) objectPrototypeKeys then Inherited
      else Absent
  end.

(** What the [catch] of the dispatcher receives. *)
Inductive Caught : Type :=
| CaughtZodError (issues : list Issue)
| CaughtOther (error : Thrown).

Section Dispatcher.
Context `{JsRuntime}.

(** The table of handlers, each applied to the parsed arguments. *)
Variable handlers : ToolName -> Value -> M CallToolResult.

(** The [catch] block. *)
Definition onCaught (name : string) (error : Caught) : CallToolResult :=
  match error with
  | CaughtZodError issues =>
      createErrorResponse
        ("Invalid arguments for " ++ name ++ ": " ++ stringifyIssues issues)
  | CaughtOther e =>
      createErrorResponse ("Tool execution failed: " ++ errorText e)
  end.

(** The request handler registered for [CallToolRequestSchema].  For an
    inherited key both [handler] and [schema] are truthy and [schema.parse]
    is not a function, which throws a [TypeError] inside the [try].  The
    branch "Schema not found" cannot be taken, [schemas] and [handlers]
    having the same keys. *)
Definition callTool (name : string) (args : Value) : M CallToolResult :=
  fun st =>
    match lookup name with
    | Absent => (inr (createErrorResponse ("Unknown tool: " ++ name)), st)
    | Inherited =>
        (inr (onCaught name
                (CaughtOther (ErrorObject "schema.parse is not a function"))),
         st)
    | Own tool =>
        match parse (schemas tool) args with
        | inl issues => (inr (onCaught name (CaughtZodError issues)), st)
        | inr validatedArgs =>
            match handlers tool validatedArgs st with
            | (inr result, st') => (inr result, st')
            | (inl e, st') => (inr (onCaught name (CaughtOther e)), st')
            end
        end
    end.

End Dispatcher.

End Server.

(* ===================================================================== *)
(** ** A runtime and a world to run the code on                           *)
(* ===================================================================== *)

Module Sample.

Import Client Server.

Definition lowerChar (c : ascii) : ascii :=
  let code := nat_of_ascii c in
  if (65 <=? code)%nat && (code <=? 90)%nat then ascii_of_nat (code + 32)
  else c.

Fixpoint lowerAscii (s : string) : string :=
  match s with
  | EmptyString => EmptyString
  | String c rest => String (lowerChar c) (lowerAscii rest)
  end.

(** The runtime restricted to integers and to ASCII letters. *)
Definition integerRuntime : JsRuntime :=
  {| Number := Z;
     numberToString := Js.intToString;
     numberTruthy := fun z => negb (Z.eqb z 0);
     scaledHex :=
       fun z => HexadecimalString.NilZero.string_of_int
                  (Z.to_hex_int (z * 255));
     toLowerCase := lowerAscii;
     fromInt := fun z => z;
     spreadLimit := 125000%N;
     spreadOverflow := "Maximum call stack size exceeded";
     spreadLimit_floor := proj1 (N.leb_le 500 125000) eq_refl |}.

#[local] Existing Instance integerRuntime.

(** A spreadsheet with the sheets "Sheet1" and "Data". *)
Definition spreadsheet : Spreadsheet :=
  {| dataSpreadsheetId := "X";
     properties := {| spreadsheetTitle := "Budget";
                      spreadsheetLocale := Some "en_US";
                      spreadsheetTimeZone := None |};
     dataSheets :=
       Some [{| propSheetId := 0%Z; propTitle := "Sheet1";
                gridProperties := None |};
             {| propSheetId := 7%Z; propTitle := "Data";
                gridProperties :=
                  Some {| gridRowCount := Some 1000%Z;
                          gridColumnCount := Some 26%Z |} |}] |}.

(** A remote service that holds [spreadsheet], answers every read of
    values with one row, and accepts every update. *)
Definition world : World :=
  {| loadCredentials := None;
     spreadsheets_get := fun _ _ _ => inr spreadsheet;
     values_get :=
       fun _ _ _ _ =>
         inr (Some [[Formatter.CString "Name"; Formatter.CString "Age"]]);
     batchUpdate := fun _ _ _ => inr tt |}.

(** The same service when reads of values are refused. *)
Definition worldWithoutReads : World :=
  {| loadCredentials := None;
     spreadsheets_get := fun _ _ _ => inr spreadsheet;
     values_get := fun _ _ _ _ => inl (Coded (NumericCode 400) None);
     batchUpdate := fun _ _ _ => inr tt |}.

(** A block of one more row than the sample runtime accepts as the
    arguments of a call, and the service when the reads of values return
    it. *)
Definition tallBlock : list (list Formatter.Cell) :=
  repeat [Formatter.CString "x"] (N.to_nat 125001).

Definition tallWorld : World :=
  {| loadCredentials := None;
     spreadsheets_get := fun _ _ _ => inr spreadsheet;
     values_get := fun _ _ _ _ => inr (Some tallBlock);
     batchUpdate := fun _ _ _ => inr tt |}.

Definition initialState : State :=
  {| clientInstance := false; sent := [] |}.

Definition noFormat : FormatParams :=
  {| bold := None; italic := None; strikethrough := None; fontSize := None;
     fontFamily := None; foregroundColor := None; backgroundColor := None;
     horizontalAlignment := None; numberFormat := None |}.

Definition formatOf (format : FormatParams) : UpdateFormattingParams :=
  {| spreadsheetId := "X"; sheetTitle := "data";
     startRowIndex := 0%Z; endRowIndex := 1%Z;
     startColumnIndex := 0%Z; endColumnIndex := 2%Z;
     format := format |}.

(** A table of handlers that answers every call with an empty text. *)
Definition handlers (tool : ToolName) (args : Value) : M CallToolResult :=
  ret (createTextResponse "").

(** A cell with an effective format that has none of the attributes the
    formatting renderer lists. *)
Definition plainCell : Formatter.CellData :=
  {| Formatter.effectiveFormat :=
       Some {| Formatter.textFormat := None;
               Formatter.backgroundColor := None;
               Formatter.numberFormat := None;
               Formatter.horizontalAlignment := None |};
     Formatter.formattedValue := Some "x" |}.

(** A cell in bold. *)
Definition boldCell : Formatter.CellData :=
  {| Formatter.effectiveFormat :=
       Some {| Formatter.textFormat :=
                 Some {| Formatter.bold := Some true;
                         Formatter.italic := None;
                         Formatter.strikethrough := None;
                         Formatter.fontSize := None;
                         Formatter.foregroundColorStyle := None |};
               Formatter.backgroundColor := None;
               Formatter.numberFormat := None;
               Formatter.horizontalAlignment := None |};
     Formatter.formattedValue := Some "Total" |}.

(** The sheet "Data" of the sample spreadsheet, as the client returns it. *)
Definition dataSheet : SheetInfo :=
  {| infoSheetId := 7%Z; title := "Data";
     rowCount := 1000%Z; columnCount := 26%Z |}.

(** A block of two rows, the second narrower than the first. *)
Definition sampleBlock : list (list Formatter.Cell) :=
  [[Formatter.CString "Name"; Formatter.CString "Age"]; [Formatter.CString "Ann"]].

(** A row of one cell that holds a carriage return and a line feed. *)
Definition returnRow : list Formatter.Cell :=
  [Formatter.CString
     (String "a" (String "013" (String "010" (String "b" EmptyString))))].

(** The arguments of a call of batch-update-cells whose one range has
    values and no [range]. *)
Definition batchArguments : Value :=
  VObject [("spreadsheetId", VString "X");
           ("data", VArray [VObject [("values", VArray [])]])].

(** A row with a pipe, a line feed and a number. *)
Definition sampleRow : list Formatter.Cell :=
  [Formatter.CString "a|b"; Formatter.CString ("x" ++ Js.nl ++ "y"); Formatter.CNumber 30%Z].

End Sample.

(* ===================================================================== *)
(** ** formatter.ts: the other renderers                                  *)
(* ===================================================================== *)

Module Rendering.

Import Formatter Client.

Section Renderers.
Context `{JsRuntime}.

(** [formatValuesAndFormulas]: the text, or [inl] of the message of the
    [RangeError] that one of the two calls of [formatAsMarkdownTable]
    throws, the table of the values being made first. *)
Definition formatValuesAndFormulas (values formulas : list (list Cell))
    (range : string) : string + string :=
  let parts := [] in
  let parts := Js.push parts ("## Values (" ++ range ++ ")") in
  match formatAsMarkdownTable values false with
  | inl thrown => inl thrown
  | inr valuesTable =>
      let parts := Js.push parts valuesTable in
      let parts := Js.push parts "" in
      let parts := Js.push parts ("## Formulas (" ++ range ++ ")") in
      match formatAsMarkdownTable formulas false with
      | inl thrown => inl thrown
      | inr formulasTable =>
          let parts := Js.push parts formulasTable in
          inr (Js.join Js.nl parts)
      end
  end.

(** The body of the loop over [info.sheets] of [formatSpreadsheetInfo]. *)
Definition pushSheet (lines : list string) (sheet : SheetInfo) : list string :=
  Js.push lines
    ("| " ++ escapeMarkdown (title sheet) ++ " | "
       ++ numberToString (infoSheetId sheet) ++ " | "
       ++ numberToString (rowCount sheet) ++ " | "
       ++ numberToString (columnCount sheet) ++ " |").

(** [formatSpreadsheetInfo]. *)
Definition formatSpreadsheetInfo (info : SpreadsheetInfo) : string :=
  let lines := [] in
  let lines := Js.push lines ("# " ++ infoTitle info) in
  let lines := Js.push lines "" in
  let lines :=
    Js.push lines ("- **Spreadsheet ID**: " ++ Client.spreadsheetId info) in
  let lines := Js.push lines ("- **Locale**: " ++ locale info) in
  let lines := Js.push lines ("- **Time Zone**: " ++ timeZone info) in
  let lines := Js.push lines "" in
  let lines := Js.push lines "## Sheets" in
  let lines := Js.push lines "" in
  let lines := Js.push lines "| Sheet Name | Sheet ID | Rows | Columns |" in
  let lines := Js.push lines "| --- | --- | --- | --- |" in
  let lines := fold_left pushSheet (sheets info) lines in
  Js.join Js.nl lines.

End Renderers.

End Rendering.

(* ===================================================================== *)
(** ** logger.ts                                                          *)
(* ===================================================================== *)

Module Logger.

Inductive LogLevel : Type :=
| debug | info | notice | warning | error | critical | alert | emergency.

(** The string that a level is. *)
Definition levelText (level : LogLevel) : string :=
  match level with
  | debug => "debug"
  | info => "info"
  | notice => "notice"
  | warning => "warning"
  | error => "error"
  | critical => "critical"
  | alert => "alert"
  | emergency => "emergency"
  end.

(** [c.toUpperCase()] for an ASCII character. *)
Definition upperChar (c : ascii) : ascii :=
  let code := nat_of_ascii c in
  if (97 <=? code)%nat && (code <=? 122)%nat then ascii_of_nat (code - 32)
  else c.

(** [s.toUpperCase()] for an ASCII string, which every level is. *)
Fixpoint upperAscii (s : string) : string :=
  match s with
  | EmptyString => EmptyString
  | String c rest => String (upperChar c) (upperAscii rest)
  end.

(** The notification that [sendNotification] builds, of method
    [notifications/logging]. *)
Record Notification := {
  method : string;
  level : LogLevel;
  data : string
}.

(** The server handed to [setServer].  [notification] is [None] when the
    object has no such method; otherwise it tells, for the notifications
    sent before and the one to send, whether the call throws, and then
    [String] of the thrown value. *)
Record McpServer := {
  notification : option (list Notification -> Notification -> option string)
}.

(** The state of the logger, with what it has written to the error stream
    and the notifications it has handed to the server, oldest first. *)
Record LoggerState := {
  mcpServer : option McpServer;
  stderr : list string;
  notified : list Notification
}.

(** A computation of the logger: it may throw, a thrown value being given
    by its [String]. *)
Definition L (A : Type) : Type := LoggerState -> (string + A) * LoggerState.

Definition setServer (server : McpServer) : L unit :=
  fun st =>
    (inr tt,
     {| mcpServer := Some server; stderr := stderr st;
        notified := notified st |}).

Definition formatMessage (level : LogLevel) (msg : string) : string :=
  "[" ++ upperAscii (levelText level) ++ "] " ++ msg.

(** [console.error(line)]. *)
Definition consoleError (line : string) : L unit :=
  fun st =>
    (inr tt,
     {| mcpServer := mcpServer st; stderr := Js.push (stderr st) line;
        notified := notified st |}).

(** [state.mcpServer.notification({...})], which may throw. *)
Definition callNotification
    (send : list Notification -> Notification -> option string)
    (n : Notification) : L unit :=
  fun st =>
    (match send (notified st) n with
     | Some thrown => inl thrown
     | None => inr tt
     end,
     {| mcpServer := mcpServer st; stderr := stderr st;
        notified := Js.push (notified st) n |}).

Definition sendNotification (level : LogLevel) (msg : string) : L unit :=
  fun st =>
    match mcpServer st with
    | Some {| notification := Some send |} =>
        match callNotification send
                {| method := "notifications/logging"; level := level;
                   data := msg |} st with
        | (inr tt, st') => (inr tt, st')
        | (inl thrown, st') =>
            consoleError ("Log notification failed: " ++ thrown) st'
        end
    | _ => (inr tt, st)
    end.

Definition log (level : LogLevel) (msg : string) : L unit :=
  fun st =>
    let formatted := formatMessage level msg in
    match consoleError formatted st with
    | (inr _, st') => sendNotification level msg st'
    | (inl thrown, st') => (inl thrown, st')
    end.

End Logger.

(* ===================================================================== *)
(** ** sheetsClient.ts and cli.ts: the credentials                        *)
(* ===================================================================== *)

Module Credentials.

Import Client.

(** The two environment variables, [None] when unset. *)
Record Env := {
  GOOGLE_SERVICE_ACCOUNT_KEY_PATH : option string;
  GOOGLE_SERVICE_ACCOUNT_KEY_JSON : option string
}.

Definition scopes : list string :=
  ["https://www.googleapis.com/auth/spreadsheets";
   "https://www.googleapis.com/auth/drive.readonly"].

Section Load.

(** The value of a parsed JSON text, [JSON.parse] and [fs.existsSync],
    none of which is code of this repository. *)
Variable Json : Type.
Variable parseJson : string -> Thrown + Json.
Variable existsSync : string -> bool.

(** The options given to [new GoogleAuth]. *)
Inductive GoogleAuth : Type :=
| WithCredentials (credentials : Json) (scopes : list string)
| WithKeyFile (keyFile : string) (scopes : list string).

(** A string of the environment that is set and not empty. *)
Definition truthy (value : option string) : option string :=
  match value with
  | Some EmptyString => None
  | Some s => Some s
  | None => None
  end.

(** A computation that logs and may throw. *)
Definition C (A : Type) : Type :=
  Logger.LoggerState -> (Thrown + A) * Logger.LoggerState.

(** [logger.debug(msg)]. *)
Definition loggerDebug (msg : string) : C unit :=
  fun st =>
    match Logger.log Logger.debug msg st with
    | (inr _, st') => (inr tt, st')
    | (inl thrown, st') => (inl (OtherThrown thrown), st')
    end.

(** [loadCredentials]. *)
Definition loadCredentials (env : Env) : C GoogleAuth :=
  fun st =>
    match truthy (GOOGLE_SERVICE_ACCOUNT_KEY_JSON env) with
    | Some keyJson =>
        match loggerDebug
                "Authenticating with GOOGLE_SERVICE_ACCOUNT_KEY_JSON" st with
        | (inl e, st') => (inl e, st')
        | (inr _, st') =>
            (match parseJson keyJson with
             | inr credentials => inr (WithCredentials credentials scopes)
             | inl e => inl e
             end, st')
        end
    | None =>
        match truthy (GOOGLE_SERVICE_ACCOUNT_KEY_PATH env) with
        | Some keyPath =>
            match loggerDebug
                    ("Authenticating with key file: " ++ keyPath) st with
            | (inl e, st') => (inl e, st')
            | (inr _, st') =>
                (if existsSync keyPath then inr (WithKeyFile keyPath scopes)
                 else inl (ErrorObject
                             ("Service account key file not found: "
                                ++ keyPath)),
                 st')
            end
        | None =>
            (inl (ErrorObject
                    "Google authentication not configured. Set GOOGLE_SERVICE_ACCOUNT_KEY_PATH or GOOGLE_SERVICE_ACCOUNT_KEY_JSON environment variable."),
             st)
        end
    end.

(** The check of cli.ts before it starts the server: [false] when the
    process exits with status 1. *)
Definition cliStarts (env : Env) : bool :=
  match truthy (GOOGLE_SERVICE_ACCOUNT_KEY_JSON env),
        truthy (GOOGLE_SERVICE_ACCOUNT_KEY_PATH env) with
  | None, None => false
  | _, _ => true
  end.

End Load.

End Credentials.

(* ===================================================================== *)
(** ** index.ts: the handlers that read                                   *)
(* ===================================================================== *)

Module Reading.

Import Client Server.

(** The handlers are written as those of the module [Server]: a call of
    the logger is left out, since it returns without throwing and changes
    the state of the logger alone (see the module [Logger]).  A call of the
    formatter stands inside the [try] of its handler, so that what it throws
    reaches the [catch]. *)

Record InfoParams := {
  infoSpreadsheetId : string
}.

Record RangeParams := {
  rangeSpreadsheetId : string;
  range : string
}.

Section Handlers.
Context `{JsRuntime}.
Variable world : World.

(** [SheetsClient.getFormulas]. *)
Definition getFormulas (spreadsheetId range : string)
  : M (list (list Formatter.Cell)) :=
  apiCall (ValuesGet spreadsheetId range "FORMULA")
    (fun history => values_get world history spreadsheetId range "FORMULA")
    ("Failed to read formulas from " ++ range)
    (fun values => match values with Some v => v | None => [] end).

(** [handlers['get-spreadsheet-info']]. *)
Definition getSpreadsheetInfoHandler (params : InfoParams)
  : M CallToolResult :=
  tryCatch
    (_ <- getSheetsClient world ;;
     info <- getSpreadsheetInfo world (infoSpreadsheetId params) ;;
     ret (createTextResponse (Rendering.formatSpreadsheetInfo info)))
    (fun error =>
       ret (createErrorResponse
              ("Failed to get spreadsheet info: " ++ errorText error))).

(** [handlers['read-values']]. *)
Definition readValuesHandler (params : RangeParams) : M CallToolResult :=
  tryCatch
    (_ <- getSheetsClient world ;;
     values <- getValues world (rangeSpreadsheetId params) (range params) ;;
     table <- rendered (Formatter.formatAsMarkdownTable values false) ;;
     ret (createTextResponse
            ("## Values (" ++ range params ++ ")" ++ Js.nl ++ Js.nl
               ++ table)))
    (fun error =>
       ret (createErrorResponse
              ("Failed to read values: " ++ errorText error))).

(** [handlers['read-formulas']]. *)
Definition readFormulasHandler (params : RangeParams) : M CallToolResult :=
  tryCatch
    (_ <- getSheetsClient world ;;
     formulas <- getFormulas (rangeSpreadsheetId params) (range params) ;;
     table <- rendered (Formatter.formatAsMarkdownTable formulas false) ;;
     ret (createTextResponse
            ("## Formulas (" ++ range params ++ ")" ++ Js.nl ++ Js.nl
               ++ table)))
    (fun error =>
       ret (createErrorResponse
              ("Failed to read formulas: " ++ errorText error))).

(** [SheetsClient.getValuesAndFormulas]: [Promise.all] of the two reads.
    Both calls are made, the read of the values first; the result waits for
    both answers, or is the first rejection.  Which of two rejections comes
    first is decided outside the program: it is [valuesSettleFirst]. *)
Definition getValuesAndFormulas (valuesSettleFirst : bool)
    (spreadsheetId range : string)
  : M (list (list Formatter.Cell) * list (list Formatter.Cell)) :=
  fun st =>
    match getValues world spreadsheetId range st with
    | (values, st1) =>
        match getFormulas spreadsheetId range st1 with
        | (formulas, st2) =>
            (match values, formulas with
             | inr v, inr f => inr (v, f)
             | inl e, inr _ => inl e
             | inr _, inl e => inl e
             | inl e1, inl e2 => inl (if valuesSettleFirst then e1 else e2)
             end,
             st2)
        end
    end.

(** [handlers['read-all']]. *)
Definition readAllHandler (valuesSettleFirst : bool) (params : RangeParams)
  : M CallToolResult :=
  tryCatch
    (_ <- getSheetsClient world ;;
     both <- getValuesAndFormulas valuesSettleFirst
               (rangeSpreadsheetId params) (range params) ;;
     text <- rendered (Rendering.formatValuesAndFormulas (fst both)
                         (snd both) (range params)) ;;
     ret (createTextResponse text))
    (fun error =>
       ret (createErrorResponse
              ("Failed to read values and formulas: " ++ errorText error))).

End Handlers.

End Reading.

(* ===================================================================== *)
(** ** index.ts: the tool definitions                                     *)
(* ===================================================================== *)

Module Registry.

Import Server.

(** The JSON schemas of [toolDefinitions], without their [description]
    texts.  [required] is empty when the object has no such key. *)
Inductive JsonSchema : Type :=
| JsonString
| JsonNumber
| JsonBoolean
| JsonNull
| JsonEnum (values : list string)
| JsonArray (items : JsonSchema)
| JsonOneOf (options : list JsonSchema)
| JsonObject (properties : list (string * JsonSchema))
             (required : list string).

Record Tool := {
  name : string;
  inputSchema : JsonSchema
}.

(** The parts that the source writes out for several tools. *)
Definition cellItems : JsonSchema :=
  JsonOneOf [JsonString; JsonNumber; JsonBoolean; JsonNull].

Definition rangeTool (name : string) : Tool :=
  {| name := name;
     inputSchema :=
       JsonObject [("spreadsheetId", JsonString); ("range", JsonString)]
         ["spreadsheetId"; "range"] |}.

Definition valuesTool (name : string) : Tool :=
  {| name := name;
     inputSchema :=
       JsonObject
         [("spreadsheetId", JsonString);
          ("range", JsonString);
          ("values", JsonArray (JsonArray cellItems))]
         ["spreadsheetId"; "range"; "values"] |}.

Definition colorProperties : JsonSchema :=
  JsonObject
    [("red", JsonNumber); ("green", JsonNumber); ("blue", JsonNumber)] [].

Definition toolDefinitions : list Tool :=
  [{| name := "get-spreadsheet-info";
      inputSchema :=
        JsonObject [("spreadsheetId", JsonString)] ["spreadsheetId"] |};
   rangeTool "read-values";
   rangeTool "read-formulas";
   rangeTool "read-all";
   valuesTool "update-cells";
   {| name := "batch-update-cells";
      inputSchema :=
        JsonObject
          [("spreadsheetId", JsonString);
           ("data",
            JsonArray
              (JsonObject
                 [("range", JsonString);
                  ("values", JsonArray (JsonArray cellItems))]
                 ["range"; "values"]))]
          ["spreadsheetId"; "data"] |};
   valuesTool "append-rows";
   {| name := "add-sheet";
      inputSchema :=
        JsonObject
          [("spreadsheetId", JsonString);
           ("title", JsonString);
           ("rowCount", JsonNumber);
           ("columnCount", JsonNumber)]
          ["spreadsheetId"; "title"] |};
   {| name := "delete-sheet";
      inputSchema :=
        JsonObject [("spreadsheetId", JsonString); ("sheetTitle", JsonString)]
          ["spreadsheetId"; "sheetTitle"] |};
   rangeTool "get-formatting";
   {| name := "update-formatting";
      inputSchema :=
        JsonObject
          [("spreadsheetId", JsonString);
           ("sheetTitle", JsonString);
           ("startRowIndex", JsonNumber);
           ("endRowIndex", JsonNumber);
           ("startColumnIndex", JsonNumber);
           ("endColumnIndex", JsonNumber);
           ("format",
            JsonObject
              [("bold", JsonBoolean);
               ("italic", JsonBoolean);
               ("strikethrough", JsonBoolean);
               ("fontSize", JsonNumber);
               ("fontFamily", JsonString);
               ("foregroundColor", colorProperties);
               ("backgroundColor", colorProperties);
               ("horizontalAlignment", JsonEnum ["LEFT"; "CENTER"; "RIGHT"]);
               ("numberFormat",
                JsonObject
                  [("type",
                    JsonEnum ["TEXT"; "NUMBER"; "PERCENT"; "CURRENCY"; "DATE";
                              "TIME"; "DATE_TIME"; "SCIENTIFIC"]);
                   ("pattern", JsonString)]
                  ["type"])]
              [])]
          ["spreadsheetId"; "sheetTitle"; "startRowIndex"; "endRowIndex";
           "startColumnIndex"; "endColumnIndex"; "format"] |}].

(** The handler of [ListToolsRequestSchema]. *)
Definition listTools : list Tool := toolDefinitions.

End Registry.

(* ===================================================================== *)
(** ** sheetsClient.ts and index.ts: the rest of the remote API           *)
(* ===================================================================== *)

Module Service.

Import Client Server.

(** The calls of the logger are left out, as in the module [Reading], and
    a call of the formatter stands inside the [try] of its handler. *)

(** Data of the remote API.  A field is [None] when the response leaves
    the key out. *)
Record UpdateValuesResponse `{JsRuntime} := {
  dataUpdatedRange : option string;
  dataUpdatedRows : option Number;
  dataUpdatedColumns : option Number;
  dataUpdatedCells : option Number
}.

Record BatchUpdateValuesResponse `{JsRuntime} := {
  dataTotalUpdatedCells : option Number;
  dataTotalUpdatedRows : option Number
}.

Record ValueRange `{JsRuntime} := {
  dataRange : option string;
  dataValues : option (list (list Formatter.Cell))
}.

Record AppendValuesResponse `{JsRuntime} := {
  updates : option UpdateValuesResponse
}.

Record AddedProperties `{JsRuntime} := {
  addedSheetId : option Number;
  addedTitle : option string;
  addedGridProperties : option GridProperties
}.

(** [replies[0].addSheet] of a batch update. *)
Record AddSheetReply `{JsRuntime} := {
  addedProperties : option AddedProperties
}.

Record Reply `{JsRuntime} := {
  replyAddSheet : option AddSheetReply
}.

Record GridData `{JsRuntime} := {
  rowData : option (list Formatter.RowData)
}.

Record SheetData `{JsRuntime} := {
  data : option (list GridData)
}.

(** A range to write with its values, as in [batch-update-cells]. *)
Record RangeValues `{JsRuntime} := {
  writeRange : string;
  writeValues : list (list Formatter.Cell)
}.

(** The calls to the remote API: those of the module [Client], and the
    others, each with the parameters the client gives it. *)
Inductive Call `{JsRuntime} : Type :=
| Known (request : Request)
| ValuesUpdate (spreadsheetId range valueInputOption : string)
               (values : list (list Formatter.Cell))
| ValuesBatchUpdate (spreadsheetId valueInputOption : string)
                    (data : list RangeValues)
| ValuesBatchGet (spreadsheetId : string) (ranges : list string)
                 (valueRenderOption : string)
| ValuesAppend (spreadsheetId range valueInputOption insertDataOption : string)
               (values : list (list Formatter.Cell))
| AddSheet (spreadsheetId title : string) (rowCount columnCount : Number)
| GridGet (spreadsheetId : string) (ranges : list string)
          (includeGridData : bool) (fields : string).

(** The remote service.  Every answer may depend on the calls made before,
    which are the first argument; [known] is the world that the module
    [Client] sees after those calls. *)
Record Remote `{JsRuntime} := {
  known : list Call -> World;
  values_update :
    list Call -> string -> string -> string -> list (list Formatter.Cell)
    -> ApiFailure + UpdateValuesResponse;
  values_batchUpdate :
    list Call -> string -> string -> list RangeValues
    -> ApiFailure + BatchUpdateValuesResponse;
  values_batchGet :
    list Call -> string -> list string -> string
    -> ApiFailure + option (list ValueRange);
  values_append :
    list Call -> string -> string -> string -> string
    -> list (list Formatter.Cell) -> ApiFailure + AppendValuesResponse;
  add_sheet :
    list Call -> string -> string -> Number -> Number
    -> ApiFailure + option (list Reply);
  grid_get :
    list Call -> string -> list string -> bool -> string
    -> ApiFailure + option (list SheetData)
}.

(** The state of the process: whether the singleton client exists, and
    the calls made so far, oldest first. *)
Record ProcessState `{JsRuntime} := {
  client : bool;
  calls : list Call
}.

Definition S `{JsRuntime} (A : Type) : Type :=
  ProcessState -> (Thrown + A) * ProcessState.

Section Monad.
Context `{JsRuntime}.

Definition ret {A : Type} (a : A) : S A :=
  fun st => (inr a, st).

Definition bind {A B : Type} (c : S A) (k : A -> S B) : S B :=
  fun st =>
    match c st with
    | (inr a, st') => k a st'
    | (inl e, st') => (inl e, st')
    end.

(** [try { c } catch (error) { handler }]. *)
Definition tryCatch {A : Type} (c : S A) (handler : Thrown -> S A) : S A :=
  fun st =>
    match c st with
    | (inr a, st') => (inr a, st')
    | (inl e, st') => handler e st'
    end.

(** A call of the formatter inside a handler, as [Client.rendered]. *)
Definition rendered {A : Type} (outcome : string + A) : S A :=
  fun st =>
    (match outcome with
     | inl message => inl (ErrorObject message)
     | inr a => inr a
     end,
     st).

End Monad.

Notation "x <~ c ;; k" := (bind c (fun x => k))
  (at level 61, c at next level, right associativity).

(** What the client returns. *)
Record UpdateResult `{JsRuntime} := {
  updatedRange : string;
  updatedRows : Number;
  updatedColumns : Number;
  updatedCells : Number
}.

Record BatchUpdateResult `{JsRuntime} := {
  totalUpdatedCells : Number;
  totalUpdatedRows : Number
}.

Record RangeResult `{JsRuntime} := {
  resultRange : string;
  resultValues : list (list Formatter.Cell)
}.

Record AppendResult `{JsRuntime} := {
  appendedRange : string;
  appendedRows : Number;
  appendedCells : Number
}.

Section SheetsClient.
Context `{JsRuntime}.
Variable remote : Remote.

(** A method of the module [Client] that makes at most one call, run
    against the remote service as it is after the calls made so far. *)
Definition knownCall {A : Type} (method : World -> M A) : S A :=
  fun st =>
    match method (known remote (calls st))
            {| clientInstance := client st; sent := [] |} with
    | (result, st') =>
        (result,
         {| client := clientInstance st';
            calls := (calls st ++ map Known (sent st'))%list |})
    end.

Definition getSheetsClient : S unit :=
  knownCall (fun world => Client.getSheetsClient world).

Definition getValues (spreadsheetId range : string)
  : S (list (list Formatter.Cell)) :=
  knownCall (fun world => Client.getValues world spreadsheetId range).

(** The shape of a client method, as [Client.apiCall]. *)
Definition apiCall {A B : Type} (request : Call)
    (answer : list Call -> ApiFailure + A) (context : string)
    (result : A -> B) : S B :=
  fun st =>
    let st' := {| client := client st; calls := Js.push (calls st) request |} in
    match answer (calls st) with
    | inr a => (inr (result a), st')
    | inl failure => (inl (ErrorObject (handleApiError failure context)), st')
    end.

(** [n || fallback] for a number. *)
Definition numberOr (n : option Number) (fallback : Number) : Number :=
  match n with
  | Some x => if numberTruthy x then x else fallback
  | None => fallback
  end.

(** [SheetsClient.updateValues]. *)
Definition updateValues (spreadsheetId range : string)
    (values : list (list Formatter.Cell)) : S UpdateResult :=
  apiCall (ValuesUpdate spreadsheetId range "USER_ENTERED" values)
    (fun history =>
       values_update remote history spreadsheetId range "USER_ENTERED" values)
    ("Failed to update values in " ++ range)
    (fun response =>
       {| updatedRange := orElse (dataUpdatedRange response) range;
          updatedRows := numberOr (dataUpdatedRows response) (fromInt 0);
          updatedColumns := numberOr (dataUpdatedColumns response) (fromInt 0);
          updatedCells := numberOr (dataUpdatedCells response) (fromInt 0) |}).

(** [SheetsClient.batchUpdateValues]. *)
Definition batchUpdateValues (spreadsheetId : string)
    (data : list RangeValues) : S BatchUpdateResult :=
  let body :=
    map (fun d => {| writeRange := writeRange d;
                     writeValues := writeValues d |}) data in
  apiCall (ValuesBatchUpdate spreadsheetId "USER_ENTERED" body)
    (fun history =>
       values_batchUpdate remote history spreadsheetId "USER_ENTERED" body)
    "Failed to batch update values"
    (fun response =>
       {| totalUpdatedCells :=
            numberOr (dataTotalUpdatedCells response) (fromInt 0);
          totalUpdatedRows :=
            numberOr (dataTotalUpdatedRows response) (fromInt 0) |}).

(** [SheetsClient.batchGetValues]. *)
Definition batchGetValues (spreadsheetId : string) (ranges : list string)
  : S (list RangeResult) :=
  apiCall (ValuesBatchGet spreadsheetId ranges "FORMATTED_VALUE")
    (fun history =>
       values_batchGet remote history spreadsheetId ranges "FORMATTED_VALUE")
    "Failed to batch get values"
    (fun valueRanges =>
       map (fun vr =>
              {| resultRange := orElse (dataRange vr) "";
                 resultValues :=
                   match dataValues vr with Some v => v | None => [] end |})
           (match valueRanges with Some l => l | None => [] end)).

(** [SheetsClient.appendRows]. *)
Definition appendRows (spreadsheetId range : string)
    (values : list (list Formatter.Cell)) : S AppendResult :=
  apiCall
    (ValuesAppend spreadsheetId range "USER_ENTERED" "INSERT_ROWS" values)
    (fun history =>
       values_append remote history spreadsheetId range "USER_ENTERED"
         "INSERT_ROWS" values)
    ("Failed to append rows to " ++ range)
    (fun response =>
       let field {A : Type} (get : UpdateValuesResponse -> option A)
         : option A :=
         match updates response with
         | Some u => get u
         | None => None
         end in
       {| appendedRange := orElse (field dataUpdatedRange) range;
          appendedRows := numberOr (field dataUpdatedRows) (fromInt 0);
          appendedCells := numberOr (field dataUpdatedCells) (fromInt 0) |}).

(** [reply?.properties?.gridProperties?.rowCount] and its like. *)
Definition replyProperty {A : Type} (get : AddedProperties -> option A)
    (replies : option (list Reply)) : option A :=
  match replies with
  | Some ({| replyAddSheet := Some {| addedProperties := Some p |} |} :: _) =>
      get p
  | _ => None
  end.

Definition gridProperty (get : GridProperties -> option Number)
    (p : AddedProperties) : option Number :=
  match addedGridProperties p with
  | Some g => get g
  | None => None
  end.

(** [SheetsClient.addSheet]. *)
Definition addSheet (spreadsheetId title : string)
    (rowCount columnCount : option Number) : S SheetInfo :=
  let rows := numberOr rowCount (fromInt 1000) in
  let columns := numberOr columnCount (fromInt 26) in
  apiCall (AddSheet spreadsheetId title rows columns)
    (fun history => add_sheet remote history spreadsheetId title rows columns)
    ("Failed to add sheet " ++ Js.quote ++ title ++ Js.quote)
    (fun replies =>
       {| infoSheetId := numberOr (replyProperty addedSheetId replies)
                           (fromInt 0);
          Client.title := orElse (replyProperty addedTitle replies) title;
          Client.rowCount :=
            numberOr (replyProperty (gridProperty gridRowCount) replies)
              (numberOr rowCount (fromInt 1000));
          Client.columnCount :=
            numberOr (replyProperty (gridProperty gridColumnCount) replies)
              (numberOr columnCount (fromInt 26)) |}).

Definition formattingFields : string :=
  "sheets.data.rowData.values(effectiveFormat,formattedValue)".

(** [SheetsClient.getFormatting]. *)
Definition getFormatting (spreadsheetId range : string)
  : S (list Formatter.RowData) :=
  apiCall (GridGet spreadsheetId [range] true formattingFields)
    (fun history =>
       grid_get remote history spreadsheetId [range] true formattingFields)
    ("Failed to get formatting for " ++ range)
    (fun sheets =>
       match sheets with
       | Some ({| data := Some ({| rowData := Some rows |} :: _) |} :: _) =>
           rows
       | _ => []
       end).

End SheetsClient.

(** The parameters of the handlers, as the types inferred from their
    schemas. *)
Record ValuesParams `{JsRuntime} := {
  valuesSpreadsheetId : string;
  valuesRange : string;
  values : list (list Formatter.Cell)
}.

Record BatchParams `{JsRuntime} := {
  batchSpreadsheetId : string;
  batchData : list RangeValues
}.

Record AddSheetParams `{JsRuntime} := {
  addSpreadsheetId : string;
  addTitle : string;
  addRowCount : option Number;
  addColumnCount : option Number
}.

Section Handlers.
Context `{JsRuntime}.
Variable remote : Remote.

(** [handlers['update-cells']]. *)
Definition updateCellsHandler (params : ValuesParams) : S CallToolResult :=
  tryCatch
    (_ <~ getSheetsClient remote ;;
     result <~ updateValues remote (valuesSpreadsheetId params)
                 (valuesRange params) (values params) ;;
     updated <~ getValues remote (valuesSpreadsheetId params)
                  (updatedRange result) ;;
     table <~ rendered (Formatter.formatAsMarkdownTable updated false) ;;
     ret (createTextResponse
            ("Updated " ++ numberToString (updatedCells result)
               ++ " cells in " ++ updatedRange result ++ Js.nl ++ Js.nl
               ++ "## Updated Values" ++ Js.nl ++ Js.nl ++ table)))
    (fun error =>
       ret (createErrorResponse
              ("Failed to update cells: " ++ errorText error))).

(** The body of the loop over [updatedData] of batch-update-cells; the
    loop ends when [formatAsMarkdownTable] throws. *)
Definition pushRange (parts : string + list string) (item : RangeResult)
  : string + list string :=
  match parts with
  | inl thrown => inl thrown
  | inr parts =>
      let parts := Js.push parts ("## " ++ resultRange item) in
      match Formatter.formatAsMarkdownTable (resultValues item) false with
      | inl thrown => inl thrown
      | inr table =>
          let parts := Js.push parts table in
          inr (Js.push parts "")
      end
  end.

(** [handlers['batch-update-cells']]. *)
Definition batchUpdateCellsHandler (params : BatchParams)
  : S CallToolResult :=
  tryCatch
    (_ <~ getSheetsClient remote ;;
     result <~ batchUpdateValues remote (batchSpreadsheetId params)
                 (batchData params) ;;
     let ranges := map writeRange (batchData params) in
     updatedData <~ batchGetValues remote (batchSpreadsheetId params) ranges ;;
     let parts :=
       [("Batch updated " ++ numberToString (totalUpdatedCells result)
           ++ " cells across "
           ++ Js.natToString (List.length (batchData params)) ++ " ranges");
        ""] in
     parts <~ rendered (fold_left pushRange updatedData (inr parts)) ;;
     ret (createTextResponse (Js.join Js.nl parts)))
    (fun error =>
       ret (createErrorResponse
              ("Failed to batch update cells: " ++ errorText error))).

(** [handlers['append-rows']]. *)
Definition appendRowsHandler (params : ValuesParams) : S CallToolResult :=
  tryCatch
    (_ <~ getSheetsClient remote ;;
     result <~ appendRows remote (valuesSpreadsheetId params)
                 (valuesRange params) (values params) ;;
     updated <~ getValues remote (valuesSpreadsheetId params)
                  (appendedRange result) ;;
     table <~ rendered (Formatter.formatAsMarkdownTable updated false) ;;
     ret (createTextResponse
            ("Appended " ++ numberToString (appendedRows result) ++ " rows ("
               ++ numberToString (appendedCells result) ++ " cells) at "
               ++ appendedRange result ++ Js.nl ++ Js.nl
               ++ "## Appended Data" ++ Js.nl ++ Js.nl ++ table)))
    (fun error =>
       ret (createErrorResponse
              ("Failed to append rows: " ++ errorText error))).

(** [handlers['add-sheet']]. *)
Definition addSheetHandler (params : AddSheetParams) : S CallToolResult :=
  tryCatch
    (_ <~ getSheetsClient remote ;;
     sheet <~ addSheet remote (addSpreadsheetId params) (addTitle params)
                (addRowCount params) (addColumnCount params) ;;
     ret (createTextResponse
            ("Sheet " ++ Js.quote ++ title sheet ++ Js.quote
               ++ " created successfully" ++ Js.nl ++ Js.nl
               ++ "- **Sheet ID**: " ++ numberToString (infoSheetId sheet)
               ++ Js.nl
               ++ "- **Rows**: " ++ numberToString (rowCount sheet) ++ Js.nl
               ++ "- **Columns**: " ++ numberToString (columnCount sheet))))
    (fun error =>
       ret (createErrorResponse
              ("Failed to add sheet: " ++ errorText error))).

(** [handlers['get-formatting']]. *)
Definition getFormattingHandler (params : Reading.RangeParams)
  : S CallToolResult :=
  tryCatch
    (_ <~ getSheetsClient remote ;;
     gridData <~ getFormatting remote (Reading.rangeSpreadsheetId params)
                   (Reading.range params) ;;
     ret (createTextResponse
            (Formatter.formatCellFormatting gridData (Reading.range params))))
    (fun error =>
       ret (createErrorResponse
              ("Failed to get formatting: " ++ errorText error))).

End Handlers.

End Service.

(* ===================================================================== *)
(** ** More concrete inputs                                               *)
(* ===================================================================== *)

Module MoreSample.

Import Client Server Service Sample.

#[local] Existing Instance integerRuntime.

(** The sample service when the credentials cannot be loaded. *)
Definition lockedWorld : World :=
  {| loadCredentials := Some (ErrorObject "no key");
     spreadsheets_get := spreadsheets_get world;
     values_get := values_get world;
     batchUpdate := batchUpdate world |}.


Definition readParams : Reading.RangeParams :=
  {| Reading.rangeSpreadsheetId := "X"; Reading.range := "Data!A1:B1" |}.

(** The arguments of a call of read-values, and the same with a key that
    the schema does not declare. *)
Definition readArguments : list (string * Value) :=
  [("spreadsheetId", VString "X"); ("range", VString "Data!A1:B1")].

Definition paddedArguments : list (string * Value) :=
  ("verbose", VBoolean true) :: readArguments.

(** A logger without a server that has written nothing. *)
Definition quietLogger : Logger.LoggerState :=
  {| Logger.mcpServer := None; Logger.stderr := []; Logger.notified := [] |}.

(** Environments with an inline key. *)
Definition inlineEnv : Credentials.Env :=
  {| Credentials.GOOGLE_SERVICE_ACCOUNT_KEY_PATH := Some "/keys/missing.json";
     Credentials.GOOGLE_SERVICE_ACCOUNT_KEY_JSON := Some "{}" |}.

Definition inlineOnlyEnv : Credentials.Env :=
  {| Credentials.GOOGLE_SERVICE_ACCOUNT_KEY_PATH := None;
     Credentials.GOOGLE_SERVICE_ACCOUNT_KEY_JSON := Some "{}" |}.

Definition otherKeyEnv : Credentials.Env :=
  {| Credentials.GOOGLE_SERVICE_ACCOUNT_KEY_PATH := None;
     Credentials.GOOGLE_SERVICE_ACCOUNT_KEY_JSON := Some "[]" |}.

(** A parser that accepts every text and returns it. *)
Definition acceptJson (text : string) : Thrown + string := inr text.

(** A remote service that holds the sample spreadsheet, accepts every
    write without reporting anything, and has no grid data. *)
Definition remote : Remote :=
  {| known := fun _ => world;
     values_update :=
       fun _ _ _ _ _ =>
         inr {| dataUpdatedRange := None; dataUpdatedRows := None;
                dataUpdatedColumns := None; dataUpdatedCells := None |};
     values_batchUpdate :=
       fun _ _ _ _ =>
         inr {| dataTotalUpdatedCells := None; dataTotalUpdatedRows := None |};
     values_batchGet := fun _ _ _ _ => inr None;
     values_append := fun _ _ _ _ _ _ => inr {| updates := None |};
     add_sheet := fun _ _ _ _ _ => inr None;
     grid_get := fun _ _ _ _ _ => inr None |}.

(** The same service when the credentials cannot be loaded. *)
Definition lockedRemote : Remote :=
  {| known := fun _ => lockedWorld;
     values_update := values_update remote;
     values_batchUpdate := values_batchUpdate remote;
     values_batchGet := values_batchGet remote;
     values_append := values_append remote;
     add_sheet := add_sheet remote;
     grid_get := grid_get remote |}.

Definition startState : ProcessState :=
  {| client := false; calls := [] |}.

Definition valuesParams : ValuesParams :=
  {| valuesSpreadsheetId := "X"; valuesRange := "Data!A1";
     values := [[Formatter.CString "1"]] |}.



End MoreSample.

(* ===================================================================== *)
(** * Properties                                                          *)
(* ===================================================================== *)

(** ** Observations on rendered text

    The functions of this section are not code of the repository: they
    are the reader's side, used to state what a rendered text contains. *)

Unset Implicit Arguments.

Module Text.

(** [s.includes(sub)]. *)
Fixpoint includes (s sub : string) : bool :=
  String.prefix sub s
  || match s with
     | EmptyString => false
     | String _ rest => includes rest sub
     end.

(** The text has no line feed. *)
Fixpoint singleLine (s : string) : bool :=
  match s with
  | EmptyString => true
  | String c rest => negb (Ascii.eqb c "010") && singleLine rest
  end.

Definition consHead (c : ascii) (parts : list string) : list string :=
  match parts with
  | [] => [String c EmptyString]
  | p :: ps => String c p :: ps
  end.

(** [s.split('\n')]. *)
Fixpoint lines (s : string) : list string :=
  match s with
  | EmptyString => [EmptyString]
  | String c rest =>
      if Ascii.eqb c "010" then EmptyString :: lines rest
      else consHead c (lines rest)
  end.

(** The text has no carriage return. *)
Fixpoint noCarriageReturn (s : string) : bool :=
  match s with
  | EmptyString => true
  | String c rest => negb (Ascii.eqb c "013") && noCarriageReturn rest
  end.

(** The lines of a text as a reader of Markdown takes them: a line ends
    at a line feed, at a carriage return, or at a carriage return with the
    line feed that follows it. *)
Fixpoint readerLines (s : string) : list string :=
  match s with
  | EmptyString => [EmptyString]
  | String c rest =>
      if Ascii.eqb c "010" then EmptyString :: readerLines rest
      else if Ascii.eqb c "013"
      then EmptyString
           :: match rest with
              | String d rest' =>
                  if Ascii.eqb d "010" then readerLines rest'
                  else readerLines rest
              | EmptyString => readerLines rest
              end
      else consHead c (readerLines rest)
  end.

(** The pieces of a line between its delimiting pipes.  A pipe that comes
    right after a backslash is escaped: it belongs to the cell.  [escaped]
    tells whether the previous character was a backslash. *)
Fixpoint splitPipes (escaped : bool) (s : string) : list string :=
  match s with
  | EmptyString => [EmptyString]
  | String c rest =>
      if Ascii.eqb c "|" && negb escaped
      then EmptyString :: splitPipes false rest
      else consHead c (splitPipes (Ascii.eqb c "\") rest)
  end.

(** [Some e] when the text has no delimiting pipe, [e] telling whether it
    ends with a backslash; [None] when it has one. *)
Fixpoint scanCell (escaped : bool) (s : string) : option bool :=
  match s with
  | EmptyString => Some escaped
  | String c rest =>
      if Ascii.eqb c "|" && negb escaped then None
      else scanCell (Ascii.eqb c "\") rest
  end.

(** The text of a cell can be put between two delimiting pipes. *)
Definition cellSafe (s : string) : bool :=
  match scanCell false s with Some _ => true | None => false end.

(** The text of a cell as the reader shows it: a backslash before a pipe
    is dropped. *)
Fixpoint unescapePipes (s : string) : string :=
  match s with
  | EmptyString => EmptyString
  | String c rest =>
      match rest with
      | String d rest' =>
          if Ascii.eqb c "\" && Ascii.eqb d "|"
          then String "|" (unescapePipes rest')
          else String c (unescapePipes rest)
      | EmptyString => s
      end
  end.

Fixpoint dropLastSpace (s : string) : string :=
  match s with
  | EmptyString => EmptyString
  | String c EmptyString => if Ascii.eqb c " " then EmptyString else s
  | String c rest => String c (dropLastSpace rest)
  end.

(** A piece without the space that follows the pipe before it and the
    space that precedes the pipe after it. *)
Definition trimCell (piece : string) : string :=
  match piece with
  | String c rest => if Ascii.eqb c " " then dropLastSpace rest else piece
  | EmptyString => piece
  end.

(** A piece as it stands in a rendered row: the cell between two spaces. *)
Definition pad (cell : string) : string := " " ++ cell ++ " ".

(** [a] put in front of the first of the parts. *)
Definition prependHead (a : string) (parts : list string) : list string :=
  match parts with
  | [] => [a]
  | p :: ps => (a ++ p) :: ps
  end.

Definition startsWithPipe (s : string) : bool :=
  match s with
  | String c _ => Ascii.eqb c "|"
  | EmptyString => false
  end.

(** The cells of a table row [| c1 | ... | cn |]: the line starts and ends
    with a delimiting pipe, and its cells are what lies between delimiting
    pipes.  [None] when the line is not a table row. *)
Definition tableCells (line : string) : option (list string) :=
  match splitPipes false line with
  | EmptyString :: rest =>
      match rev rest with
      | EmptyString :: middle => Some (map trimCell (rev middle))
      | _ => None
      end
  | _ => None
  end.

(** [output] is a Markdown table with the given header and rows of cells,
    followed by the lines of [trailer]: its first line is the header row,
    its second line the separator row with as many [---] cells, the next
    lines are the rows, each as wide as the header. *)
Definition MarkdownTable (header : list string) (rows : list (list string))
    (trailer : list string) (output : string) : Prop :=
  exists headerLine separatorLine rowLines,
    lines output
      = (headerLine :: separatorLine :: rowLines ++ trailer)%list
    /\ tableCells headerLine = Some header
    /\ tableCells separatorLine
       = Some (repeat "---" (List.length header))
    /\ map tableCells rowLines = map (@Some _) rows
    /\ Forall (fun row => List.length row = List.length header) rows.

(** The value of a column label read as a numeral in bijective base 26,
    whose digits A to Z stand for 1 to 26. *)
Fixpoint labelValue (label : string) : Z :=
  match label with
  | EmptyString => 0
  | String c rest =>
      (Z.of_nat (nat_of_ascii c) - 64) * 26 ^ Z.of_nat (String.length rest)
      + labelValue rest
  end.

Definition isUpper (c : ascii) : bool :=
  (65 <=? nat_of_ascii c)%nat && (nat_of_ascii c <=? 90)%nat.

Fixpoint allUpper (s : string) : bool :=
  match s with
  | EmptyString => true
  | String c rest => isUpper c && allUpper rest
  end.

End Text.

(** ** The statements of the specification on the table renderer *)

Module TableSpec.

Import Formatter Text.

(** What [escapeMarkdown] writes for one character. *)
Definition escapeChar (c : ascii) : string :=
  if Ascii.eqb c "|" then "\|"
  else if Ascii.eqb c "010" then " "
  else String c "".

Section Statements.
Context `{JsRuntime}.

(** The cells a row of [width] columns shows for a row of the block: the
    escaped text of each value, and the empty string where the row of the
    block has no value. *)
Definition expectedCells (width : nat) (row : list Cell) : list string :=
  map (fun i => match nth_error row i with
                | Some cell => escapeMarkdown (cellText cell)
                | None => ""
                end)
      (seq 0 width).

(** The column labels A, B, ... of a table of [width] columns. *)
Definition labels (width : nat) : list string :=
  map columnLabel (seq 0 width).

(** [output] shows the block [data] as a table as wide as its widest row:
    a header of that many labels, and the rows shown padded to that width.
    At most [MAX_ROWS] rows are shown; what follows the table, if anything,
    starts with an empty line. *)
Definition RendersBlock (data : list (list Cell)) (output : string) : Prop :=
  let width := list_max (map (@List.length Cell) data) in
  exists trailer,
    MarkdownTable (labels width)
      (map (expectedCells width) (firstn MAX_ROWS data)) trailer output
    /\ (trailer = [] \/ exists more, trailer = "" :: more).

(** The text of the notice for a block of [total] rows. *)
Definition noticeLine (total : nat) : string :=
  "⚠️ 500行を超えるため、先頭500行のみ表示しています（全"
    ++ Js.natToString total ++ "行）".

(** [output] shows exactly [MAX_ROWS] rows of the block [data], and then,
    after an empty line, the notice that states the number of rows of
    [data]. *)
Definition RendersTruncated (data : list (list Cell)) (output : string)
  : Prop :=
  let width := list_max (map (@List.length Cell) data) in
  exists rows,
    List.length rows = MAX_ROWS
    /\ rows = map (expectedCells width) (firstn MAX_ROWS data)
    /\ MarkdownTable (labels width) rows
         [""; noticeLine (List.length data)] output.

End Statements.

End TableSpec.

(** ** The statements of the specification on the formatting renderer *)

Module FormattingSpec.

Import Formatter.

Section Statements.
Context `{JsRuntime}.

(** The cells of the grid data, row after row. *)
Definition cellsOf (gridData : list RowData) : list CellData :=
  flat_map (fun row => match values row with
                       | Some cells => cells
                       | None => []
                       end)
           gridData.

(** *** The attributes of a format, in words

    The definitions below do not use the code of the renderer: they say
    what the text of each attribute is. *)

(** A flag is named when it is set and true. *)
Definition flag (name : string) (value : option bool) : list string :=
  match value with
  | Some true => [name]
  | _ => []
  end.

(** A channel in hexadecimal: the channel scaled to 0..255 and rounded,
    0 for a missing channel, written with two characters at least. *)
Definition hexByte (channel : option Number) : string :=
  let digits := match channel with
                | Some x => scaledHex x
                | None => "0"
                end in
  if (String.length digits <? 2)%nat
  then String.concat "" (repeat "0" (2 - String.length digits)) ++ digits
  else digits.

Definition hexColor (color : Color) : string :=
  "#" ++ hexByte (red color) ++ hexByte (green color) ++ hexByte (blue color).

(** The font size is named when it is a number other than zero. *)
Definition sizeAttribute (size : option Number) : list string :=
  match size with
  | Some n => if numberTruthy n then ["fontSize: " ++ numberToString n] else []
  | None => []
  end.

(** The colour of the text is named when the format has one as RGB. *)
Definition colorAttribute (style : option ColorStyle) : list string :=
  match style with
  | Some style =>
      match rgbColor style with
      | Some rgb => ["color: " ++ hexColor rgb]
      | None => []
      end
  | None => []
  end.

(** A number format is named by its type and its pattern, [default]
    standing for a pattern that is missing or empty; a type that is missing
    is written [undefined]. *)
Definition numberFormatAttribute (nf : option NumberFormat) : list string :=
  match nf with
  | Some nf =>
      ["format: "
         ++ match type nf with Some t => t | None => "undefined" end
         ++ " ("
         ++ match pattern nf with
            | None => "default"
            | Some p => if String.eqb p "" then "default" else p
            end
         ++ ")"]
  | None => []
  end.

(** The alignment is named when it is not empty. *)
Definition alignAttribute (alignment : option string) : list string :=
  match alignment with
  | Some a => if String.eqb a "" then [] else ["align: " ++ a]
  | None => []
  end.

(** The humanized attributes of an effective format, in the order in
    which a bullet line names them: the flags bold, italic and
    strikethrough, the font size and the colour of the text, the
    background colour, the number format and the alignment. *)
Definition attributes (fmt : CellFormat) : list string :=
  ((match textFormat fmt with
    | Some tf =>
        flag "bold" (bold tf) ++ flag "italic" (italic tf)
          ++ flag "strikethrough" (strikethrough tf)
          ++ sizeAttribute (fontSize tf)
          ++ colorAttribute (foregroundColorStyle tf)
    | None => []
    end)
   ++ (match backgroundColor fmt with
       | Some bg => [("bg: " ++ hexColor bg)%string]
       | None => []
       end)
   ++ numberFormatAttribute (numberFormat fmt)
   ++ alignAttribute (horizontalAlignment fmt))%list.

(** The bullet line of a cell: its formatted value, [(empty)] standing for
    a missing one, and its attributes joined by commas. *)
Definition bullet (cell : CellData) (fmt : CellFormat) : string :=
  "- **"
    ++ (match formattedValue cell with Some v => v | None => "(empty)" end)
    ++ "**: " ++ Js.join ", " (attributes fmt).

(** One bullet line for each cell that has an effective format. *)
Definition bulletsOfFormattedCells (gridData : list RowData) : list string :=
  flat_map (fun cell => match effectiveFormat cell with
                        | Some fmt => [bullet cell fmt]
                        | None => []
                        end)
           (cellsOf gridData).

(** The bullet line of a cell that is listed, if it is. *)
Definition listedBullet (cell : CellData) : list string :=
  match effectiveFormat cell with
  | Some fmt =>
      match attributes fmt with
      | [] => []
      | _ => [bullet cell fmt]
      end
  | None => []
  end.

(** One bullet line for each cell that has an effective format with at
    least one attribute, in the order of the cells. *)
Definition bulletsOfListedCells (gridData : list RowData) : list string :=
  flat_map listedBullet (cellsOf gridData).

(** The section: its heading, an empty line, and the bullet lines, or the
    line that says that there is no formatting data when there is none. *)
Definition formattingSection (range : string) (bullets : list string)
  : string :=
  Js.join Js.nl
    (("## Cell Formatting (" ++ range ++ ")")
     :: ""
     :: match bullets with
        | [] => ["No formatting data found."]
        | _ => bullets
        end).

End Statements.

End FormattingSpec.

(** ** The statements of the specification on the handlers *)

Module HandlerSpec.

Import Client Server.

(** The attributes of the format object of update-formatting. *)
Inductive Attribute : Type :=
| Bold
| Italic
| Strikethrough
| FontSize
| FontFamily
| ForegroundColor
| BackgroundColor
| HorizontalAlignment
| NumberFormatAttribute.

Definition allAttributes : list Attribute :=
  [Bold; Italic; Strikethrough; FontSize; FontFamily; ForegroundColor;
   BackgroundColor; HorizontalAlignment; NumberFormatAttribute].

(** The name of an attribute in a field mask. *)
Definition maskName (a : Attribute) : string :=
  match a with
  | Bold => "textFormat.bold"
  | Italic => "textFormat.italic"
  | Strikethrough => "textFormat.strikethrough"
  | FontSize => "textFormat.fontSize"
  | FontFamily => "textFormat.fontFamily"
  | ForegroundColor => "textFormat.foregroundColor"
  | BackgroundColor => "backgroundColor"
  | HorizontalAlignment => "horizontalAlignment"
  | NumberFormatAttribute => "numberFormat"
  end.

Section Statements.
Context `{JsRuntime}.

(** The format object of the call provides the attribute. *)
Definition provided (format : FormatParams) (a : Attribute) : bool :=
  match a with
  | Bold => isDefined (Server.bold format)
  | Italic => isDefined (Server.italic format)
  | Strikethrough => isDefined (Server.strikethrough format)
  | FontSize => isDefined (Server.fontSize format)
  | FontFamily => isDefined (Server.fontFamily format)
  | ForegroundColor => isDefined (Server.foregroundColor format)
  | BackgroundColor => isDefined (Server.backgroundColor format)
  | HorizontalAlignment => isDefined (Server.horizontalAlignment format)
  | NumberFormatAttribute => isDefined (Server.numberFormat format)
  end.

Definition inTextFormat {A : Type} (field : TextFormat -> option A)
    (sentFormat : CellFormat) : option A :=
  match textFormat sentFormat with
  | Some t => field t
  | None => None
  end.

(** The format sent to the remote service has the attribute. *)
Definition carried (sentFormat : CellFormat) (a : Attribute) : bool :=
  match a with
  | Bold => isDefined (inTextFormat Client.bold sentFormat)
  | Italic => isDefined (inTextFormat Client.italic sentFormat)
  | Strikethrough => isDefined (inTextFormat Client.strikethrough sentFormat)
  | FontSize => isDefined (inTextFormat Client.fontSize sentFormat)
  | FontFamily => isDefined (inTextFormat Client.fontFamily sentFormat)
  | ForegroundColor =>
      isDefined (inTextFormat Client.foregroundColor sentFormat)
  | BackgroundColor => isDefined (Client.backgroundColor sentFormat)
  | HorizontalAlignment => isDefined (Client.horizontalAlignment sentFormat)
  | NumberFormatAttribute => isDefined (Client.numberFormat sentFormat)
  end.

(** The sent format has, for every attribute, the value the call gives. *)
Definition SameValues (format : FormatParams) (sentFormat : CellFormat)
  : Prop :=
  inTextFormat Client.bold sentFormat = Server.bold format
  /\ inTextFormat Client.italic sentFormat = Server.italic format
  /\ inTextFormat Client.strikethrough sentFormat
     = Server.strikethrough format
  /\ inTextFormat Client.fontSize sentFormat = Server.fontSize format
  /\ inTextFormat Client.fontFamily sentFormat = Server.fontFamily format
  /\ inTextFormat Client.foregroundColor sentFormat
     = Server.foregroundColor format
  /\ Client.backgroundColor sentFormat = Server.backgroundColor format
  /\ Client.horizontalAlignment sentFormat
     = Server.horizontalAlignment format
  /\ Client.numberFormat sentFormat = Server.numberFormat format.

(** A format object that supplies [bold] alone. *)
Definition onlyBold (value : bool) : FormatParams :=
  {| Server.bold := Some value; Server.italic := None;
     Server.strikethrough := None; Server.fontSize := None;
     Server.fontFamily := None; Server.foregroundColor := None;
     Server.backgroundColor := None; Server.horizontalAlignment := None;
     Server.numberFormat := None |}.

(** The singleton client exists or can be built. *)
Definition ClientAvailable (world : World) (st : State) : Prop :=
  clientInstance st = true \/ loadCredentials world = None.

(** The read of the metadata that resolves a sheet title. *)
Definition metadataRead (spreadsheetId : string) : Request :=
  SpreadsheetsGet spreadsheetId infoFields.

(** The remote service answers the read of the metadata, made in state
    [st], with [data]. *)
Definition MetadataIs (world : World) (st : State) (spreadsheetId : string)
    (data : Spreadsheet) : Prop :=
  spreadsheets_get world (sent st) spreadsheetId infoFields = inr data.

(** The state after the handler has obtained the client and has read the
    metadata. *)
Definition afterMetadata (st : State) (spreadsheetId : string) : State :=
  {| clientInstance := true;
     sent := Js.push (sent st) (metadataRead spreadsheetId) |}.

(** The read of the data of the sheet that delete-sheet is about to
    delete, and the request that deletes it. *)
Definition snapshotRead (spreadsheetId sheetTitle : string) : Request :=
  ValuesGet spreadsheetId (sheetTitle ++ "!A:ZZ") "FORMATTED_VALUE".

Definition deletion (spreadsheetId : string) (sheetId : Number) : Request :=
  BatchUpdate spreadsheetId [DeleteSheet sheetId].

(** The calls to the remote API made between the states [st] and [st']. *)
Definition callsMade (st st' : State) : list Request :=
  skipn (List.length (sent st)) (sent st').

Definition isUpdate (request : Request) : bool :=
  match request with
  | BatchUpdate _ _ => true
  | _ => false
  end.

(** The format and the parts of the field mask, in closed form. *)
Definition expectedTextFormat (format : FormatParams) : TextFormat :=
  {| Client.bold := Server.bold format;
     Client.italic := Server.italic format;
     Client.strikethrough := Server.strikethrough format;
     Client.fontSize := Server.fontSize format;
     Client.fontFamily := Server.fontFamily format;
     Client.foregroundColor := Server.foregroundColor format |}.

Definition expectedCellFormat (format : FormatParams) : CellFormat :=
  {| textFormat :=
       if existsb (provided format)
            [Bold; Italic; Strikethrough; FontSize; FontFamily;
             ForegroundColor]
       then Some (expectedTextFormat format) else None;
     Client.backgroundColor := Server.backgroundColor format;
     Client.horizontalAlignment := Server.horizontalAlignment format;
     Client.numberFormat := Server.numberFormat format |}.

Definition expectedFieldParts (format : FormatParams) : list string :=
  flat_map (fun a => if provided format a then [maskName a] else [])
           allAttributes.

(** The request that update-formatting sends for a cell format and the
    parts of a field mask. *)
Definition formattingRequest (params : UpdateFormattingParams)
    (sheetId : Number) (cellFormat : CellFormat) (fieldParts : list string)
  : Request :=
  BatchUpdate (spreadsheetId params)
    [RepeatCell
       {| Client.sheetId := sheetId;
          Client.startRowIndex := startRowIndex params;
          Client.endRowIndex := endRowIndex params;
          Client.startColumnIndex := startColumnIndex params;
          Client.endColumnIndex := endColumnIndex params |}
       cellFormat
       ("userEnteredFormat(" ++ Js.join "," fieldParts ++ ")")].

End Statements.

Section Runs.
Context `{JsRuntime}.
Variable world : World.

(** The handler of update-formatting after the title is resolved, and its
    [catch] block. *)
Definition applyFormatting (params : UpdateFormattingParams)
    (sheetId : Number) : M CallToolResult :=
  let '(cellFormat, fieldParts) := buildCellFormat (format params) in
  if (List.length fieldParts =? 0)%nat
  then ret (createErrorResponse "No formatting properties specified.")
  else
    _ <- updateFormatting world (spreadsheetId params) sheetId
           (startRowIndex params) (endRowIndex params)
           (startColumnIndex params) (endColumnIndex params)
           cellFormat (Js.join "," fieldParts) ;;
    ret (createTextResponse
           ("Formatting updated for " ++ sheetTitle params ++ " "
              ++ "[rows " ++ numberToString (startRowIndex params) ++ "-"
              ++ numberToString (endRowIndex params) ++ ", cols "
              ++ numberToString (startColumnIndex params) ++ "-"
              ++ numberToString (endColumnIndex params) ++ "]" ++ Js.nl
              ++ Js.nl ++ "Applied: " ++ Js.join ", " fieldParts)).

Definition onUpdateError (error : Thrown) : M CallToolResult :=
  ret (createErrorResponse
         ("Failed to update formatting: " ++ errorText error)).

End Runs.

End HandlerSpec.

(** ** The statements of the specification on the dispatcher *)

Module DispatchSpec.

Import Zod Server.

(** The fields that the schema of a tool declares. *)
Definition fieldsOf (schema : Schema) : list (string * Schema) :=
  match schema with
  | ZObject shape => shape
  | _ => []
  end.

(** A declared field is required unless its schema is optional. *)
Definition required (member : Schema) : bool :=
  match member with
  | ZOptional _ => false
  | _ => true
  end.

(** A schema that is neither optional nor a union. *)
Definition plain (member : Schema) : bool :=
  match member with
  | ZOptional _ => false
  | ZUnion _ => false
  | _ => true
  end.

(** In a schema, at every depth, a member that is required is plain, and
    the name of a member is written in JSON as it is. *)
Fixpoint wellDeclared (schema : Schema) : bool :=
  match schema with
  | ZArray element => wellDeclared element
  | ZObject shape =>
      (fix members (shape : list (string * Schema)) : bool :=
         match shape with
         | [] => true
         | (key, member) :: rest =>
             (negb (required member) || plain member)
             && String.eqb (jsonEscape key) key
             && wellDeclared member && members rest
         end) shape
  | ZOptional inner => wellDeclared inner
  | _ => true
  end.

Section Missing.
Context `{JsRuntime}.

(** The value lacks a field that the schema requires, at [path] counted
    from the value: a required key that an object does not have, in the
    value itself, in one of its members or in an element of one of its
    arrays. *)
Inductive Missing : Schema -> Value -> list PathSegment -> Prop :=
| MissingHere (shape : list (string * Schema))
    (fields : list (string * Value)) (key : string) (member : Schema) :
    In (key, member) shape ->
    required member = true ->
    prop fields key = VUndefined ->
    Missing (ZObject shape) (VObject fields) [Key key]
| MissingInMember (shape : list (string * Schema))
    (fields : list (string * Value)) (key : string) (member : Schema)
    (path : list PathSegment) :
    In (key, member) shape ->
    Missing member (prop fields key) path ->
    Missing (ZObject shape) (VObject fields) (Key key :: path)
| MissingInElement (element : Schema) (items : list Value) (i : nat)
    (item : Value) (path : list PathSegment) :
    nth_error items i = Some item ->
    Missing element item path ->
    Missing (ZArray element) (VArray items) (Index i :: path)
| MissingInOptional (inner : Schema) (value : Value)
    (path : list PathSegment) :
    Missing inner value path ->
    Missing (ZOptional inner) value path.

(** The keys on a path. *)
Definition keysOf (path : list PathSegment) : list string :=
  flat_map (fun segment => match segment with
                           | Key key => [key]
                           | Index _ => []
                           end)
           path.

End Missing.

(** The text of a result, and whether it is an error envelope. *)
Definition messageOf (result : CallToolResult) : string :=
  match content result with
  | item :: _ => text item
  | [] => ""
  end.

Definition isErrorEnvelope (result : CallToolResult) : bool :=
  match isError result with
  | Some true => true
  | _ => false
  end.

(** The message names the field: it has the name between double quotes. *)
Definition namesField (message key : string) : bool :=
  Text.includes message (Js.quote ++ key ++ Js.quote).

End DispatchSpec.

(** ** Statements on the rest of the code *)

Module MoreSpec.

Import Formatter Text TableSpec Client Server.

(** The text has no pipe and no line feed. *)
Fixpoint plainText (s : string) : bool :=
  match s with
  | EmptyString => true
  | String c rest =>
      negb (Ascii.eqb c "|") && negb (Ascii.eqb c "010") && plainText rest
  end.

(** The letter of rank [r], from A for 0 to Z for 25. *)
Definition letter (r : nat) : string :=
  String (Js.fromCharCode (65 + Z.of_nat r)) EmptyString.

Section Statements.
Context `{JsRuntime}.

(** The header of a table of [width] columns whose first row is given as
    the header: the texts of that row, then the labels of the columns that
    the row lacks. *)
Definition headerOf (width : nat) (first : list Cell) : list string :=
  (map cellText first
     ++ map columnLabel
          (seq (List.length first) (width - List.length first)))%list.

(** The lines that [formatSpreadsheetInfo] writes before the table of the
    sheets. *)
Definition infoIntro (info : SpreadsheetInfo) : list string :=
  [("# " ++ infoTitle info);
   "";
   ("- **Spreadsheet ID**: " ++ Client.spreadsheetId info);
   ("- **Locale**: " ++ locale info);
   ("- **Time Zone**: " ++ timeZone info);
   "";
   "## Sheets";
   ""].

Definition sheetsHeader : list string :=
  ["Sheet Name"; "Sheet ID"; "Rows"; "Columns"].

(** The cells of the row of a sheet. *)
Definition sheetCells (sheet : SheetInfo) : list string :=
  [escapeMarkdown (title sheet);
   numberToString (infoSheetId sheet);
   numberToString (rowCount sheet);
   numberToString (columnCount sheet)].

(** The two reads of a range. *)
Inductive ReadKind : Type := FormattedValues | Formulas.

Definition renderOption (kind : ReadKind) : string :=
  match kind with
  | FormattedValues => "FORMATTED_VALUE"
  | Formulas => "FORMULA"
  end.

Definition readHeading (kind : ReadKind) : string :=
  match kind with
  | FormattedValues => "Values"
  | Formulas => "Formulas"
  end.

Definition readLabel (kind : ReadKind) : string :=
  match kind with
  | FormattedValues => "values"
  | Formulas => "formulas"
  end.

Definition readHandler (world : World) (kind : ReadKind)
  : Reading.RangeParams -> M CallToolResult :=
  match kind with
  | FormattedValues => Reading.readValuesHandler world
  | Formulas => Reading.readFormulasHandler world
  end.

(** The request of a read, and the rows of its answer. *)
Definition readOf (kind : ReadKind) (params : Reading.RangeParams)
  : Request :=
  ValuesGet (Reading.rangeSpreadsheetId params) (Reading.range params)
    (renderOption kind).

Definition rowsOf (values : option (list (list Cell))) : list (list Cell) :=
  match values with
  | Some rows => rows
  | None => []
  end.

(** The message of a read that the remote service rejects. *)
Definition readFailure (kind : ReadKind) (params : Reading.RangeParams)
    (failure : ApiFailure) : string :=
  handleApiError failure
    ("Failed to read " ++ readLabel kind ++ " from " ++ Reading.range params).

(** A call of one of the handlers that use the module [Client] alone. *)
Inductive Invocation : Type :=
| GetSpreadsheetInfo (params : Reading.InfoParams)
| ReadValues (params : Reading.RangeParams)
| ReadFormulas (params : Reading.RangeParams)
| ReadAll (valuesSettleFirst : bool) (params : Reading.RangeParams)
| DeleteSheetCall (params : DeleteSheetParams)
| UpdateFormatting (params : UpdateFormattingParams).

Definition invoke (world : World) (invocation : Invocation)
  : M CallToolResult :=
  match invocation with
  | GetSpreadsheetInfo params => Reading.getSpreadsheetInfoHandler world params
  | ReadValues params => Reading.readValuesHandler world params
  | ReadFormulas params => Reading.readFormulasHandler world params
  | ReadAll settle params => Reading.readAllHandler world settle params
  | DeleteSheetCall params => deleteSheetHandler world params
  | UpdateFormatting params => updateFormattingHandler world params
  end.

(** How the error envelope of each handler starts. *)
Definition failurePrefix (invocation : Invocation) : string :=
  match invocation with
  | GetSpreadsheetInfo _ => "Failed to get spreadsheet info: "
  | ReadValues _ => "Failed to read values: "
  | ReadFormulas _ => "Failed to read formulas: "
  | ReadAll _ _ => "Failed to read values and formulas: "
  | DeleteSheetCall _ => "Failed to delete sheet: "
  | UpdateFormatting _ => "Failed to update formatting: "
  end.

End Statements.

(** The JSON schema that says what a zod schema accepts: an optional
    member is described by what it wraps and is left out of [required]. *)
Fixpoint advertise (schema : Zod.Schema) : Registry.JsonSchema :=
  match schema with
  | Zod.ZString => Registry.JsonString
  | Zod.ZNumber => Registry.JsonNumber
  | Zod.ZBoolean => Registry.JsonBoolean
  | Zod.ZNull => Registry.JsonNull
  | Zod.ZArray element => Registry.JsonArray (advertise element)
  | Zod.ZObject shape =>
      Registry.JsonObject
        ((fix members (shape : list (string * Zod.Schema))
            : list (string * Registry.JsonSchema) :=
            match shape with
            | [] => []
            | (key, member) :: rest => (key, advertise member) :: members rest
            end) shape)
        (map fst
           (filter (fun member => DispatchSpec.required (snd member)) shape))
  | Zod.ZOptional inner => advertise inner
  | Zod.ZUnion options =>
      Registry.JsonOneOf
        ((fix each (options : list Zod.Schema) : list Registry.JsonSchema :=
            match options with
            | [] => []
            | option :: rest => advertise option :: each rest
            end) options)
  | Zod.ZEnum values => Registry.JsonEnum values
  end.

(** The definition of a tool that agrees with its schema. *)
Definition advertised (tool : ToolName) : Registry.Tool :=
  {| Registry.name := toolKey tool;
     Registry.inputSchema := advertise (schemas tool) |}.

(** The keys that the schema of a tool declares. *)
Definition declaredKeys (tool : ToolName) : list string :=
  map fst (DispatchSpec.fieldsOf (schemas tool)).

End MoreSpec.

(** ** Statements on the handlers that write *)

Module ServiceSpec.

Import Formatter Client Server Service.

Section Statements.
Context `{JsRuntime}.

(** The singleton client exists or can be built. *)
Definition Ready (remote : Remote) (st : ProcessState) : Prop :=
  client st = true \/ loadCredentials (known remote (calls st)) = None.

(** The calls to the remote API made between the states [st] and [st']. *)
Definition callsSince (st st' : ProcessState) : list Call :=
  skipn (List.length (calls st)) (calls st').







(** The rows of the first grid of the first sheet of an answer. *)
Definition firstRows (sheets : option (list SheetData)) : list RowData :=
  match sheets with
  | Some ({| data := Some ({| rowData := Some rows |} :: _) |} :: _) => rows
  | _ => []
  end.


(** A call of one of the handlers that write or that read the formats. *)
Inductive Invocation : Type :=
| UpdateCells (params : ValuesParams)
| BatchUpdateCells (params : BatchParams)
| AppendRows (params : ValuesParams)
| AddSheetCall (params : AddSheetParams)
| GetFormatting (params : Reading.RangeParams).

Definition invoke (remote : Remote) (invocation : Invocation)
  : S CallToolResult :=
  match invocation with
  | UpdateCells params => updateCellsHandler remote params
  | BatchUpdateCells params => batchUpdateCellsHandler remote params
  | AppendRows params => appendRowsHandler remote params
  | AddSheetCall params => addSheetHandler remote params
  | GetFormatting params => getFormattingHandler remote params
  end.

Definition failurePrefix (invocation : Invocation) : string :=
  match invocation with
  | UpdateCells _ => "Failed to update cells: "
  | BatchUpdateCells _ => "Failed to batch update cells: "
  | AppendRows _ => "Failed to append rows: "
  | AddSheetCall _ => "Failed to add sheet: "
  | GetFormatting _ => "Failed to get formatting: "
  end.

End Statements.

End ServiceSpec.

(** ** Lemmas on strings *)

Section StringLemmas.

Import Text.

Lemma append_assoc (a b c : string) : (a ++ b) ++ c = a ++ (b ++ c).
Proof. induction a as [|x a IH]; simpl; [reflexivity | now rewrite IH]. Qed.

Lemma append_empty_r (a : string) : a ++ "" = a.
Proof. induction a as [|x a IH]; simpl; [reflexivity | now rewrite IH]. Qed.

Lemma prefix_app (sub rest : string) : String.prefix sub (sub ++ rest) = true.
Proof.
  induction sub as [|c sub IH]; simpl.
  - now destruct rest.
  - destruct (Ascii.ascii_dec c c); [assumption | congruence].
Qed.

Lemma includes_prefix (s sub : string) :
  String.prefix sub s = true -> includes s sub = true.
Proof. intros Hp. destruct s; cbn [includes]; now rewrite Hp. Qed.

Lemma includes_intro (pre sub post : string) :
  includes (pre ++ sub ++ post) sub = true.
Proof.
  induction pre as [|c pre IH]; simpl.
  - apply includes_prefix, prefix_app.
  - rewrite IH. apply orb_true_r.
Qed.

Lemma prefix_split (sub s : string) :
  String.prefix sub s = true -> exists post, s = sub ++ post.
Proof.
  revert s. induction sub as [|c sub IH]; intros s Hp.
  - exists s. reflexivity.
  - destruct s as [|d s]; simpl in Hp; [discriminate|].
    destruct (Ascii.ascii_dec c d); [subst | discriminate].
    destruct (IH _ Hp) as [post ->]. exists post. reflexivity.
Qed.

Lemma includes_split (s sub : string) :
  includes s sub = true -> exists pre post, s = pre ++ sub ++ post.
Proof.
  induction s as [|c s IH]; cbn [includes]; intros Hi.
  - rewrite orb_false_r in Hi. destruct (prefix_split _ _ Hi) as [post E].
    exists "", post. exact E.
  - apply orb_true_iff in Hi. destruct Hi as [Hp | Hr].
    + destruct (prefix_split _ _ Hp) as [post E]. exists "", post. exact E.
    + destruct (IH Hr) as (pre & post & ->). exists (String c pre), post.
      reflexivity.
Qed.

(** [includes] is transitive, and passes to a larger text. *)
Lemma includes_trans (a b c : string) :
  includes a b = true -> includes b c = true -> includes a c = true.
Proof.
  intros Hab Hbc.
  destruct (includes_split _ _ Hab) as (p1 & q1 & ->).
  destruct (includes_split _ _ Hbc) as (p2 & q2 & ->).
  replace (p1 ++ (p2 ++ c ++ q2) ++ q1) with ((p1 ++ p2) ++ c ++ (q2 ++ q1)).
  - apply includes_intro.
  - now rewrite !append_assoc.
Qed.

Lemma includes_refl (a : string) : includes a a = true.
Proof.
  pose proof (includes_intro "" a "") as Hi. simpl in Hi.
  now rewrite append_empty_r in Hi.
Qed.

Lemma includes_app_l (a b sub : string) :
  includes a sub = true -> includes (a ++ b) sub = true.
Proof.
  intros Hi. destruct (includes_split _ _ Hi) as (p & q & ->).
  replace ((p ++ sub ++ q) ++ b) with (p ++ sub ++ (q ++ b)).
  - apply includes_intro.
  - now rewrite !append_assoc.
Qed.

Lemma includes_app_r (a b sub : string) :
  includes b sub = true -> includes (a ++ b) sub = true.
Proof.
  intros Hi. destruct (includes_split _ _ Hi) as (p & q & ->).
  replace (a ++ p ++ sub ++ q) with ((a ++ p) ++ sub ++ q).
  - apply includes_intro.
  - now rewrite !append_assoc.
Qed.

Lemma includes_join (sep : string) (parts : list string) (p : string) :
  In p parts -> includes (Js.join sep parts) p = true.
Proof.
  induction parts as [|x parts IH]; intros Hin; [contradiction|].
  destruct parts as [|y parts].
  - destruct Hin as [-> | []]. apply includes_refl.
  - change (Js.join sep (x :: y :: parts))
      with (x ++ sep ++ Js.join sep (y :: parts)).
    destruct Hin as [-> | Hin].
    + apply includes_app_l, includes_refl.
    + apply includes_app_r, includes_app_r, IH, Hin.
Qed.

Lemma join_cons (sep x : string) (y : string) (parts : list string) :
  Js.join sep (x :: y :: parts) = x ++ sep ++ Js.join sep (y :: parts).
Proof. reflexivity. Qed.

Lemma singleLine_app (a b : string) :
  singleLine (a ++ b) = singleLine a && singleLine b.
Proof.
  induction a as [|c a IH]; simpl; [reflexivity|].
  now rewrite IH, andb_assoc.
Qed.

Lemma lines_singleLine (s : string) :
  singleLine s = true -> lines s = [s].
Proof.
  induction s as [|c s IH]; simpl; intros Hs; [reflexivity|].
  apply andb_true_iff in Hs. destruct Hs as [Hc Hs].
  destruct (Ascii.eqb c "010"); [discriminate|].
  now rewrite (IH Hs).
Qed.

Lemma lines_app (a b : string) :
  singleLine a = true ->
  lines (a ++ Js.nl ++ b) = a :: lines b.
Proof.
  induction a as [|c a IH]; simpl; intros Hs; [reflexivity|].
  apply andb_true_iff in Hs. destruct Hs as [Hc Hs].
  destruct (Ascii.eqb c "010"); [discriminate|].
  simpl in IH. now rewrite (IH Hs).
Qed.

(** The lines of joined single lines, followed by any text. *)
Lemma lines_join (ls : list string) (l : string) (tail : string) :
  Forall (fun x => singleLine x = true) (l :: ls) ->
  lines (Js.join Js.nl (l :: ls) ++ Js.nl ++ tail)
  = (l :: ls ++ lines tail)%list.
Proof.
  revert l. induction ls as [|x ls IH]; intros l Hall.
  - simpl Js.join. inversion Hall; subst. now rewrite lines_app.
  - rewrite join_cons. inversion Hall; subst.
    rewrite !append_assoc, lines_app by assumption.
    fold (Js.nl). rewrite IH by assumption. reflexivity.
Qed.

Lemma lines_join_end (ls : list string) (l : string) :
  Forall (fun x => singleLine x = true) (l :: ls) ->
  lines (Js.join Js.nl (l :: ls)) = (l :: ls)%list.
Proof.
  revert l. induction ls as [|x ls IH]; intros l Hall.
  - simpl Js.join. inversion Hall; subst. now apply lines_singleLine.
  - rewrite join_cons. inversion Hall; subst.
    rewrite lines_app by assumption. now rewrite IH.
Qed.

End StringLemmas.

(** ** Column labels *)

Section ColumnLabel.

Import Formatter Text.

Lemma letter_code (d : Z) :
  (0 <= d < 26)%Z ->
  Z.of_nat (nat_of_ascii (Js.fromCharCode (65 + d))) = (65 + d)%Z.
Proof.
  intros Hd. unfold Js.fromCharCode.
  rewrite nat_ascii_embedding by lia. lia.
Qed.

Lemma letter_upper (d : Z) :
  (0 <= d < 26)%Z -> isUpper (Js.fromCharCode (65 + d)) = true.
Proof.
  intros Hd. unfold isUpper, Js.fromCharCode.
  rewrite nat_ascii_embedding by lia.
  apply andb_true_iff; split; apply Nat.leb_le; lia.
Qed.

(** The invariant of the loop: a counter [n] that still has to be written
    stands for [n + 1] units at the position left of [label]. *)
Lemma loop_value (n : Z) (label : string) :
  (-1 <= n)%Z ->
  labelValue (columnLabelLoop n label)
  = ((n + 1) * 26 ^ Z.of_nat (String.length label) + labelValue label)%Z.
Proof.
  funelim (columnLabelLoop n label); intros Hn.
  - match goal with IH : _ -> labelValue _ = _ |- _ => rewrite IH end.
    + cbn [String.length labelValue].
      rewrite letter_code by (apply Z.mod_pos_bound; lia).
      rewrite Nat2Z.inj_succ, Z.pow_succ_r by lia.
      pose proof (Z.div_mod n 26 ltac:(lia)) as Hdm.
      set (p := (26 ^ Z.of_nat (String.length label))%Z).
      set (q := (n / 26)%Z) in *. set (r := (n mod 26)%Z) in *.
      rewrite Hdm. ring.
    + assert (0 <= n / 26)%Z by (apply Z.div_pos; lia). lia.
  - replace n with (-1)%Z by lia. simpl. reflexivity.
Qed.

Lemma loop_upper (n : Z) (label : string) :
  allUpper label = true -> allUpper (columnLabelLoop n label) = true.
Proof.
  funelim (columnLabelLoop n label); intros Hl.
  - match goal with IH : _ -> allUpper _ = true |- _ => apply IH end.
    cbn [allUpper]. rewrite letter_upper by (apply Z.mod_pos_bound; lia).
    exact Hl.
  - exact Hl.
Qed.

Lemma columnLabel_value (i : nat) :
  labelValue (columnLabel i) = (Z.of_nat i + 1)%Z.
Proof.
  unfold columnLabel. rewrite loop_value by lia. simpl. lia.
Qed.

Lemma columnLabel_upper (i : nat) : allUpper (columnLabel i) = true.
Proof. unfold columnLabel. now apply loop_upper. Qed.

Lemma columnLabel_injective (i j : nat) :
  columnLabel i = columnLabel j -> i = j.
Proof.
  intros E. apply (f_equal labelValue) in E.
  rewrite !columnLabel_value in E. lia.
Qed.

Lemma columnLabel_not_empty (i : nat) : columnLabel i <> "".
Proof.
  intros E. apply (f_equal labelValue) in E.
  rewrite columnLabel_value in E. simpl in E. lia.
Qed.

(** Every numeral is the label of the index it stands for. *)
Lemma string_snoc (s : string) :
  s <> "" -> exists front c, s = front ++ String c "".
Proof.
  induction s as [|a s IH]; intros Hs; [congruence|].
  destruct s as [|b s].
  - exists "", a. reflexivity.
  - destruct IH as (front & c & E); [discriminate|].
    exists (String a front), c. simpl. now rewrite <- E.
Qed.

Lemma length_snoc (s : string) (c : ascii) :
  String.length (s ++ String c "") = S (String.length s).
Proof. induction s as [|a s IH]; simpl; [reflexivity | now rewrite IH]. Qed.

Lemma labelValue_snoc (s : string) (c : ascii) :
  labelValue (s ++ String c "")
  = (labelValue s * 26 + (Z.of_nat (nat_of_ascii c) - 64))%Z.
Proof.
  induction s as [|a s IH]; cbn [append labelValue String.length].
  - simpl. lia.
  - rewrite IH, length_snoc, Nat2Z.inj_succ, Z.pow_succ_r by lia. ring.
Qed.

Lemma allUpper_snoc (s : string) (c : ascii) :
  allUpper (s ++ String c "") = allUpper s && isUpper c.
Proof.
  induction s as [|a s IH]; simpl.
  - now rewrite andb_true_r.
  - now rewrite IH, andb_assoc.
Qed.

Lemma labelValue_nonneg (s : string) :
  allUpper s = true -> (0 <= labelValue s)%Z.
Proof.
  induction s as [|a s IH]; simpl; intros Hs; [lia|].
  apply andb_true_iff in Hs. destruct Hs as [Ha Hs].
  unfold isUpper in Ha. apply andb_true_iff in Ha. destruct Ha as [H1 H2].
  apply Nat.leb_le in H1. apply Nat.leb_le in H2.
  specialize (IH Hs).
  assert (0 < 26 ^ Z.of_nat (String.length s))%Z by (apply Z.pow_pos_nonneg; lia).
  nia.
Qed.

Lemma loop_of_value (k : nat) :
  forall s label,
    String.length s = k ->
    allUpper s = true ->
    columnLabelLoop (labelValue s - 1) label = s ++ label.
Proof.
  induction k as [|k IH]; intros s label Hk Hs.
  - destruct s; [|discriminate]. simpl labelValue.
    rewrite columnLabelLoop_equation_1. reflexivity.
  - destruct (string_snoc s) as (front & c & ->).
    { intros ->. discriminate. }
    rewrite length_snoc in Hk. injection Hk as Hk.
    rewrite allUpper_snoc in Hs. apply andb_true_iff in Hs.
    destruct Hs as [Hf Hc].
    pose proof (labelValue_nonneg _ Hf) as Hv.
    unfold isUpper in Hc. apply andb_true_iff in Hc. destruct Hc as [H1 H2].
    apply Nat.leb_le in H1. apply Nat.leb_le in H2.
    rewrite labelValue_snoc.
    set (d := (Z.of_nat (nat_of_ascii c) - 65)%Z).
    replace (labelValue front * 26 + (Z.of_nat (nat_of_ascii c) - 64) - 1)%Z
      with (d + labelValue front * 26)%Z by (unfold d; lia).
    assert (Hd : (0 <= d < 26)%Z) by (unfold d; lia).
    rewrite columnLabelLoop_equation_1.
    destruct (Z_le_gt_dec 0 (d + labelValue front * 26)) as [Hge|Hneg]; [|lia].
    cbn [columnLabelLoop_unfold_clause_1].
    rewrite Z.div_add, Z.mod_add, Z.div_small, Z.mod_small by lia.
    replace (Js.fromCharCode (65 + d)) with c.
    + rewrite Z.add_0_l, (IH front _ Hk Hf), append_assoc. reflexivity.
    + unfold Js.fromCharCode, d.
      replace (Z.to_nat (65 + (Z.of_nat (nat_of_ascii c) - 65)))
        with (nat_of_ascii c) by lia.
      now rewrite ascii_nat_embedding.
Qed.

Lemma columnLabel_surjective (s : string) :
  s <> "" -> allUpper s = true -> exists i, columnLabel i = s.
Proof.
  intros Hne Hs.
  assert (Hpos : (1 <= labelValue s)%Z).
  { destruct s as [|a s]; [congruence|]. simpl in Hs |- *.
    apply andb_true_iff in Hs. destruct Hs as [Ha Hs].
    pose proof (labelValue_nonneg _ Hs).
    unfold isUpper in Ha. apply andb_true_iff in Ha. destruct Ha as [H1 H2].
    apply Nat.leb_le in H1.
    assert (0 < 26 ^ Z.of_nat (String.length s))%Z
      by (apply Z.pow_pos_nonneg; lia).
    nia. }
  exists (Z.to_nat (labelValue s - 1)). unfold columnLabel.
  rewrite Z2Nat.id by lia.
  rewrite (loop_of_value _ s "" eq_refl Hs). apply append_empty_r.
Qed.

End ColumnLabel.

(** ** Table rows *)

Section TableLemmas.

Import Formatter Text TableSpec.
Context `{JsRuntime}.

Lemma escapeMarkdown_cons (c : ascii) (text : string) :
  escapeMarkdown (String c text) = escapeChar c ++ escapeMarkdown text.
Proof.
  unfold escapeMarkdown, escapeChar. cbn [Js.replaceAll].
  destruct (Ascii.eqb c "|") eqn:Ep.
  - reflexivity.
  - cbn [Js.replaceAll]. destruct (Ascii.eqb c "010"); reflexivity.
Qed.

Lemma escapeMarkdown_singleLine (text : string) :
  singleLine (escapeMarkdown text) = true.
Proof.
  induction text as [|c text IH]; [reflexivity|].
  rewrite escapeMarkdown_cons, singleLine_app, IH, andb_true_r.
  unfold escapeChar.
  destruct (Ascii.eqb c "|"); [reflexivity|].
  destruct (Ascii.eqb c "010") eqn:En; [reflexivity|].
  simpl. now rewrite En.
Qed.

Lemma scanCell_app (e : bool) (a b : string) :
  scanCell e (a ++ b)
  = match scanCell e a with
    | Some e' => scanCell e' b
    | None => None
    end.
Proof.
  revert e. induction a as [|c a IH]; intros e; simpl; [reflexivity|].
  destruct (Ascii.eqb c "|" && negb e); [reflexivity | apply IH].
Qed.

(** After escaping, every pipe comes right after a backslash. *)
Lemma escapeMarkdown_scan (text : string) (e : bool) :
  exists e', scanCell e (escapeMarkdown text) = Some e'.
Proof.
  revert e. induction text as [|c text IH]; intros e.
  - exists e. reflexivity.
  - rewrite escapeMarkdown_cons, scanCell_app. unfold escapeChar.
    destruct (Ascii.eqb c "|") eqn:Ep.
    + simpl. apply IH.
    + destruct (Ascii.eqb c "010") eqn:En.
      * simpl. apply IH.
      * simpl. rewrite Ep. simpl. apply IH.
Qed.

Lemma escapeMarkdown_safe (text : string) :
  cellSafe (escapeMarkdown text) = true.
Proof.
  unfold cellSafe. destruct (escapeMarkdown_scan text false) as [e ->].
  reflexivity.
Qed.

Lemma escapeMarkdown_start (text : string) :
  startsWithPipe (escapeMarkdown text) = false.
Proof.
  destruct text as [|c text]; [reflexivity|].
  rewrite escapeMarkdown_cons. unfold escapeChar.
  destruct (Ascii.eqb c "|") eqn:Ep; [reflexivity|].
  destruct (Ascii.eqb c "010"); [reflexivity|]. exact Ep.
Qed.

Lemma unescapePipes_cons (c : ascii) (s : string) :
  startsWithPipe s = false ->
  unescapePipes (String c s) = String c (unescapePipes s).
Proof.
  destruct s as [|d s]; intros Hs; [reflexivity|].
  cbn [startsWithPipe] in Hs. cbn [unescapePipes].
  now rewrite Hs, andb_false_r.
Qed.

(** Dropping the backslashes gives the text back, with its line feeds
    turned into spaces. *)
Lemma unescape_escapeMarkdown (text : string) :
  unescapePipes (escapeMarkdown text) = Js.replaceAll "010" " " text.
Proof.
  induction text as [|c text IH]; [reflexivity|].
  rewrite escapeMarkdown_cons. unfold escapeChar. cbn [Js.replaceAll].
  destruct (Ascii.eqb c "|") eqn:Ep.
  - apply Ascii.eqb_eq in Ep. subst c. cbn. now rewrite <- IH.
  - destruct (Ascii.eqb c "010") eqn:En.
    + change (" " ++ escapeMarkdown text)
        with (String " " (escapeMarkdown text)).
      rewrite unescapePipes_cons by apply escapeMarkdown_start.
      now rewrite IH.
    + change (String c "" ++ escapeMarkdown text)
        with (String c (escapeMarkdown text)).
      rewrite unescapePipes_cons by apply escapeMarkdown_start.
      now rewrite IH.
Qed.

Lemma upper_not_special (c : ascii) :
  isUpper c = true ->
  Ascii.eqb c "|" = false /\ Ascii.eqb c "\" = false
  /\ Ascii.eqb c "010" = false.
Proof.
  unfold isUpper. intros Hc. apply andb_true_iff in Hc.
  destruct Hc as [H1 H2]. apply Nat.leb_le in H1. apply Nat.leb_le in H2.
  repeat split; apply Ascii.eqb_neq; intros ->; vm_compute in H1, H2; lia.
Qed.

Lemma allUpper_scan (s : string) (e : bool) :
  allUpper s = true -> exists e', scanCell e s = Some e'.
Proof.
  revert e. induction s as [|c s IH]; intros e Hs.
  - exists e. reflexivity.
  - simpl in Hs. apply andb_true_iff in Hs. destruct Hs as [Hc Hs].
    destruct (upper_not_special c Hc) as (Hp & _ & _).
    simpl. rewrite Hp. simpl. now apply IH.
Qed.

Lemma allUpper_singleLine (s : string) :
  allUpper s = true -> singleLine s = true.
Proof.
  induction s as [|c s IH]; intros Hs; [reflexivity|].
  simpl in Hs. apply andb_true_iff in Hs. destruct Hs as [Hc Hs].
  destruct (upper_not_special c Hc) as (_ & _ & Hn).
  simpl. now rewrite Hn, IH.
Qed.

Lemma columnLabel_safe (i : nat) : cellSafe (columnLabel i) = true.
Proof.
  unfold cellSafe.
  destruct (allUpper_scan _ false (columnLabel_upper i)) as [e ->].
  reflexivity.
Qed.

(** *** Splitting a rendered row *)

Lemma prependHead_consHead (c : ascii) (a : string) (parts : list string) :
  consHead c (prependHead a parts) = prependHead (String c a) parts.
Proof. destruct parts; reflexivity. Qed.

Lemma splitPipes_cons (e : bool) (s : string) :
  exists p ps, splitPipes e s = p :: ps.
Proof.
  revert e. induction s as [|c s IH]; intros e; simpl; [eauto|].
  destruct (Ascii.eqb c "|" && negb e); [eauto|].
  destruct (IH (Ascii.eqb c "\")) as (p & ps & ->). simpl. eauto.
Qed.

Lemma splitPipes_app (e e' : bool) (a b : string) :
  scanCell e a = Some e' ->
  splitPipes e (a ++ b) = prependHead a (splitPipes e' b).
Proof.
  revert e. induction a as [|c a IH]; intros e Hs.
  - simpl in Hs. injection Hs as ->. simpl.
    destruct (splitPipes_cons e' b) as (p & ps & ->). reflexivity.
  - simpl in Hs |- *. destruct (Ascii.eqb c "|" && negb e); [discriminate|].
    rewrite (IH _ Hs). apply prependHead_consHead.
Qed.

Lemma splitPipes_pipe (s : string) :
  splitPipes false ("|" ++ s) = "" :: splitPipes false s.
Proof. reflexivity. Qed.

Lemma pad_scan (cell : string) :
  cellSafe cell = true -> scanCell false (pad cell) = Some false.
Proof.
  unfold cellSafe, pad. intros Hs.
  destruct (scanCell false cell) as [e|] eqn:E; [|discriminate].
  cbn [append scanCell]. cbn [Ascii.eqb Bool.eqb andb].
  rewrite scanCell_app, E. destruct e; reflexivity.
Qed.

Lemma dropLastSpace_snoc (s : string) : dropLastSpace (s ++ " ") = s.
Proof.
  induction s as [|a s IH]; [reflexivity|].
  cbn [append dropLastSpace]. destruct s as [|b s].
  - reflexivity.
  - cbn [append] in *. now rewrite IH.
Qed.

Lemma trimCell_pad (cell : string) : trimCell (pad cell) = cell.
Proof. unfold pad. cbn. apply dropLastSpace_snoc. Qed.

Lemma split_joined (cell : string) (cells : list string) :
  Forall (fun c => cellSafe c = true) (cell :: cells) ->
  splitPipes false (" " ++ Js.join " | " (cell :: cells) ++ " |")
  = (map pad (cell :: cells) ++ [""])%list.
Proof.
  revert cell. induction cells as [|d cells IH]; intros cell Hall;
    inversion Hall as [|? ? Hc Hrest]; subst.
  - cbn [Js.join map app].
    change (" " ++ cell ++ " |") with (" " ++ cell ++ " " ++ "|").
    replace (" " ++ cell ++ " " ++ "|") with (pad cell ++ "|")
      by (unfold pad; now rewrite !append_assoc).
    rewrite (splitPipes_app false false _ _ (pad_scan _ Hc)).
    cbn. now rewrite append_empty_r.
  - rewrite join_cons.
    replace (" " ++ (cell ++ " | " ++ Js.join " | " (d :: cells)) ++ " |")
      with (pad cell ++ "|" ++ (" " ++ Js.join " | " (d :: cells) ++ " |")).
    + rewrite (splitPipes_app false false _ _ (pad_scan _ Hc)).
      rewrite splitPipes_pipe, (IH d Hrest). cbn. now rewrite append_empty_r.
    + unfold pad. rewrite !append_assoc. reflexivity.
Qed.

(** A rendered row is read back as its cells. *)
Lemma tableCells_tableLine (cells : list string) :
  cells <> [] ->
  Forall (fun c => cellSafe c = true) cells ->
  tableCells (tableLine cells) = Some cells.
Proof.
  intros Hne Hall. destruct cells as [|cell cells]; [congruence|].
  unfold tableCells, tableLine.
  change ("| " ++ Js.join " | " (cell :: cells) ++ " |")
    with ("|" ++ (" " ++ Js.join " | " (cell :: cells) ++ " |")).
  rewrite (splitPipes_pipe (" " ++ Js.join " | " (cell :: cells) ++ " |")).
  rewrite (split_joined cell cells Hall), rev_app_distr. cbn [rev app].
  rewrite rev_involutive, map_map. f_equal.
  erewrite map_ext; [apply map_id|]. intros c. apply trimCell_pad.
Qed.

Lemma join_singleLine (sep : string) (parts : list string) :
  singleLine sep = true ->
  Forall (fun p => singleLine p = true) parts ->
  singleLine (Js.join sep parts) = true.
Proof.
  intros Hsep. induction parts as [|p parts IH]; intros Hall; [reflexivity|].
  inversion Hall; subst. destruct parts as [|q parts]; [assumption|].
  rewrite join_cons, !singleLine_app.
  repeat (apply andb_true_iff; split); auto.
Qed.

Lemma tableLine_singleLine (cells : list string) :
  Forall (fun c => singleLine c = true) cells ->
  singleLine (tableLine cells) = true.
Proof.
  intros Hall. unfold tableLine. rewrite !singleLine_app.
  rewrite (join_singleLine " | " cells eq_refl Hall). reflexivity.
Qed.

(** *** The cells of a data row *)

Lemma rowCells_length (colCount : nat) (row : list Cell) :
  List.length (rowCells colCount row) = colCount.
Proof. unfold rowCells. now rewrite length_map, length_seq. Qed.

Lemma rowCells_safe (colCount : nat) (row : list Cell) :
  Forall (fun c => cellSafe c = true) (rowCells colCount row).
Proof.
  unfold rowCells. apply Forall_map, Forall_forall. intros i _.
  apply escapeMarkdown_safe.
Qed.

Lemma rowCells_singleLine (colCount : nat) (row : list Cell) :
  Forall (fun c => singleLine c = true) (rowCells colCount row).
Proof.
  unfold rowCells. apply Forall_map, Forall_forall. intros i _.
  apply escapeMarkdown_singleLine.
Qed.

Lemma rowCells_not_nil (colCount : nat) (row : list Cell) :
  0 < colCount -> rowCells colCount row <> [].
Proof.
  intros Hc E. apply (f_equal (@List.length _)) in E.
  rewrite rowCells_length in E. simpl in E. lia.
Qed.

End TableLemmas.

(** ** The table renderer *)

Section TableOutput.

Import Formatter Text TableSpec.
Context `{JsRuntime}.

Lemma rowCells_expected (width : nat) (row : list Cell) :
  rowCells width row = expectedCells width row.
Proof.
  unfold rowCells, expectedCells. apply map_ext. intros i.
  destruct (nth_error row i) as [cell|] eqn:E.
  - now rewrite (nth_error_nth _ _ _ E).
  - apply nth_error_None in E. now rewrite nth_overflow.
Qed.

Lemma padHeader_done (headerRow : list string) : padHeader 0 headerRow = headerRow.
Proof. reflexivity. Qed.

(** The rows that are shown: the block, cut at [MAX_ROWS] rows. *)
Lemma shown_rows (data : list (list Cell)) :
  (if (MAX_ROWS + 0 <? List.length data)%nat
   then firstn (MAX_ROWS + 0) data else data)
  = firstn MAX_ROWS data.
Proof.
  rewrite Nat.add_0_r. destruct (Nat.ltb_spec MAX_ROWS (List.length data)).
  - reflexivity.
  - symmetry. now apply firstn_all2.
Qed.

(** The table for a block that has a cell, without a header row. *)
Lemma tableOf_lines (data : list (list Cell)) :
  0 < widest data ->
  tableOf (widest data) data false
  = Js.join Js.nl
      (tableLine (labels (widest data))
       :: tableLine (map (fun _ => "---") (labels (widest data)))
       :: map (fun row => tableLine (rowCells (widest data) row))
            (firstn MAX_ROWS data))
    ++ (if (MAX_ROWS <? List.length data)%nat
        then truncationNotice (List.length data) else "").
Proof.
  intros Hw. unfold tableOf.
  destruct (Nat.eqb_spec (widest data) 0) as [E|_]; [lia|].
  cbv zeta. rewrite shown_rows.
  fold (labels (widest data)).
  replace (widest data - List.length (labels (widest data)))
    with 0 by (unfold labels; rewrite length_map, length_seq; lia).
  rewrite padHeader_done, Nat.sub_0_r, Nat.add_0_r.
  destruct (MAX_ROWS <? List.length data)%nat.
  - reflexivity.
  - now rewrite append_empty_r.
Qed.

(** [formatAsMarkdownTable] returns for a block whose rows the engine
    accepts as arguments, and throws for any other. *)
Lemma formatAsMarkdownTable_returns (data : list (list Cell))
    (hasHeader : bool) :
  (N.of_nat (List.length data) <= spreadLimit)%N ->
  formatAsMarkdownTable data hasHeader
  = inr (tableOf (widest data) data hasHeader).
Proof.
  intros Hfit. unfold formatAsMarkdownTable, colCountOf.
  destruct data as [|row data]; [reflexivity|].
  apply N.leb_le in Hfit. now rewrite Hfit.
Qed.

Lemma formatAsMarkdownTable_throws (data : list (list Cell))
    (hasHeader : bool) :
  (spreadLimit < N.of_nat (List.length data))%N ->
  formatAsMarkdownTable data hasHeader = inl spreadOverflow.
Proof.
  intros Hover. unfold formatAsMarkdownTable, colCountOf.
  destruct data as [|row data]; [cbn in Hover; lia|].
  apply N.leb_gt in Hover. now rewrite Hover.
Qed.

(** A block of at most [MAX_ROWS] rows is within the limit of every
    engine. *)
Lemma shown_whole_fits (data : list (list Cell)) :
  List.length data <= MAX_ROWS ->
  (N.of_nat (List.length data) <= spreadLimit)%N.
Proof.
  intros Hlen. pose proof spreadLimit_floor as Hfloor.
  unfold MAX_ROWS in Hlen. lia.
Qed.

Lemma labels_length (width : nat) : List.length (labels width) = width.
Proof. unfold labels. now rewrite length_map, length_seq. Qed.

Lemma labels_safe (width : nat) :
  Forall (fun c => cellSafe c = true) (labels width).
Proof.
  unfold labels. apply Forall_map, Forall_forall. intros i _.
  apply columnLabel_safe.
Qed.

Lemma labels_singleLine (width : nat) :
  Forall (fun c => singleLine c = true) (labels width).
Proof.
  unfold labels. apply Forall_map, Forall_forall. intros i _.
  apply allUpper_singleLine, columnLabel_upper.
Qed.

Lemma separator_cells (header : list string) :
  map (fun _ : string => "---") header = repeat "---" (List.length header).
Proof. induction header as [|h header IH]; simpl; [reflexivity | now rewrite IH]. Qed.

Lemma repeat_Forall {A : Type} (P : A -> Prop) (x : A) (n : nat) :
  P x -> Forall P (repeat x n).
Proof. intros Hx. induction n; simpl; constructor; assumption. Qed.

(** The lines of the table and how each is read back. *)
Lemma table_lines_read (width : nat) (rows : list (list Cell)) :
  0 < width ->
  let rowLines := map (fun row => tableLine (rowCells width row)) rows in
  tableCells (tableLine (labels width)) = Some (labels width)
  /\ tableCells (tableLine (map (fun _ => "---") (labels width)))
     = Some (repeat "---" (List.length (labels width)))
  /\ map tableCells rowLines = map (@Some _) (map (expectedCells width) rows)
  /\ Forall (fun x => singleLine x = true)
       (tableLine (labels width)
        :: tableLine (map (fun _ => "---") (labels width)) :: rowLines).
Proof.
  intros Hw rowLines.
  assert (Hlabels : labels width <> []).
  { intros E. apply (f_equal (@List.length _)) in E.
    rewrite labels_length in E. simpl in E. lia. }
  repeat split.
  - apply tableCells_tableLine; [assumption | apply labels_safe].
  - rewrite separator_cells. apply tableCells_tableLine.
    + rewrite labels_length. destruct width; [lia | discriminate].
    + now apply repeat_Forall.
  - unfold rowLines. rewrite !map_map. apply map_ext. intros row.
    rewrite <- rowCells_expected.
    apply tableCells_tableLine; [now apply rowCells_not_nil | apply rowCells_safe].
  - constructor; [apply tableLine_singleLine, labels_singleLine|].
    constructor.
    + rewrite separator_cells. apply tableLine_singleLine.
      now apply repeat_Forall.
    + unfold rowLines. apply Forall_map, Forall_forall. intros row _.
      apply tableLine_singleLine, rowCells_singleLine.
Qed.

Lemma expected_widths (width : nat) (rows : list (list Cell)) :
  Forall (fun row => List.length row = List.length (labels width))
    (map (expectedCells width) rows).
Proof.
  apply Forall_map, Forall_forall. intros row _.
  unfold expectedCells. now rewrite length_map, length_seq, labels_length.
Qed.

Lemma digits_singleLine (d : Decimal.uint) :
  singleLine (NilEmpty.string_of_uint d) = true.
Proof. induction d; simpl; auto. Qed.

Lemma natToString_singleLine (n : nat) : singleLine (Js.natToString n) = true.
Proof.
  unfold Js.natToString, NilZero.string_of_uint.
  destruct (Nat.to_uint n) eqn:E; try reflexivity;
    rewrite <- E; apply digits_singleLine.
Qed.

Lemma noticeLine_singleLine (total : nat) :
  singleLine (noticeLine total) = true.
Proof.
  unfold noticeLine. rewrite !singleLine_app, natToString_singleLine.
  reflexivity.
Qed.

Lemma truncationNotice_noticeLine (total : nat) :
  truncationNotice total = Js.nl ++ Js.nl ++ noticeLine total.
Proof. reflexivity. Qed.

End TableOutput.

Section TableTheorems.

Import Formatter Text TableSpec.
Context `{JsRuntime}.

Lemma output_lines (data : list (list Cell)) :
  0 < widest data ->
  lines (tableOf (widest data) data false)
  = (tableLine (labels (widest data))
     :: tableLine (map (fun _ => "---") (labels (widest data)))
     :: map (fun row => tableLine (rowCells (widest data) row))
          (firstn MAX_ROWS data)
     ++ (if (MAX_ROWS <? List.length data)%nat
         then [""; noticeLine (List.length data)] else []))%list.
Proof.
  intros Hw. rewrite tableOf_lines by assumption.
  destruct (table_lines_read (widest data) (firstn MAX_ROWS data) Hw)
    as (_ & _ & _ & Hsingle).
  destruct (MAX_ROWS <? List.length data)%nat.
  - rewrite truncationNotice_noticeLine, lines_join by exact Hsingle.
    change (lines (Js.nl ++ noticeLine (List.length data)))
      with ("" :: lines (noticeLine (List.length data))).
    now rewrite (lines_singleLine _ (noticeLine_singleLine _)).
  - rewrite append_empty_r, lines_join_end by exact Hsingle.
    now rewrite app_nil_r.
Qed.

Lemma output_is_table (data : list (list Cell)) :
  0 < widest data ->
  MarkdownTable (labels (widest data))
    (map (expectedCells (widest data)) (firstn MAX_ROWS data))
    (if (MAX_ROWS <? List.length data)%nat
     then [""; noticeLine (List.length data)] else [])
    (tableOf (widest data) data false).
Proof.
  intros Hw.
  destruct (table_lines_read (widest data) (firstn MAX_ROWS data) Hw)
    as (Hh & Hs & Hr & _).
  eexists _, _, _. split; [apply output_lines; assumption|].
  repeat split; try assumption. apply expected_widths.
Qed.

Lemma noCarriageReturn_app (a b : string) :
  noCarriageReturn (a ++ b) = noCarriageReturn a && noCarriageReturn b.
Proof.
  induction a as [|c a IH]; simpl; [reflexivity|].
  now rewrite IH, andb_assoc.
Qed.

Lemma escapeMarkdown_keeps_lines_apart (text : string) :
  noCarriageReturn (escapeMarkdown text) = noCarriageReturn text.
Proof.
  induction text as [|c text IH]; [reflexivity|].
  rewrite escapeMarkdown_cons, noCarriageReturn_app, IH.
  cbn [noCarriageReturn]. unfold escapeChar.
  destruct (Ascii.eqb c "|") eqn:Ep.
  - apply Ascii.eqb_eq in Ep. subst c. reflexivity.
  - destruct (Ascii.eqb c "010") eqn:En.
    + apply Ascii.eqb_eq in En. subst c. reflexivity.
    + cbn [noCarriageReturn]. now rewrite andb_true_r.
Qed.

Lemma join_noCarriageReturn (sep : string) (parts : list string) :
  noCarriageReturn sep = true ->
  Forall (fun p => noCarriageReturn p = true) parts ->
  noCarriageReturn (Js.join sep parts) = true.
Proof.
  intros Hsep. induction parts as [|p parts IH]; intros Hall; [reflexivity|].
  inversion Hall; subst. destruct parts as [|q parts]; [assumption|].
  rewrite join_cons, !noCarriageReturn_app.
  repeat (apply andb_true_iff; split); auto.
Qed.

(** A text without line feed and without carriage return is one line for
    the reader. *)
Lemma readerLines_one (s : string) :
  singleLine s = true -> noCarriageReturn s = true -> readerLines s = [s].
Proof.
  induction s as [|c s IH]; [reflexivity|].
  cbn [singleLine noCarriageReturn readerLines]. intros Hl Hc.
  apply andb_true_iff in Hl. destruct Hl as [Hl1 Hl2].
  apply andb_true_iff in Hc. destruct Hc as [Hc1 Hc2].
  apply negb_true_iff in Hl1. apply negb_true_iff in Hc1.
  rewrite Hl1, Hc1, (IH Hl2 Hc2). reflexivity.
Qed.

Lemma rowCells_noCarriageReturn (colCount : nat) (row : list Cell) :
  Forall (fun cell => noCarriageReturn (cellText cell) = true) row ->
  Forall (fun c => noCarriageReturn c = true) (rowCells colCount row).
Proof.
  intros Hrow. unfold rowCells. apply Forall_map, Forall_forall.
  intros i _. rewrite escapeMarkdown_keeps_lines_apart.
  destruct (nth_in_or_default i row CUndefined) as [Hin | ->];
    [|reflexivity].
  rewrite Forall_forall in Hrow. now apply Hrow.
Qed.

(** The part of C8 that holds.  The cells of a data row are escaped so that
    the rendered row reads back as a table row with exactly [colCount] cells,
    the [i]-th being the escaped text of the [i]-th value: whatever the
    values contain, pipes and line feeds included, every pipe of a cell
    comes right after a backslash, no cell has a line feed, and dropping
    those backslashes gives the text back with a space for each line
    feed.  When no value of the row has a carriage return, which the
    escaping copies, the rendered row is one line for a reader of
    Markdown. *)
Theorem escaped_row_is_well_formed (colCount : nat) (row : list Cell) :
  0 < colCount ->
  Forall (fun cell => noCarriageReturn (cellText cell) = true) row ->
  let line := tableLine (rowCells colCount row) in
  readerLines line = [line]
  /\ tableCells line = Some (rowCells colCount row)
  /\ List.length (rowCells colCount row) = colCount
  /\ (forall i, i < colCount ->
        nth i (rowCells colCount row) ""
        = escapeMarkdown (cellText (nth i row CUndefined)))
  /\ (forall text, cellSafe (escapeMarkdown text) = true
                   /\ singleLine (escapeMarkdown text) = true
                   /\ noCarriageReturn (escapeMarkdown text)
                      = noCarriageReturn text
                   /\ unescapePipes (escapeMarkdown text)
                      = Js.replaceAll "010" " " text).
Proof.
  intros Hc Hrow line. subst line. split; [|repeat split].
  - apply readerLines_one.
    + apply tableLine_singleLine, rowCells_singleLine.
    + unfold tableLine. rewrite !noCarriageReturn_app.
      rewrite (join_noCarriageReturn " | " _ eq_refl
                 (rowCells_noCarriageReturn colCount row Hrow)).
      reflexivity.
  - apply tableCells_tableLine;
      [now apply rowCells_not_nil | apply rowCells_safe].
  - apply rowCells_length.
  - intros i Hi. unfold rowCells.
    rewrite (nth_indep _ "" (escapeMarkdown (cellText (nth colCount row CUndefined))))
      by (now rewrite length_map, length_seq).
    rewrite (map_nth (fun j => escapeMarkdown (cellText (nth j row CUndefined)))
               (seq 0 colCount) colCount i).
    now rewrite seq_nth.
  - apply escapeMarkdown_safe.
  - apply escapeMarkdown_singleLine.
  - apply escapeMarkdown_keeps_lines_apart.
  - apply unescape_escapeMarkdown.
Qed.

(** C1 (amended).  For a block that has at least one cell and whose rows
    are no more than the engine accepts as the arguments of one call, the
    output without an explicit header is a Markdown table whose header and
    whose rows have exactly as many columns as the widest row of the
    block; a row of the block that is narrower shows the empty string in
    the columns it lacks. *)
Theorem table_as_wide_as_widest_row (data : list (list Cell)) :
  data <> [] ->
  0 < list_max (map (@List.length Cell) data) ->
  (N.of_nat (List.length data) <= spreadLimit)%N ->
  exists output,
    formatAsMarkdownTable data false = inr output
    /\ RendersBlock data output.
Proof.
  intros Hne Hw Hfit. eexists.
  split; [apply (formatAsMarkdownTable_returns data false Hfit)|].
  unfold RendersBlock.
  eexists. split; [apply (output_is_table data Hw)|].
  destruct (MAX_ROWS <? List.length data)%nat; eauto.
Qed.

(** C2 (amended).  For a block of more than 500 rows that has at least
    one cell and whose rows are no more than the engine accepts as the
    arguments of one call, the output without an explicit header shows
    exactly 500 rows and then the notice, which states the number of rows
    of the block; for 501 rows the notice states 501. *)
Theorem truncated_to_500_rows_with_notice (data : list (list Cell)) :
  MAX_ROWS < List.length data ->
  0 < list_max (map (@List.length Cell) data) ->
  (N.of_nat (List.length data) <= spreadLimit)%N ->
  (exists output,
      formatAsMarkdownTable data false = inr output
      /\ RendersTruncated data output)
  /\ (List.length data = 501 ->
      noticeLine (List.length data)
      = "⚠️ 500行を超えるため、先頭500行のみ表示しています（全501行）").
Proof.
  intros Hlen Hw Hfit. split.
  - eexists.
    split; [apply (formatAsMarkdownTable_returns data false Hfit)|].
    unfold RendersTruncated. eexists. split; [|split; [reflexivity|]].
    + rewrite length_map, length_firstn. lia.
    + pose proof (output_is_table data Hw) as Ht.
      apply Nat.ltb_lt in Hlen. now rewrite Hlen in Ht.
  - intros ->. reflexivity.
Qed.

(** C3.  [columnLabel] is the numeral of [index + 1] in bijective base 26
    with the digits A to Z: it is injective, its value is [index + 1], every
    non-empty word over A to Z is the label of some index, and the labels
    of 0, 25, 26, 701 and 702 are A, Z, AA, ZZ and AAA. *)
Theorem columnLabel_bijective_base26 :
  (forall i j : nat, columnLabel i = columnLabel j -> i = j)
  /\ (forall i : nat,
        columnLabel i <> "" /\ allUpper (columnLabel i) = true
        /\ labelValue (columnLabel i) = (Z.of_nat i + 1)%Z)
  /\ (forall s : string,
        s <> "" -> allUpper s = true -> exists i, columnLabel i = s)
  /\ columnLabel 0 = "A"
  /\ columnLabel 25 = "Z"
  /\ columnLabel 26 = "AA"
  /\ columnLabel 701 = "ZZ"
  /\ columnLabel 702 = "AAA".
Proof.
  split; [exact columnLabel_injective|].
  split.
  { intros i. repeat split.
    - apply columnLabel_not_empty.
    - apply columnLabel_upper.
    - apply columnLabel_value. }
  split; [exact columnLabel_surjective|].
  repeat split; vm_compute; reflexivity.
Qed.

End TableTheorems.

(** ** The formatting renderer *)

Section FormattingTheorems.

Import Formatter FormattingSpec.
Context `{JsRuntime}.

Lemma channelHex_hexByte (channel : option Number) :
  channelHex channel = hexByte channel.
Proof.
  unfold channelHex, hexByte, Js.padStart2.
  destruct (match channel with Some x => scaledHex x | None => "0" end)
    as [|a [|b rest]]; reflexivity.
Qed.

Lemma formatColor_hexColor (color : Color) :
  formatColor color = hexColor color.
Proof. unfold formatColor, hexColor. now rewrite !channelHex_hexByte. Qed.

Lemma truthyString_text (text : option string) :
  truthyString text
  = match text with
    | None => None
    | Some t => if String.eqb t "" then None else Some t
    end.
Proof. destruct text as [[|c t]|]; reflexivity. Qed.

Lemma textFormatProps_app (tf : TextFormat) (props : list string) :
  textFormatProps tf props
  = (props ++ flag "bold" (bold tf) ++ flag "italic" (italic tf)
       ++ flag "strikethrough" (strikethrough tf)
       ++ sizeAttribute (fontSize tf)
       ++ colorAttribute (foregroundColorStyle tf))%list.
Proof.
  unfold textFormatProps, sizeAttribute, colorAttribute, flag, truthyNumber,
    truthyBool.
  destruct tf as [b i s fs fg].
  cbn [bold italic strikethrough fontSize foregroundColorStyle].
  destruct b as [[|]|], i as [[|]|], s as [[|]|];
    destruct fs as [n|]; try destruct (numberTruthy n);
    destruct fg as [[[rgb|]]|]; cbn [rgbColor];
    rewrite ?formatColor_hexColor;
    unfold Js.push; cbn [app]; rewrite <- ?app_assoc, ?app_nil_r;
    reflexivity.
Qed.

(** The attributes that the renderer collects are the attributes of the
    format. *)
Lemma cellProps_attributes (fmt : CellFormat) :
  cellProps fmt = attributes fmt.
Proof.
  unfold cellProps, attributes, numberFormatAttribute, alignAttribute.
  rewrite !truthyString_text.
  destruct fmt as [tf bg nf ha]. cbn [textFormat backgroundColor numberFormat
    horizontalAlignment].
  cbv zeta.
  set (text := match tf with
               | Some t =>
                   (flag "bold" (bold t) ++ flag "italic" (italic t)
                      ++ flag "strikethrough" (strikethrough t)
                      ++ sizeAttribute (fontSize t)
                      ++ colorAttribute (foregroundColorStyle t))%list
               | None => []
               end).
  assert (Ht : match tf with
               | Some t => textFormatProps t []
               | None => []
               end = text).
  { unfold text. destruct tf as [t|]; [|reflexivity].
    now rewrite textFormatProps_app. }
  rewrite Ht. clearbody text. clear Ht.
  destruct bg as [c|]; rewrite ?formatColor_hexColor;
    destruct nf as [[t p]|]; cbn [type pattern];
    rewrite ?truthyString_text;
    try (destruct p as [p|]; [destruct (String.eqb p "")|]);
    destruct ha as [a|]; try destruct (String.eqb a "");
    unfold Js.push; cbn [app]; rewrite <- ?app_assoc, ?app_nil_r;
    reflexivity.
Qed.

Lemma pushCell_app (lines : list string) (cell : CellData) :
  pushCell lines cell = (lines ++ listedBullet cell)%list.
Proof.
  unfold pushCell, listedBullet, bullet.
  destruct (effectiveFormat cell) as [fmt|]; [|now rewrite app_nil_r].
  cbv zeta. rewrite cellProps_attributes.
  destruct (attributes fmt) as [|p props]; simpl.
  - now rewrite app_nil_r.
  - reflexivity.
Qed.

Lemma pushCells_app (cells : list CellData) (lines : list string) :
  fold_left pushCell cells lines = (lines ++ flat_map listedBullet cells)%list.
Proof.
  revert lines. induction cells as [|cell cells IH]; intros lines; simpl.
  - now rewrite app_nil_r.
  - now rewrite IH, pushCell_app, <- app_assoc.
Qed.

Lemma pushRows_app (gridData : list RowData) (lines : list string) :
  fold_left pushRow gridData lines
  = (lines ++ bulletsOfListedCells gridData)%list.
Proof.
  unfold bulletsOfListedCells, cellsOf.
  revert lines. induction gridData as [|row gridData IH]; intros lines; simpl.
  - now rewrite app_nil_r.
  - rewrite IH, flat_map_app. unfold pushRow.
    destruct (values row) as [cells|].
    + now rewrite pushCells_app, <- app_assoc.
    + reflexivity.
Qed.

(** C9 (amended).  The formatting renderer emits, under the heading and an
    empty line, one bullet line for each cell that has an effective format
    with at least one attribute, in the order of the cells; the line names
    the formatted value of the cell and, joined by commas, its attributes:
    the flags bold, italic and strikethrough that are set, the font size,
    the colour of the text and the background colour in hexadecimal, the
    number format with its type and pattern, and the alignment.  The other
    cells are left out, and when no cell is listed the section holds the
    line "No formatting data found." instead. *)
Theorem formatting_lists_cells_with_attributes
    (gridData : list RowData) (range : string) :
  formatCellFormatting gridData range
  = formattingSection range (bulletsOfListedCells gridData).
Proof.
  unfold formatCellFormatting, formattingSection.
  rewrite pushRows_app.
  destruct (bulletsOfListedCells gridData) as [|b bullets]; reflexivity.
Qed.

End FormattingTheorems.

(** ** The handlers of delete-sheet and update-formatting *)

Section HandlerLemmas.

Import Client Server HandlerSpec.
Context `{JsRuntime}.
Variable world : World.

Lemma getSheetsClient_available (st : State) :
  ClientAvailable world st ->
  getSheetsClient world st
  = (inr tt, {| clientInstance := true; sent := sent st |}).
Proof.
  unfold getSheetsClient. intros [Hi | Hc].
  - rewrite Hi. destruct st as [i s]. simpl in *. now subst.
  - destruct (clientInstance st) eqn:Hi.
    + destruct st as [i s]. simpl in *. now subst.
    + now rewrite Hc.
Qed.

(** Obtaining the client and resolving a title that some sheet has. *)
Lemma resolve_found (st : State) (spreadsheetId sheetTitle : string)
    (data : Spreadsheet) (sheet : SheetInfo) :
  ClientAvailable world st ->
  MetadataIs world st spreadsheetId data ->
  find (sameTitle sheetTitle) (sheets (spreadsheetInfoOf data)) = Some sheet ->
  (_ <- getSheetsClient world ;; resolveSheetId world spreadsheetId sheetTitle)
    st
  = (inr (infoSheetId sheet), afterMetadata st spreadsheetId).
Proof.
  intros Hc Hm Hf. unfold bind at 1. rewrite (getSheetsClient_available st Hc).
  unfold resolveSheetId, bind, getSpreadsheetInfo, apiCall, call.
  cbn [sent clientInstance]. unfold MetadataIs in Hm. rewrite Hm, Hf.
  reflexivity.
Qed.


Lemma bind_assoc {A B C : Type} (c : M A) (k : A -> M B) (k' : B -> M C)
    (st : State) :
  (x <- c ;; y <- k x ;; k' y) st = (y <- (x <- c ;; k x) ;; k' y) st.
Proof.
  unfold bind. destruct (c st) as [[e|a] st']; [reflexivity|].
  destruct (k a st') as [[e|b] st'']; reflexivity.
Qed.


(** *** The format that update-formatting builds *)

Lemma buildCellFormat_closed (format : FormatParams) :
  buildCellFormat format
  = (expectedCellFormat format, expectedFieldParts format).
Proof.
  destruct format as [b i s fs ff fg bg ha nf].
  destruct b, i, s, fs, ff, fg, bg, ha, nf; reflexivity.
Qed.

Lemma maskName_injective (a b : Attribute) : maskName a = maskName b -> a = b.
Proof. destruct a, b; simpl; intros E; try reflexivity; discriminate. Qed.

Lemma fieldParts_exact (format : FormatParams) (a : Attribute) :
  In (maskName a) (snd (buildCellFormat format)) <-> provided format a = true.
Proof.
  rewrite buildCellFormat_closed. cbn [snd]. unfold expectedFieldParts.
  rewrite in_flat_map. split.
  - intros (b & _ & Hin). destruct (provided format b) eqn:Hp.
    + destruct Hin as [E | []]. apply maskName_injective in E. now subst.
    + contradiction.
  - intros Hp. exists a. split.
    + destruct a; simpl; tauto.
    + rewrite Hp. now left.
Qed.

Lemma fieldParts_names (format : FormatParams) (name : string) :
  In name (snd (buildCellFormat format)) ->
  exists a, name = maskName a /\ provided format a = true.
Proof.
  rewrite buildCellFormat_closed. cbn [snd]. unfold expectedFieldParts.
  rewrite in_flat_map. intros (a & _ & Hin).
  destruct (provided format a) eqn:Hp; [|contradiction].
  destruct Hin as [E | []]. eauto.
Qed.

Lemma fieldParts_NoDup (format : FormatParams) :
  NoDup (snd (buildCellFormat format)).
Proof.
  rewrite buildCellFormat_closed. cbn [snd].
  destruct format as [b i s fs ff fg bg ha nf].
  destruct b, i, s, fs, ff, fg, bg, ha, nf;
    cbv [expectedFieldParts allAttributes flat_map provided isDefined
         Server.bold Server.italic Server.strikethrough Server.fontSize
         Server.fontFamily Server.foregroundColor Server.backgroundColor
         Server.horizontalAlignment Server.numberFormat app maskName];
    repeat (constructor; [simpl; intuition discriminate|]); constructor.
Qed.

Lemma cellFormat_carries (format : FormatParams) (a : Attribute) :
  carried (fst (buildCellFormat format)) a = provided format a.
Proof.
  rewrite buildCellFormat_closed. cbn [fst].
  destruct format as [b i s fs ff fg bg ha nf].
  destruct a; destruct b, i, s, fs, ff, fg; reflexivity.
Qed.

Lemma cellFormat_values (format : FormatParams) :
  SameValues format (fst (buildCellFormat format)).
Proof.
  rewrite buildCellFormat_closed. cbn [fst].
  destruct format as [b i s fs ff fg bg ha nf].
  destruct b, i, s, fs, ff, fg; repeat split.
Qed.

Lemma fieldParts_empty (format : FormatParams) :
  (forall a, provided format a = false) ->
  buildCellFormat format = (emptyCellFormat, []).
Proof.
  intros Hno. destruct format as [b i s fs ff fg bg ha nf].
  pose proof (Hno Bold). pose proof (Hno Italic).
  pose proof (Hno Strikethrough). pose proof (Hno FontSize).
  pose proof (Hno FontFamily). pose proof (Hno ForegroundColor).
  pose proof (Hno BackgroundColor). pose proof (Hno HorizontalAlignment).
  pose proof (Hno NumberFormatAttribute).
  destruct b, i, s, fs, ff, fg, bg, ha, nf; simpl in *;
    try discriminate; reflexivity.
Qed.

End HandlerLemmas.

Section HandlerTheorems.

Import Client Server HandlerSpec.
Context `{JsRuntime}.
Variable world : World.

Lemma callsMade_app (st : State) (i : bool) (calls : list Request) :
  callsMade st {| clientInstance := i; sent := (sent st ++ calls)%list |}
  = calls.
Proof.
  unfold callsMade. cbn [sent]. rewrite skipn_app, skipn_all, Nat.sub_diag.
  reflexivity.
Qed.

Lemma callsMade_sent (st st' : State) (calls : list Request) :
  sent st' = (sent st ++ calls)%list -> callsMade st st' = calls.
Proof.
  intros E. destruct st' as [i s]. cbn [sent] in E. subst s.
  apply callsMade_app.
Qed.

Lemma callsMade_same (st : State) : callsMade st st = [].
Proof. unfold callsMade. apply skipn_all. Qed.

Lemma callsMade_one (st : State) (i : bool) (a : Request) :
  callsMade st {| clientInstance := i; sent := Js.push (sent st) a |} = [a].
Proof. apply callsMade_app. Qed.

Lemma callsMade_two (st : State) (i : bool) (a b : Request) :
  callsMade st
    {| clientInstance := i; sent := Js.push (Js.push (sent st) a) b |}
  = [a; b].
Proof.
  unfold Js.push. rewrite <- app_assoc. apply callsMade_app.
Qed.

Lemma callsMade_three (st : State) (i : bool) (a b c : Request) :
  callsMade st
    {| clientInstance := i;
       sent := Js.push (Js.push (Js.push (sent st) a) b) c |}
  = [a; b; c].
Proof.
  unfold Js.push. rewrite <- !app_assoc. apply callsMade_app.
Qed.

(** A [try] block that starts by obtaining the client. *)
Lemma tryCatch_client {A : Type} (k : M A) (handler : Thrown -> M A)
    (st : State) :
  tryCatch (_ <- getSheetsClient world ;; k) handler st
  = if clientInstance st then tryCatch k handler st
    else match loadCredentials world with
         | Some e => handler e st
         | None =>
             tryCatch k handler {| clientInstance := true; sent := sent st |}
         end.
Proof.
  unfold tryCatch, bind, getSheetsClient.
  destruct (clientInstance st); [reflexivity|].
  destruct (loadCredentials world); reflexivity.
Qed.

(** The run of delete-sheet once the title is resolved, by the answers to
    the read of the data and to the deletion. *)
Lemma deleteSheetHandler_resolved (st : State) (params : DeleteSheetParams)
    (data : Spreadsheet) (sheet : SheetInfo) :
  ClientAvailable world st ->
  MetadataIs world st (deleteSpreadsheetId params) data ->
  find (sameTitle (deleteSheetTitle params)) (sheets (spreadsheetInfoOf data))
  = Some sheet ->
  let id := deleteSpreadsheetId params in
  let st1 := afterMetadata st id in
  let read :=
    values_get world (sent st1) id (deleteSheetTitle params ++ "!A:ZZ")
      "FORMATTED_VALUE" in
  let asked := Js.push (sent st1) (snapshotRead id (deleteSheetTitle params)) in
  let backupData :=
    match read with
    | inr values =>
        let rows := match values with Some v => v | None => [] end in
        if (0 <? List.length rows)%nat
        then match Formatter.formatAsMarkdownTable rows false with
             | inr table =>
                 Js.nl ++ Js.nl ++ "## Deleted Sheet Data (backup)" ++ Js.nl
                   ++ Js.nl ++ table
             | inl _ => ""
             end
        else ""
    | inl _ => ""
    end in
  deleteSheetHandler world params st
  = (match batchUpdate world asked id [DeleteSheet (infoSheetId sheet)] with
     | inr _ =>
         inr (createTextResponse
                ("Sheet " ++ Js.quote ++ deleteSheetTitle params ++ Js.quote
                   ++ " (ID: " ++ numberToString (infoSheetId sheet)
                   ++ ") deleted successfully." ++ backupData))
     | inl failure =>
         inr (createErrorResponse
                ("Failed to delete sheet: "
                   ++ handleApiError failure
                        ("Failed to delete sheet "
                           ++ numberToString (infoSheetId sheet))))
     end,
     {| clientInstance := true;
        sent := Js.push asked (deletion id (infoSheetId sheet)) |}).
Proof.
  intros Hc Hm Hf id st1 read asked backupData.
  unfold deleteSheetHandler, tryCatch. rewrite bind_assoc.
  unfold bind at 1. rewrite (resolve_found world st _ _ data sheet Hc Hm Hf).
  fold id st1.
  unfold bind at 1.
  assert (Hread :
    readBackup world params st1
    = (inr backupData, {| clientInstance := true; sent := asked |})).
  { unfold readBackup, tryCatch, bind, getValues, apiCall, call, ret,
      rendered.
    fold id. unfold backupData, read.
    destruct (values_get world (sent st1) id
                (deleteSheetTitle params ++ "!A:ZZ") "FORMATTED_VALUE")
      as [failure | values]; [reflexivity|].
    cbv zeta.
    destruct (0 <? List.length match values with Some v => v | None => [] end)%nat;
      [|reflexivity].
    destruct (Formatter.formatAsMarkdownTable _ false); reflexivity. }
  rewrite Hread. unfold bind, deleteSheet, apiCall, call, ret.
  cbn [sent clientInstance]. fold id.
  destruct (batchUpdate world asked id [DeleteSheet (infoSheetId sheet)])
    as [failure | []]; reflexivity.
Qed.


(** The part of C7 that holds.  When the client is available and the
    title resolves to a sheet, delete-sheet reads the data of the sheet and
    then sends the deletion whatever the read answers.  When the deletion
    succeeds and the read had failed, the response is the plain
    confirmation, without the section of the deleted data; when the read
    had returned rows, no more of them than the engine accepts as the
    arguments of one call, the response ends with that section, holding
    the table of the rows.  The table is made inside the same [try]: when
    making it throws, the response is the plain confirmation as well. *)
Theorem delete_sheet_snapshot_is_best_effort (st : State)
    (params : DeleteSheetParams) (data : Spreadsheet) (sheet : SheetInfo) :
  ClientAvailable world st ->
  MetadataIs world st (deleteSpreadsheetId params) data ->
  find (sameTitle (deleteSheetTitle params)) (sheets (spreadsheetInfoOf data))
  = Some sheet ->
  let id := deleteSpreadsheetId params in
  let st1 := afterMetadata st id in
  let read :=
    values_get world (sent st1) id (deleteSheetTitle params ++ "!A:ZZ")
      "FORMATTED_VALUE" in
  let asked := Js.push (sent st1) (snapshotRead id (deleteSheetTitle params)) in
  let confirmation :=
    "Sheet " ++ Js.quote ++ deleteSheetTitle params ++ Js.quote ++ " (ID: "
      ++ numberToString (infoSheetId sheet) ++ ") deleted successfully." in
  let run := deleteSheetHandler world params st in
  callsMade st (snd run)
  = [metadataRead id; snapshotRead id (deleteSheetTitle params);
     deletion id (infoSheetId sheet)]
  /\ (batchUpdate world asked id [DeleteSheet (infoSheetId sheet)] = inr tt ->
      (forall failure,
          read = inl failure ->
          fst run = inr (createTextResponse confirmation))
      /\ (forall values,
             read = inr (Some values) ->
             values <> [] ->
             (N.of_nat (List.length values) <= spreadLimit)%N ->
             exists table,
               Formatter.formatAsMarkdownTable values false = inr table
               /\ fst run
                  = inr (createTextResponse
                           (confirmation ++ Js.nl ++ Js.nl
                              ++ "## Deleted Sheet Data (backup)" ++ Js.nl
                              ++ Js.nl ++ table)))
      /\ (forall values thrown,
             read = inr (Some values) ->
             Formatter.formatAsMarkdownTable values false = inl thrown ->
             fst run = inr (createTextResponse confirmation))).
Proof.
  intros Hc Hm Hf id st1 read asked confirmation run.
  unfold run. rewrite (deleteSheetHandler_resolved st params data sheet Hc Hm Hf).
  cbn [fst snd]. fold id st1 asked read. split.
  - unfold asked, st1, afterMetadata. cbn [sent]. apply callsMade_three.
  - intros Hdel. rewrite Hdel. split; [|split].
    + intros failure Hread. rewrite Hread.
      unfold confirmation. now rewrite append_empty_r.
    + intros values Hread Hne Hfit. rewrite Hread. cbv zeta.
      assert (Hpos : (0 <? List.length values)%nat = true).
      { apply Nat.ltb_lt. destruct values; [congruence | simpl; lia]. }
      rewrite Hpos.
      rewrite (formatAsMarkdownTable_returns values false Hfit).
      eexists. split; [reflexivity|].
      unfold confirmation. now rewrite !append_assoc.
    + intros values thrown Hread Hthrown. rewrite Hread. cbv zeta.
      rewrite Hthrown. unfold confirmation.
      destruct (0 <? List.length values)%nat; now rewrite append_empty_r.
Qed.

Lemma updateFormattingHandler_shape (params : UpdateFormattingParams) :
  updateFormattingHandler world params
  = tryCatch
      (_ <- getSheetsClient world ;;
       sheetId <- resolveSheetId world (spreadsheetId params)
                    (sheetTitle params) ;;
       applyFormatting world params sheetId)
      onUpdateError.
Proof. reflexivity. Qed.

(** The run of update-formatting once the title is resolved. *)
Lemma updateFormattingHandler_resolved (st : State)
    (params : UpdateFormattingParams) (data : Spreadsheet) (sheet : SheetInfo) :
  ClientAvailable world st ->
  MetadataIs world st (spreadsheetId params) data ->
  find (sameTitle (sheetTitle params)) (sheets (spreadsheetInfoOf data))
  = Some sheet ->
  updateFormattingHandler world params st
  = tryCatch (applyFormatting world params (infoSheetId sheet)) onUpdateError
      (afterMetadata st (spreadsheetId params)).
Proof.
  intros Hc Hm Hf. unfold updateFormattingHandler, tryCatch.
  rewrite bind_assoc. unfold bind at 1.
  rewrite (resolve_found world st _ _ data sheet Hc Hm Hf). reflexivity.
Qed.

Lemma updateFormattingHandler_calls (st : State)
    (params : UpdateFormattingParams) (data : Spreadsheet) (sheet : SheetInfo) :
  ClientAvailable world st ->
  MetadataIs world st (spreadsheetId params) data ->
  find (sameTitle (sheetTitle params)) (sheets (spreadsheetInfoOf data))
  = Some sheet ->
  snd (buildCellFormat (format params)) <> [] ->
  callsMade st (snd (updateFormattingHandler world params st))
  = [metadataRead (spreadsheetId params);
     formattingRequest params (infoSheetId sheet)
       (fst (buildCellFormat (format params)))
       (snd (buildCellFormat (format params)))].
Proof.
  intros Hc Hm Hf Hparts.
  rewrite (updateFormattingHandler_resolved st params data sheet Hc Hm Hf).
  unfold tryCatch, applyFormatting.
  destruct (buildCellFormat (format params)) as [cellFormat fieldParts].
  cbn [fst snd] in *.
  destruct fieldParts as [|part parts]; [congruence|].
  cbn [List.length Nat.eqb].
  unfold bind, updateFormatting, apiCall, call, ret, afterMetadata.
  cbn [sent clientInstance].
  match goal with
  | |- context [batchUpdate world ?h ?i ?r] =>
      destruct (batchUpdate world h i r) as [failure | []]
  end; cbn [snd]; apply callsMade_two.
Qed.

(** C4.  When the client is available and the title resolves to a sheet,
    an update-formatting call that provides at least one attribute sends,
    after the read of the metadata, one request whose field mask is
    [userEnteredFormat(...)] around the names of exactly the attributes
    that the format object provides, each once, and whose format carries
    exactly those attributes with the values given.  For a format object
    that supplies [bold: true] alone, the mask is
    [userEnteredFormat(textFormat.bold)] and the format sent has
    [textFormat.bold] and nothing else. *)
Theorem update_formatting_mask_is_exact (st : State)
    (params : UpdateFormattingParams) (data : Spreadsheet) (sheet : SheetInfo) :
  ClientAvailable world st ->
  MetadataIs world st (spreadsheetId params) data ->
  find (sameTitle (sheetTitle params)) (sheets (spreadsheetInfoOf data))
  = Some sheet ->
  let built := buildCellFormat (format params) in
  let calls := callsMade st (snd (updateFormattingHandler world params st)) in
  ((exists a, provided (format params) a = true) ->
   calls = [metadataRead (spreadsheetId params);
            formattingRequest params (infoSheetId sheet)
              (fst built) (snd built)])
  /\ (forall a, In (maskName a) (snd built)
                <-> provided (format params) a = true)
  /\ (forall name, In name (snd built) ->
                   exists a, name = maskName a
                             /\ provided (format params) a = true)
  /\ NoDup (snd built)
  /\ (forall a, carried (fst built) a = provided (format params) a)
  /\ SameValues (format params) (fst built)
  /\ (format params = onlyBold true ->
      calls
      = [metadataRead (spreadsheetId params);
         BatchUpdate (spreadsheetId params)
           [RepeatCell
              {| Client.sheetId := infoSheetId sheet;
                 Client.startRowIndex := startRowIndex params;
                 Client.endRowIndex := endRowIndex params;
                 Client.startColumnIndex := startColumnIndex params;
                 Client.endColumnIndex := endColumnIndex params |}
              {| textFormat :=
                   Some {| Client.bold := Some true;
                           Client.italic := None;
                           Client.strikethrough := None;
                           Client.fontSize := None;
                           Client.fontFamily := None;
                           Client.foregroundColor := None |};
                 Client.backgroundColor := None;
                 Client.horizontalAlignment := None;
                 Client.numberFormat := None |}
              "userEnteredFormat(textFormat.bold)"]]).
Proof.
  intros Hc Hm Hf built calls.
  assert (Hcalls : snd built <> [] ->
            calls = [metadataRead (spreadsheetId params);
                     formattingRequest params (infoSheetId sheet)
                       (fst built) (snd built)]).
  { intros Hparts.
    apply (updateFormattingHandler_calls st params data sheet Hc Hm Hf Hparts). }
  split.
  { intros [a Ha]. apply Hcalls. intros E.
    apply (fieldParts_exact (format params) a) in Ha.
    fold built in Ha. rewrite E in Ha. contradiction. }
  split; [apply fieldParts_exact|].
  split; [apply fieldParts_names|].
  split; [apply fieldParts_NoDup|].
  split; [apply cellFormat_carries|].
  split; [apply cellFormat_values|].
  intros Hbold. rewrite Hcalls.
  - unfold built. rewrite Hbold. reflexivity.
  - unfold built. rewrite Hbold. discriminate.
Qed.

(** C10 (amended).  An update-formatting call whose format object has no
    defined attribute returns an error envelope and sends no update: the
    only call it can make is the read of the metadata that resolves the
    sheet title.  When the client is available and the title resolves, it
    makes that read, and the envelope states that no formatting properties
    were specified. *)
Theorem update_formatting_without_attributes (st : State)
    (params : UpdateFormattingParams) :
  (forall a, provided (format params) a = false) ->
  let run := updateFormattingHandler world params st in
  (exists message, fst run = inr (createErrorResponse message))
  /\ (callsMade st (snd run) = []
      \/ callsMade st (snd run) = [metadataRead (spreadsheetId params)])
  /\ Forall (fun request => isUpdate request = false) (callsMade st (snd run))
  /\ (forall data sheet,
         ClientAvailable world st ->
         MetadataIs world st (spreadsheetId params) data ->
         find (sameTitle (sheetTitle params))
              (sheets (spreadsheetInfoOf data)) = Some sheet ->
         run = (inr (createErrorResponse
                       "No formatting properties specified."),
                afterMetadata st (spreadsheetId params))).
Proof.
  intros Hno run.
  assert (Hcases :
    (exists message, fst run = inr (createErrorResponse message))
    /\ (callsMade st (snd run) = []
        \/ callsMade st (snd run) = [metadataRead (spreadsheetId params)])).
  { unfold run. rewrite updateFormattingHandler_shape, tryCatch_client.
    assert (Hresolved :
      forall st',
        sent st' = sent st ->
        let after :=
          tryCatch
            (sheetId <- resolveSheetId world (spreadsheetId params)
                          (sheetTitle params) ;;
             applyFormatting world params sheetId)
            onUpdateError st' in
        (exists message, fst after = inr (createErrorResponse message))
        /\ callsMade st (snd after) = [metadataRead (spreadsheetId params)]).
    { intros st' Hsent after. unfold after.
      unfold tryCatch, bind, resolveSheetId, bind, getSpreadsheetInfo,
        apiCall, call.
      destruct (spreadsheets_get world (sent st') (spreadsheetId params)
                  infoFields) as [failure | data].
      - cbn. split; [eauto|]. apply callsMade_sent. cbn. now rewrite Hsent.
      - destruct (find (sameTitle (sheetTitle params))
                    (sheets (spreadsheetInfoOf data))) as [sheet|].
        + unfold ret at 1. unfold applyFormatting.
          rewrite (fieldParts_empty _ Hno). cbn.
          split; [eauto|]. apply callsMade_sent. cbn. now rewrite Hsent.
        + cbn. split; [eauto|]. apply callsMade_sent. cbn.
          now rewrite Hsent. }
    destruct (clientInstance st).
    - destruct (Hresolved st eq_refl) as [Hmsg Hcalls]. split; [exact Hmsg|].
      right. exact Hcalls.
    - destruct (loadCredentials world) as [e|].
      + cbn. split; [eauto|]. left. apply callsMade_same.
      + destruct (Hresolved {| clientInstance := true; sent := sent st |}
                    eq_refl) as [Hmsg Hcalls].
        split; [exact Hmsg|]. right. exact Hcalls. }
  destruct Hcases as [Herr Hcalls].
  split; [exact Herr|]. split; [exact Hcalls|]. split.
  - destruct Hcalls as [-> | ->]; repeat constructor.
  - intros data sheet Hc Hm Hf. unfold run.
    rewrite (updateFormattingHandler_resolved st params data sheet Hc Hm Hf).
    unfold tryCatch, applyFormatting.
    rewrite (fieldParts_empty _ Hno). reflexivity.
Qed.

End HandlerTheorems.

(** ** The dispatcher *)

Section DispatcherTheorems.

Import Client Zod Server DispatchSpec Text.
Context `{JsRuntime}.

(** The issues of an object are those of its declared fields, in order. *)
Lemma issuesOf_object (shape : list (string * Schema))
    (path : list PathSegment) (fields : list (string * Value)) :
  issuesOf (ZObject shape) path (VObject fields)
  = flat_map (fun member =>
                issuesOf (snd member) (Js.push path (Key (fst member)))
                  (prop fields (fst member)))
             shape.
Proof.
  cbn [issuesOf]. induction shape as [|[key member] shape IH]; [reflexivity|].
  cbn [flat_map fst snd]. now rewrite <- IH.
Qed.

(** A plain schema refuses [undefined] with one issue, at the path of the
    value. *)
Lemma plain_refuses_undefined (member : Schema) (path : list PathSegment) :
  plain member = true ->
  exists issue,
    issuesOf member path VUndefined = [issue] /\ issuePath issue = path.
Proof.
  destruct member; cbn; intros Hp; try discriminate; eauto.
Qed.

(** The declared fields of every tool: a required field has a plain
    schema, and no name needs an escape in JSON. *)
Lemma declared_fields (tool : ToolName) :
  exists shape,
    schemas tool = ZObject shape
    /\ forallb (fun member =>
                  (negb (required (snd member)) || plain (snd member))
                  && String.eqb (jsonEscape (fst member)) (fst member))
               shape = true.
Proof. destruct tool; eexists; split; reflexivity. Qed.

Lemma parse_issues (schema : Schema) (args : Value) (issues : list Issue) :
  parse schema args = inl issues -> issues = issuesOf schema [] args.
Proof.
  unfold parse. destruct (issuesOf schema [] args); [discriminate|].
  now intros [= <-].
Qed.

(** The rendering of an issue shows its path. *)
Lemma stringifyIssue_path (issue : Issue) :
  includes (stringifyIssue issue)
    (jsonField "path" (stringifyPath (issuePath issue))) = true.
Proof.
  destruct issue; cbn [stringifyIssue issuePath]; unfold jsonObject;
    apply includes_app_r, includes_app_l, includes_join; simpl; tauto.
Qed.

Lemma stringifyIssues_path (issues : list Issue) (issue : Issue) :
  In issue issues ->
  includes (stringifyIssues issues)
    (jsonField "path" (stringifyPath (issuePath issue))) = true.
Proof.
  intros Hin. apply includes_trans with (b := stringifyIssue issue).
  - unfold stringifyIssues, jsonArray.
    apply includes_app_r, includes_app_l, includes_join, in_map, Hin.
  - apply stringifyIssue_path.
Qed.

Lemma path_names_key (key : string) :
  jsonEscape key = key ->
  includes (jsonField "path" (stringifyPath [Key key]))
    (Js.quote ++ key ++ Js.quote) = true.
Proof.
  intros E. unfold jsonField, stringifyPath, jsonArray.
  cbn [map Js.join stringifySegment]. unfold jsonString at 2. rewrite E.
  apply includes_app_r, includes_app_r, includes_app_r, includes_app_l,
    includes_refl.
Qed.

(** The rendering of a path shows each of its keys between quotes. *)
Lemma path_names_keys (path : list PathSegment) (key : string) :
  In key (keysOf path) ->
  jsonEscape key = key ->
  includes (jsonField "path" (stringifyPath path))
    (Js.quote ++ key ++ Js.quote) = true.
Proof.
  intros Hin E. unfold jsonField, stringifyPath, jsonArray.
  do 3 apply includes_app_r. apply includes_app_l.
  apply includes_trans with (b := stringifySegment (Key key)).
  - apply includes_join, in_map. unfold keysOf in Hin.
    apply in_flat_map in Hin. destruct Hin as ([k|i] & Hseg & Hk).
    + destruct Hk as [<- | []]. exact Hseg.
    + destruct Hk.
  - cbn [stringifySegment]. unfold jsonString. rewrite E.
    apply includes_refl.
Qed.

Lemma wellDeclared_member (shape : list (string * Schema)) (key : string)
    (member : Schema) :
  wellDeclared (ZObject shape) = true ->
  In (key, member) shape ->
  (negb (required member) || plain member) = true
  /\ jsonEscape key = key
  /\ wellDeclared member = true.
Proof.
  cbn [wellDeclared]. induction shape as [|[k m] shape IH]; [contradiction|].
  intros Hw Hin. apply andb_true_iff in Hw. destruct Hw as [Hw Hrest].
  apply andb_true_iff in Hw. destruct Hw as [Hw Hm].
  apply andb_true_iff in Hw. destruct Hw as [Hp Hk].
  destruct Hin as [E | Hin].
  - injection E as -> ->. apply String.eqb_eq in Hk. auto.
  - now apply IH.
Qed.

Lemma tools_wellDeclared (tool : ToolName) :
  wellDeclared (schemas tool) = true.
Proof. destruct tool; reflexivity. Qed.

(** The issues of an array hold those of each of its elements. *)
Lemma issuesOf_element (element : Schema) (path : list PathSegment)
    (items : list Value) (i : nat) (item : Value) (issue : Issue) :
  nth_error items i = Some item ->
  In issue (issuesOf element (Js.push path (Index i)) item) ->
  In issue (issuesOf (ZArray element) path (VArray items)).
Proof.
  cbn [issuesOf].
  replace i with (0 + i) at 2 by reflexivity. generalize 0 as start.
  revert i. induction items as [|x items IH]; intros i start Hnth Hin.
  - destruct i; discriminate.
  - apply in_or_app. destruct i as [|i].
    + injection Hnth as ->. left. now rewrite Nat.add_0_r in Hin.
    + right. apply (IH i (S start) Hnth).
      now replace (S start + i) with (start + S i) by lia.
Qed.

Lemma missing_defined (schema : Schema) (value : Value)
    (path : list PathSegment) :
  Missing schema value path -> isUndefined value = false.
Proof. induction 1; auto. Qed.

(** A value that lacks a required field has an issue at the path of the
    field, whose keys are written in JSON as they are. *)
Lemma missing_has_issue (schema : Schema) (value : Value)
    (path : list PathSegment) :
  Missing schema value path ->
  wellDeclared schema = true ->
  forall prefix,
    (exists issue,
        In issue (issuesOf schema prefix value)
        /\ issuePath issue = (prefix ++ path)%list)
    /\ Forall (fun key => jsonEscape key = key) (keysOf path).
Proof.
  induction 1 as [shape fields key member Hin Hreq Hprop
                 |shape fields key member path Hin Hmiss IH
                 |element items i item path Hnth Hmiss IH
                 |inner value path Hmiss IH];
    intros Hw prefix.
  - destruct (wellDeclared_member shape key member Hw Hin)
      as (Hplain & Hkey & _).
    rewrite Hreq in Hplain. cbn [negb orb] in Hplain.
    destruct (plain_refuses_undefined member (Js.push prefix (Key key))
                Hplain) as (issue & Hissue & Hpath).
    split; [|repeat constructor; exact Hkey].
    exists issue. split; [|exact Hpath].
    rewrite issuesOf_object. apply in_flat_map. exists (key, member).
    split; [exact Hin|]. cbn [fst snd]. rewrite Hprop, Hissue. now left.
  - destruct (wellDeclared_member shape key member Hw Hin)
      as (_ & Hkey & Hmember).
    destruct (IH Hmember (Js.push prefix (Key key)))
      as ((issue & Hissue & Hpath) & Hkeys).
    split; [|constructor; assumption].
    exists issue. split.
    + rewrite issuesOf_object. apply in_flat_map. exists (key, member).
      split; [exact Hin | exact Hissue].
    + rewrite Hpath. unfold Js.push. now rewrite <- app_assoc.
  - cbn [wellDeclared] in Hw.
    destruct (IH Hw (Js.push prefix (Index i)))
      as ((issue & Hissue & Hpath) & Hkeys).
    split; [|exact Hkeys].
    exists issue. split.
    + now apply (issuesOf_element element prefix items i item).
    + rewrite Hpath. unfold Js.push. now rewrite <- app_assoc.
  - cbn [wellDeclared] in Hw.
    destruct (IH Hw prefix) as ((issue & Hissue & Hpath) & Hkeys).
    split; [|exact Hkeys].
    exists issue. split; [|exact Hpath].
    cbn [issuesOf]. now rewrite (missing_defined _ _ _ Hmiss).
Qed.

Section Calls.
Variable handlers : ToolName -> Value -> M CallToolResult.

(** C5 (amended).  The dispatcher never throws: every call returns an
    envelope.  A name that is no property of the table of handlers gives
    the error envelope "Unknown tool".  Arguments that lack a field that
    the schema of the tool requires, in the argument object itself, in one
    of its members or in an element of one of its arrays, are refused: the
    handler is not run, the result is an error envelope, and its message
    has an issue at the path of the field and names every key on that
    path.  Whenever the schema refuses the arguments, the message renders
    every issue with its path; an error envelope has [isError] set, which
    no success envelope has.  Arguments that are not an object are refused
    with a single issue, at the root path. *)
Theorem invalid_call_yields_error_envelope (name : string) (args : Value)
    (st : State) :
  let run := callTool handlers name args st in
  (exists result, fst run = inr result)
  /\ (forall message text,
         isErrorEnvelope (createErrorResponse message) = true
         /\ isErrorEnvelope (createTextResponse text) = false)
  /\ (lookup name = Absent ->
      run = (inr (createErrorResponse ("Unknown tool: " ++ name)), st))
  /\ (lookup name = Inherited ->
      exists message, run = (inr (createErrorResponse message), st))
  /\ (forall tool issues,
         lookup name = Own tool ->
         parse (schemas tool) args = inl issues ->
         let message :=
           "Invalid arguments for " ++ name ++ ": " ++ stringifyIssues issues in
         run = (inr (createErrorResponse message), st)
         /\ (forall issue,
                In issue issues ->
                includes message
                  (jsonField "path" (stringifyPath (issuePath issue))) = true)
         /\ (forall fields key member,
                args = VObject fields ->
                In (key, member) (fieldsOf (schemas tool)) ->
                required member = true ->
                prop fields key = VUndefined ->
                (exists issue,
                    In issue issues /\ issuePath issue = [Key key])
                /\ namesField message key = true))
  /\ (forall tool,
         lookup name = Own tool ->
         (forall fields, args <> VObject fields) ->
         parse (schemas tool) args
         = inl [InvalidType "object" (parsedType args) []])
  /\ (forall tool path,
         lookup name = Own tool ->
         Missing (schemas tool) args path ->
         exists issues issue,
           let message :=
             "Invalid arguments for " ++ name ++ ": "
               ++ stringifyIssues issues in
           parse (schemas tool) args = inl issues
           /\ run = (inr (createErrorResponse message), st)
           /\ In issue issues
           /\ issuePath issue = path
           /\ (forall key, In key (keysOf path) ->
                           namesField message key = true)).
Proof.
  intros run. unfold run, callTool.
  split.
  { destruct (lookup name) as [tool| |]; cbn; eauto.
    destruct (parse (schemas tool) args) as [issues|validated]; cbn; eauto.
    destruct (handlers tool validated st) as [[e|result] st']; cbn; eauto. }
  split; [intros message text; split; reflexivity|].
  split; [intros ->; reflexivity|].
  split; [intros ->; eexists; reflexivity|].
  split.
  2:{ split.
      - intros tool _ Hnot.
        destruct (declared_fields tool) as (shape & -> & _).
        unfold parse. destruct args; try reflexivity.
        exfalso. now apply (Hnot fields).
      - intros tool path Hlookup Hmiss.
        destruct (missing_has_issue _ _ _ Hmiss (tools_wellDeclared tool) [])
          as ((issue & Hissue & Hpath) & Hkeys).
        cbn [app] in Hpath. rewrite Hlookup. unfold parse.
        destruct (issuesOf (schemas tool) [] args) as [|first more] eqn:Hi;
          [contradiction|].
        exists (first :: more), issue. cbv zeta.
        split; [reflexivity|]. split; [reflexivity|].
        split; [exact Hissue|]. split; [exact Hpath|].
        intros key Hin. unfold namesField.
        apply includes_trans
          with (b := jsonField "path" (stringifyPath (issuePath issue))).
        + do 3 apply includes_app_r. now apply stringifyIssues_path.
        + rewrite Hpath. apply path_names_keys; [exact Hin|].
          rewrite Forall_forall in Hkeys. now apply Hkeys. }
  intros tool issues Hlookup Hparse. rewrite Hlookup, Hparse.
  set (message := "Invalid arguments for " ++ name ++ ": "
                    ++ stringifyIssues issues).
  split; [reflexivity|].
  assert (Hshown : forall issue,
            In issue issues ->
            includes message
              (jsonField "path" (stringifyPath (issuePath issue))) = true).
  { intros issue Hin. unfold message.
    do 3 apply includes_app_r. now apply stringifyIssues_path. }
  split; [exact Hshown|].
  intros fields key member -> Hin Hreq Hmissing.
  destruct (declared_fields tool) as (shape & Hshape & Hall).
  rewrite Hshape in Hin. cbn [fieldsOf] in Hin.
  rewrite forallb_forall in Hall. specialize (Hall _ Hin). cbn [fst snd] in Hall.
  apply andb_true_iff in Hall. destruct Hall as [Hplain Hkey].
  rewrite Hreq in Hplain. cbn in Hplain. apply String.eqb_eq in Hkey.
  destruct (plain_refuses_undefined member [Key key] Hplain)
    as (issue & Hissue & Hpath).
  assert (Hfound : In issue issues).
  { rewrite (parse_issues _ _ _ Hparse), Hshape, issuesOf_object.
    apply in_flat_map. exists (key, member). split; [exact Hin|].
    cbn [fst snd Js.push app]. rewrite Hmissing, Hissue. now left. }
  split; [eauto|].
  unfold namesField.
  apply includes_trans
    with (b := jsonField "path" (stringifyPath (issuePath issue))).
  - now apply Hshown.
  - rewrite Hpath. now apply path_names_key.
Qed.

End Calls.

End DispatcherTheorems.

(** ** The theorems at concrete inputs *)

Section Instances.

Import Formatter Text TableSpec FormattingSpec Client Zod Server HandlerSpec
  DispatchSpec Sample.

#[local] Existing Instance integerRuntime.

(** A block of more rows than the engine accepts is not rendered. *)
Lemma tallBlock_throws (hasHeader : bool) :
  formatAsMarkdownTable tallBlock hasHeader
  = inl "Maximum call stack size exceeded".
Proof.
  apply (formatAsMarkdownTable_throws tallBlock hasHeader).
  unfold tallBlock. rewrite repeat_length.
  change spreadLimit with 125000%N. lia.
Qed.

(** C1 at [sampleBlock]. *)
Lemma table_as_wide_as_widest_row_witness :
  sampleBlock <> []
  /\ 0 < list_max (map (@List.length Cell) sampleBlock)
  /\ (N.of_nat (List.length sampleBlock) <= spreadLimit)%N
  /\ exists output,
       formatAsMarkdownTable sampleBlock false = inr output
       /\ RendersBlock sampleBlock output.
Proof.
  assert (H1 : sampleBlock <> []) by discriminate.
  assert (H2 : 0 < list_max (map (@List.length Cell) sampleBlock))
    by (vm_compute; lia).
  assert (H3 : (N.of_nat (List.length sampleBlock) <= spreadLimit)%N)
    by (vm_compute; discriminate).
  exact (conj H1 (conj H2 (conj H3
           (table_as_wide_as_widest_row sampleBlock H1 H2 H3)))).
Defined.

(** C1 as stated fails at the block of one empty row: the output is
    [(empty)], which is not a table. *)
Lemma empty_row_is_not_a_table :
  formatAsMarkdownTable [[]] false = inr "(empty)"
  /\ ~ RendersBlock [[]] "(empty)".
Proof.
  split; [reflexivity|].
  intros (trailer & (h & s & rows & Hlines & _) & _).
  vm_compute in Hlines. discriminate.
Qed.

(** C2 at a block of 501 rows. *)
Lemma truncated_to_500_rows_with_notice_witness :
  MAX_ROWS < List.length (repeat [CString "x"] 501)
  /\ 0 < list_max (map (@List.length Cell) (repeat [CString "x"] 501))
  /\ (N.of_nat (List.length (repeat [CString "x"] 501)) <= spreadLimit)%N
  /\ (exists output,
         formatAsMarkdownTable (repeat [CString "x"] 501) false = inr output
         /\ RendersTruncated (repeat [CString "x"] 501) output)
  /\ noticeLine (List.length (repeat [CString "x"] 501))
     = "⚠️ 500行を超えるため、先頭500行のみ表示しています（全501行）".
Proof.
  assert (H1 : MAX_ROWS < List.length (repeat [CString "x"] 501))
    by (vm_compute; lia).
  assert (H2 : 0 < list_max (map (@List.length Cell)
                               (repeat [CString "x"] 501)))
    by (vm_compute; lia).
  assert (H3 : (N.of_nat (List.length (repeat [CString "x"] 501))
                <= spreadLimit)%N)
    by (vm_compute; discriminate).
  destruct (truncated_to_500_rows_with_notice _ H1 H2 H3) as [Ht Hn].
  exact (conj H1 (conj H2 (conj H3 (conj Ht (Hn eq_refl))))).
Defined.

(** C2 as stated fails at a block of 501 empty rows: the output is
    [(empty)], without rows and without a notice. *)
Lemma empty_rows_are_not_truncated :
  formatAsMarkdownTable (repeat [] 501) false = inr "(empty)"
  /\ ~ RendersTruncated (repeat [] 501) "(empty)".
Proof.
  split; [reflexivity|].
  intros (rows & _ & _ & (h & s & rowLines & Hlines & _)).
  cbn [lines consHead Ascii.eqb Bool.eqb] in Hlines. discriminate.
Qed.

(** C3 at the label [AB]. *)
Lemma columnLabel_bijective_base26_witness :
  (columnLabel 27 = columnLabel 27 -> 27 = 27)
  /\ "AB" <> ""
  /\ allUpper "AB" = true
  /\ exists i, columnLabel i = "AB".
Proof.
  destruct columnLabel_bijective_base26 as (Hinj & _ & Hsur & _).
  assert (H1 : "AB" <> "") by discriminate.
  assert (H2 : allUpper "AB" = true) by reflexivity.
  exact (conj (Hinj 27 27) (conj H1 (conj H2 (Hsur "AB" H1 H2)))).
Defined.

(** The row [sampleRow], which has a pipe and a line feed and no carriage
    return, is rendered as one well-formed table row. *)
Lemma escaped_row_is_well_formed_witness :
  0 < 3
  /\ Forall (fun cell => noCarriageReturn (cellText cell) = true) sampleRow
  /\ readerLines (tableLine (rowCells 3 sampleRow))
     = [tableLine (rowCells 3 sampleRow)]
  /\ tableCells (tableLine (rowCells 3 sampleRow))
     = Some (rowCells 3 sampleRow)
  /\ List.length (rowCells 3 sampleRow) = 3.
Proof.
  assert (H1 : 0 < 3) by lia.
  assert (H2 : Forall (fun cell => noCarriageReturn (cellText cell) = true)
                 sampleRow) by (repeat constructor).
  destruct (escaped_row_is_well_formed 3 sampleRow H1 H2)
    as (Hone & Hr & Hl & _).
  exact (conj H1 (conj H2 (conj Hone (conj Hr Hl)))).
Defined.

(** C8, at a row whose cell holds a carriage return before its line feed.
    The escaping turns the line feed into a space and copies the carriage
    return, at which a reader of Markdown ends the line: the rendered row
    is read as two lines, neither of them a table row, where the claim has
    one well-formed table row. *)
Lemma carriage_return_splits_row :
  escapeMarkdown (cellText (nth 0 returnRow CUndefined))
  = String "a" (String "013" (String " " (String "b" EmptyString)))
  /\ readerLines (tableLine (rowCells 1 returnRow)) = ["| a"; " b |"]
  /\ tableCells "| a" = None
  /\ tableCells " b |" = None.
Proof. repeat split. Qed.

(** C9 as stated fails at a cell whose effective format has none of the
    attributes that the renderer lists: the cell gets no bullet line. *)
Lemma formatted_cell_without_bullet :
  effectiveFormat plainCell <> None
  /\ formatCellFormatting [{| values := Some [plainCell] |}] "A1"
     = "## Cell Formatting (A1)" ++ Js.nl ++ Js.nl
         ++ "No formatting data found."
  /\ formatCellFormatting [{| values := Some [plainCell] |}] "A1"
     <> formattingSection "A1"
          (bulletsOfFormattedCells [{| values := Some [plainCell] |}]).
Proof.
  split; [discriminate|]. split; [reflexivity|].
  vm_compute. discriminate.
Qed.

Lemma sample_available (w : World) :
  loadCredentials w = None -> ClientAvailable w initialState.
Proof. intros Hc. right. exact Hc. Qed.

(** C4 at a call that sets [bold: true] on the sheet "Data". *)
Lemma update_formatting_mask_is_exact_witness :
  ClientAvailable world initialState
  /\ MetadataIs world initialState "X" spreadsheet
  /\ find (sameTitle "data") (sheets (spreadsheetInfoOf spreadsheet))
     = Some dataSheet
  /\ callsMade initialState
       (snd (updateFormattingHandler world (formatOf (onlyBold true))
               initialState))
     = [metadataRead "X";
        formattingRequest (formatOf (onlyBold true)) 7%Z
          (fst (buildCellFormat (onlyBold true)))
          (snd (buildCellFormat (onlyBold true)))].
Proof.
  assert (H1 : ClientAvailable world initialState)
    by (apply sample_available; reflexivity).
  assert (H2 : MetadataIs world initialState "X" spreadsheet) by reflexivity.
  assert (H3 : find (sameTitle "data") (sheets (spreadsheetInfoOf spreadsheet))
               = Some dataSheet) by reflexivity.
  destruct (update_formatting_mask_is_exact world initialState
              (formatOf (onlyBold true)) spreadsheet dataSheet H1 H2 H3)
    as (Hcalls & _).
  exact (conj H1 (conj H2 (conj H3
           (Hcalls (ex_intro _ Bold eq_refl))))).
Defined.


(** C7 at the deletion of the sheet "Data", when the read of its data
    returns a row and when it is refused. *)
Lemma delete_sheet_snapshot_is_best_effort_witness :
  ClientAvailable world initialState
  /\ MetadataIs world initialState "X" spreadsheet
  /\ find (sameTitle "DATA") (sheets (spreadsheetInfoOf spreadsheet))
     = Some dataSheet
  /\ callsMade initialState
       (snd (deleteSheetHandler world
               {| deleteSpreadsheetId := "X"; deleteSheetTitle := "DATA" |}
               initialState))
     = [metadataRead "X"; snapshotRead "X" "DATA"; deletion "X" 7%Z]
  /\ (exists table,
         formatAsMarkdownTable [[CString "Name"; CString "Age"]] false
         = inr table
         /\ fst (deleteSheetHandler world
                   {| deleteSpreadsheetId := "X"; deleteSheetTitle := "DATA" |}
                   initialState)
            = inr (createTextResponse
                     (("Sheet " ++ Js.quote ++ "DATA" ++ Js.quote
                         ++ " (ID: 7) deleted successfully.")
                        ++ Js.nl ++ Js.nl ++ "## Deleted Sheet Data (backup)"
                        ++ Js.nl ++ Js.nl ++ table)))
  /\ fst (deleteSheetHandler worldWithoutReads
            {| deleteSpreadsheetId := "X"; deleteSheetTitle := "DATA" |}
            initialState)
     = inr (createTextResponse
              ("Sheet " ++ Js.quote ++ "DATA" ++ Js.quote
                 ++ " (ID: 7) deleted successfully.")).
Proof.
  assert (H1 : ClientAvailable world initialState)
    by (apply sample_available; reflexivity).
  assert (H1' : ClientAvailable worldWithoutReads initialState)
    by (apply sample_available; reflexivity).
  assert (H2 : MetadataIs world initialState "X" spreadsheet) by reflexivity.
  assert (H2' : MetadataIs worldWithoutReads initialState "X" spreadsheet)
    by reflexivity.
  assert (H3 : find (sameTitle "DATA") (sheets (spreadsheetInfoOf spreadsheet))
               = Some dataSheet) by reflexivity.
  destruct (delete_sheet_snapshot_is_best_effort world initialState
              {| deleteSpreadsheetId := "X"; deleteSheetTitle := "DATA" |}
              spreadsheet dataSheet H1 H2 H3) as (Hcalls & Hkept).
  destruct (Hkept eq_refl) as (_ & Hshown & _).
  destruct (delete_sheet_snapshot_is_best_effort worldWithoutReads
              initialState
              {| deleteSpreadsheetId := "X"; deleteSheetTitle := "DATA" |}
              spreadsheet dataSheet H1' H2' H3) as (_ & Hdone).
  destruct (Hdone eq_refl) as (Hfailed & _).
  assert (Hfit : (N.of_nat (List.length [[CString "Name"; CString "Age"]])
                  <= spreadLimit)%N) by (vm_compute; discriminate).
  exact (conj H1 (conj H2 (conj H3 (conj Hcalls
           (conj (Hshown [[CString "Name"; CString "Age"]] eq_refl
                    ltac:(discriminate) Hfit)
              (Hfailed (Coded (NumericCode 400) None) eq_refl)))))).
Defined.

(** C7, at a sheet of more rows than the engine accepts as the arguments
    of one call.  The read returns the rows, making their table throws
    inside the [try] of the read, and the sheet is deleted with the plain
    confirmation, without the section of its data, where the claim has the
    snapshot included. *)
Lemma tall_sheet_is_deleted_without_snapshot :
  values_get tallWorld
    (sent (afterMetadata initialState "X")) "X" ("DATA" ++ "!A:ZZ")
    "FORMATTED_VALUE"
  = inr (Some tallBlock)
  /\ List.length tallBlock = N.to_nat 125001
  /\ callsMade initialState
       (snd (deleteSheetHandler tallWorld
               {| deleteSpreadsheetId := "X"; deleteSheetTitle := "DATA" |}
               initialState))
     = [metadataRead "X"; snapshotRead "X" "DATA"; deletion "X" 7%Z]
  /\ fst (deleteSheetHandler tallWorld
            {| deleteSpreadsheetId := "X"; deleteSheetTitle := "DATA" |}
            initialState)
     = inr (createTextResponse
              ("Sheet " ++ Js.quote ++ "DATA" ++ Js.quote
                 ++ " (ID: 7) deleted successfully.")).
Proof.
  assert (H1 : ClientAvailable tallWorld initialState)
    by (apply sample_available; reflexivity).
  assert (H2 : MetadataIs tallWorld initialState "X" spreadsheet)
    by reflexivity.
  assert (H3 : find (sameTitle "DATA") (sheets (spreadsheetInfoOf spreadsheet))
               = Some dataSheet) by reflexivity.
  split; [reflexivity|].
  split; [unfold tallBlock; apply repeat_length|].
  rewrite (deleteSheetHandler_resolved tallWorld initialState
             {| deleteSpreadsheetId := "X"; deleteSheetTitle := "DATA" |}
             spreadsheet dataSheet H1 H2 H3).
  cbn [fst snd deleteSpreadsheetId deleteSheetTitle tallWorld values_get
       batchUpdate].
  rewrite tallBlock_throws. split; [reflexivity|].
  destruct (0 <? List.length tallBlock)%nat; reflexivity.
Qed.

(** C10 (amended) at a call without attributes on the sheet "Data". *)
Lemma update_formatting_without_attributes_witness :
  (forall a, provided noFormat a = false)
  /\ Forall (fun request => isUpdate request = false)
       (callsMade initialState
          (snd (updateFormattingHandler world (formatOf noFormat)
                  initialState))).
Proof.
  assert (H1 : forall a, provided noFormat a = false)
    by (intros a; destruct a; reflexivity).
  destruct (update_formatting_without_attributes world initialState
              (formatOf noFormat) H1) as (_ & _ & Hnone & _).
  exact (conj H1 Hnone).
Defined.

(** C10 as stated fails at that call: the handler reads the metadata of
    the spreadsheet before it looks at the format, so a remote call is
    made. *)
Lemma update_without_attributes_calls_remote :
  fst (updateFormattingHandler world (formatOf noFormat) initialState)
  = inr (createErrorResponse "No formatting properties specified.")
  /\ callsMade initialState
       (snd (updateFormattingHandler world (formatOf noFormat) initialState))
     = [metadataRead "X"]
  /\ callsMade initialState
       (snd (updateFormattingHandler world (formatOf noFormat) initialState))
     <> [].
Proof.
  split; [reflexivity|]. split; [reflexivity|]. vm_compute. discriminate.
Qed.

(** C5 (amended) at a call of read-values without [range], and at a call
    of batch-update-cells whose first range has no [range]. *)
Lemma invalid_call_yields_error_envelope_witness :
  lookup "read-values" = Own read_values
  /\ In ("range", ZString) (fieldsOf (schemas read_values))
  /\ required ZString = true
  /\ prop [("spreadsheetId", VString "X")] "range" = VUndefined
  /\ namesField
       ("Invalid arguments for read-values: "
          ++ stringifyIssues
               (issuesOf (schemas read_values) []
                  (VObject [("spreadsheetId", VString "X")])))
       "range" = true
  /\ lookup "batch-update-cells" = Own batch_update_cells
  /\ Missing (schemas batch_update_cells) batchArguments
       [Key "data"; Index 0; Key "range"]
  /\ exists issues issue,
       parse (schemas batch_update_cells) batchArguments = inl issues
       /\ callTool handlers "batch-update-cells" batchArguments initialState
          = (inr (createErrorResponse
                    ("Invalid arguments for batch-update-cells: "
                       ++ stringifyIssues issues)),
             initialState)
       /\ In issue issues
       /\ issuePath issue = [Key "data"; Index 0; Key "range"].
Proof.
  assert (H1 : lookup "read-values" = Own read_values) by reflexivity.
  assert (H2 : In ("range", ZString) (fieldsOf (schemas read_values)))
    by (simpl; tauto).
  assert (H3 : required ZString = true) by reflexivity.
  assert (H4 : prop [("spreadsheetId", VString "X")] "range" = VUndefined)
    by reflexivity.
  assert (H5 : lookup "batch-update-cells" = Own batch_update_cells)
    by reflexivity.
  assert (H6 : Missing (schemas batch_update_cells) batchArguments
                 [Key "data"; Index 0; Key "range"]).
  { apply MissingInMember
      with (member := ZArray (ZObject [("range", ZString);
                                       ("values",
                                        ZArray (ZArray cellValueSchema))]));
      [simpl; tauto|].
    apply MissingInElement with (item := VObject [("values", VArray [])]);
      [reflexivity|].
    apply MissingHere with (member := ZString);
      [simpl; tauto | reflexivity | reflexivity]. }
  destruct (invalid_call_yields_error_envelope handlers "read-values"
              (VObject [("spreadsheetId", VString "X")]) initialState)
    as (_ & _ & _ & _ & Hinvalid & _).
  destruct (Hinvalid read_values _ H1 eq_refl) as (_ & _ & Hfields).
  destruct (Hfields _ "range" ZString eq_refl H2 H3 H4) as (_ & Hnamed).
  destruct (invalid_call_yields_error_envelope handlers "batch-update-cells"
              batchArguments initialState)
    as (_ & _ & _ & _ & _ & _ & Hmissing).
  destruct (Hmissing batch_update_cells _ H5 H6)
    as (issues & issue & Hparse & Hrun & Hin & Hpath & _).
  refine (conj H1 (conj H2 (conj H3 (conj H4 (conj Hnamed
            (conj H5 (conj H6 _))))))).
  exists issues, issue.
  exact (conj Hparse (conj Hrun (conj Hin Hpath))).
Defined.

(** C5 as stated fails at a call of read-values that carries no arguments:
    both required fields are missing, and the message of the error
    envelope, which reports one issue at the root path, names neither. *)
Lemma omitted_arguments_name_no_field :
  match fst (callTool handlers "read-values" VUndefined initialState) with
  | inr result =>
      isErrorEnvelope result = true
      /\ includes (messageOf result) (jsonField "path" (stringifyPath []))
         = true
      /\ includes (messageOf result) "spreadsheetId" = false
      /\ includes (messageOf result) "range" = false
  | inl _ => False
  end.
Proof. vm_compute. repeat split. Qed.

End Instances.

(* ===================================================================== *)
(** * Properties of the rest of the code                                  *)
(* ===================================================================== *)

(** ** The table renderer, continued *)

Section MoreTables.

Import Formatter Text TableSpec MoreSpec.
Context `{JsRuntime}.

Lemma join_starts (sep first : string) (c : ascii) (rest : list string)
    (tail : string) :
  exists more,
    Js.join sep (String c first :: rest) ++ tail = String c more.
Proof.
  destruct rest as [|x rest].
  - exists (first ++ tail). reflexivity.
  - rewrite join_cons. simpl. eauto.
Qed.

Lemma list_max_zero (l : list nat) :
  list_max l = 0 <-> Forall (fun n => n = 0) l.
Proof.
  split.
  - intros E. assert (Hle : list_max l <= 0) by lia.
    apply list_max_le in Hle. eapply Forall_impl; [|exact Hle].
    simpl. intros n Hn. lia.
  - intros Hall. assert (Hle : list_max l <= 0).
    { apply list_max_le. eapply Forall_impl; [|exact Hall].
      simpl. intros n Hn. lia. }
    lia.
Qed.

Lemma widest_zero (data : list (list Cell)) :
  widest data = 0 <-> Forall (fun row => row = []) data.
Proof.
  unfold widest. rewrite list_max_zero, Forall_map.
  split; intros Hall; eapply Forall_impl; try exact Hall; simpl;
    intros row Hr.
  - now destruct row.
  - now subst.
Qed.

(** The table of a block that has a cell starts with a pipe. *)
Lemma tableOf_starts_with_pipe (data : list (list Cell)) (hasHeader : bool) :
  widest data <> 0 ->
  exists more, tableOf (widest data) data hasHeader = String "|" more.
Proof.
  intros Hw. unfold tableOf.
  destruct (Nat.eqb_spec (widest data) 0) as [E|_]; [congruence|].
  cbv zeta.
  match goal with
  | |- context [let '(h, d) := ?p in _] => destruct p as [headerRow dataRows]
  end.
  unfold tableLine at 1.
  change ("| " ++ ?x) with (String "|" (" " ++ x)).
  match goal with
  | |- context [if ?b then _ else _] => destruct b
  end.
  - apply join_starts.
  - match goal with
    | |- exists more, ?text = _ =>
        rewrite <- (append_empty_r text)
    end.
    apply join_starts.
Qed.

(** X1.  [formatAsMarkdownTable] throws, the [RangeError] of the engine,
    exactly when the block has more rows than the engine accepts as the
    arguments of one call, whatever the rows hold.  Otherwise it returns,
    whether or not the first row is taken as the header: the text
    [(empty)] exactly when the block has no cell, that is no row or empty
    rows alone, and in every other case a text that starts with a pipe. *)
Theorem empty_exactly_without_cells (data : list (list Cell))
    (hasHeader : bool) :
  match formatAsMarkdownTable data hasHeader with
  | inr output =>
      (N.of_nat (List.length data) <= spreadLimit)%N
      /\ (output = "(empty)" <-> Forall (fun row => row = []) data)
      /\ (output <> "(empty)" -> exists more, output = String "|" more)
  | inl thrown =>
      (spreadLimit < N.of_nat (List.length data))%N
      /\ thrown = spreadOverflow
  end.
Proof.
  destruct (N.le_gt_cases (N.of_nat (List.length data)) spreadLimit)
    as [Hfit | Hover].
  - rewrite (formatAsMarkdownTable_returns data hasHeader Hfit).
    split; [exact Hfit|].
    destruct (Nat.eq_dec (widest data) 0) as [Hz | Hnz].
    + assert (E : tableOf (widest data) data hasHeader = "(empty)")
        by (unfold tableOf; now rewrite Hz).
      rewrite E. split.
      * split; intros _; [now apply widest_zero | reflexivity].
      * congruence.
    + destruct (tableOf_starts_with_pipe data hasHeader Hnz) as [more E].
      rewrite E. split.
      * split; [discriminate|]. intros Hall.
        apply widest_zero in Hall. congruence.
      * eauto.
  - rewrite (formatAsMarkdownTable_throws data hasHeader Hover).
    split; [exact Hover | reflexivity].
Qed.

(** X2.  A block of at most 500 rows that has a cell is shown whole: the
    table has one row for each row of the block, in order, and nothing
    follows it. *)
Theorem small_block_is_shown_whole (data : list (list Cell)) :
  0 < list_max (map (@List.length Cell) data) ->
  List.length data <= MAX_ROWS ->
  let width := list_max (map (@List.length Cell) data) in
  exists output,
    formatAsMarkdownTable data false = inr output
    /\ MarkdownTable (labels width) (map (expectedCells width) data) []
         output.
Proof.
  intros Hw Hlen width. eexists.
  split; [apply (formatAsMarkdownTable_returns data false
                   (shown_whole_fits data Hlen))|].
  pose proof (output_is_table data Hw) as Ht.
  rewrite firstn_all2 in Ht by exact Hlen.
  destruct (Nat.ltb_spec MAX_ROWS (List.length data)); [lia | exact Ht].
Qed.

(** *** The first row as the header *)

Lemma padHeader_labels (missing : nat) (headerRow : list string) :
  padHeader missing headerRow
  = (headerRow
       ++ map columnLabel (seq (List.length headerRow) missing))%list.
Proof.
  revert headerRow. induction missing as [|k IH]; intros headerRow.
  - simpl. now rewrite app_nil_r.
  - cbn [padHeader]. rewrite IH. unfold Js.push.
    rewrite <- app_assoc, length_app. cbn [List.length app seq map].
    now rewrite Nat.add_1_r.
Qed.

Lemma firstn_cap (first : list Cell) (rest : list (list Cell)) :
  (if (MAX_ROWS + 1 <? List.length (first :: rest))%nat
   then firstn (MAX_ROWS + 1) (first :: rest) else first :: rest)
  = first :: firstn MAX_ROWS rest.
Proof.
  rewrite Nat.add_1_r, firstn_cons. cbn [List.length].
  destruct (Nat.ltb_spec (S MAX_ROWS) (S (List.length rest))).
  - reflexivity.
  - rewrite firstn_all2 by lia. reflexivity.
Qed.

(** The table for a block that has a cell, its first row the header. *)
Lemma tableOf_header_lines (first : list Cell) (rest : list (list Cell)) :
  0 < widest (first :: rest) ->
  let width := widest (first :: rest) in
  tableOf width (first :: rest) true
  = Js.join Js.nl
      (tableLine (headerOf width first)
       :: tableLine (map (fun _ => "---") (headerOf width first))
       :: map (fun row => tableLine (rowCells width row))
            (firstn MAX_ROWS rest))
    ++ (if (MAX_ROWS <? List.length rest)%nat
        then truncationNotice (List.length rest) else "").
Proof.
  intros Hw width. unfold tableOf.
  destruct (Nat.eqb_spec width 0) as [E|_]; [unfold width in E; lia|].
  cbv beta iota zeta.
  rewrite firstn_cap. cbv beta iota zeta.
  rewrite padHeader_labels, length_map. fold (headerOf width first).
  cbn [List.length].
  rewrite Nat.add_1_r, Nat.sub_succ, Nat.sub_0_r.
  change (S MAX_ROWS <? S (List.length rest))%nat
    with (MAX_ROWS <? List.length rest)%nat.
  destruct (MAX_ROWS <? List.length rest)%nat.
  - reflexivity.
  - now rewrite append_empty_r.
Qed.

Lemma headerOf_length (first : list Cell) (rest : list (list Cell)) :
  List.length (headerOf (widest (first :: rest)) first)
  = widest (first :: rest).
Proof.
  unfold headerOf. rewrite length_app, !length_map, length_seq.
  assert (Hle : List.length first <= widest (first :: rest)).
  { unfold widest. cbn [map list_max fold_right]. lia. }
  lia.
Qed.

(** The lines of a header, a separator and rows, when the header can
    stand between pipes, are a table. *)
Lemma header_lines_are_table (width : nat) (header : list string)
    (rows : list (list Cell)) (total : nat) (noticed : bool) :
  0 < width ->
  List.length header = width ->
  Forall (fun c => cellSafe c = true) header ->
  Forall (fun c => singleLine c = true) header ->
  MarkdownTable header (map (expectedCells width) rows)
    (if noticed then [""; noticeLine total] else [])
    (Js.join Js.nl
       (tableLine header
        :: tableLine (map (fun _ => "---") header)
        :: map (fun row => tableLine (rowCells width row)) rows)
     ++ (if noticed then truncationNotice total else "")).
Proof.
  intros Hw Hlen Hsafe Hline.
  assert (Hne : header <> []).
  { intros E. rewrite E in Hlen. simpl in Hlen. lia. }
  set (rowLines := map (fun row => tableLine (rowCells width row)) rows).
  assert (Hlines : Forall (fun x => singleLine x = true)
            (tableLine header
             :: tableLine (map (fun _ => "---") header) :: rowLines)).
  { constructor; [now apply tableLine_singleLine|]. constructor.
    - rewrite separator_cells. apply tableLine_singleLine.
      now apply repeat_Forall.
    - unfold rowLines. apply Forall_map, Forall_forall. intros row _.
      apply tableLine_singleLine, rowCells_singleLine. }
  exists (tableLine header), (tableLine (map (fun _ => "---") header)),
    rowLines.
  split.
  { destruct noticed.
    - rewrite truncationNotice_noticeLine, lines_join by exact Hlines.
      change (lines (Js.nl ++ noticeLine total))
        with ("" :: lines (noticeLine total)).
      now rewrite (lines_singleLine _ (noticeLine_singleLine _)).
    - rewrite append_empty_r, lines_join_end by exact Hlines.
      now rewrite app_nil_r. }
  split; [now apply tableCells_tableLine|].
  split.
  { rewrite separator_cells. apply tableCells_tableLine.
    - intros E. apply (f_equal (@List.length _)) in E.
      rewrite repeat_length, Hlen in E. simpl in E. lia.
    - now apply repeat_Forall. }
  split.
  { unfold rowLines. rewrite !map_map. apply map_ext. intros row.
    rewrite <- rowCells_expected.
    apply tableCells_tableLine;
      [now apply rowCells_not_nil | apply rowCells_safe]. }
  apply Forall_map, Forall_forall. intros row _.
  unfold expectedCells. now rewrite length_map, length_seq, Hlen.
Qed.

(** X3.  When the first row is taken as the header, and the block has a
    cell and no more rows than the engine accepts as the arguments of one
    call, the output is the line of the header, the separator and one line
    for each row after the first, at most 500 of them, followed by the
    notice when there are more, which counts the rows after the first.
    The header is the texts of the first row, as they are, followed by
    the labels of the columns that the first row lacks.  The texts of the
    header are not escaped: the output is a table with that header and
    those rows when they have no delimiting pipe and no line feed. *)
Theorem first_row_as_header (first : list Cell) (rest : list (list Cell)) :
  0 < list_max (map (@List.length Cell) (first :: rest)) ->
  (N.of_nat (List.length (first :: rest)) <= spreadLimit)%N ->
  let width := list_max (map (@List.length Cell) (first :: rest)) in
  let header := headerOf width first in
  let noticed := (MAX_ROWS <? List.length rest)%nat in
  exists output,
    formatAsMarkdownTable (first :: rest) true = inr output
    /\ output
       = Js.join Js.nl
           (tableLine header
            :: tableLine (map (fun _ => "---") header)
            :: map (fun row => tableLine (rowCells width row))
                 (firstn MAX_ROWS rest))
         ++ (if noticed then truncationNotice (List.length rest) else "")
    /\ (Forall (fun cell => cellSafe (cellText cell) = true
                            /\ singleLine (cellText cell) = true) first ->
        MarkdownTable header
          (map (expectedCells width) (firstn MAX_ROWS rest))
          (if noticed then [""; noticeLine (List.length rest)] else [])
          output).
Proof.
  intros Hw Hfit width header noticed. subst width header noticed.
  change (list_max (map (@List.length Cell) (first :: rest)))
    with (widest (first :: rest)) in *.
  eexists.
  split; [apply (formatAsMarkdownTable_returns (first :: rest) true Hfit)|].
  rewrite (tableOf_header_lines first rest Hw). cbv zeta.
  split; [reflexivity|].
  intros Hfirst.
  apply header_lines_are_table.
  - exact Hw.
  - apply headerOf_length.
  - unfold headerOf. apply Forall_app. split.
    + apply Forall_map. eapply Forall_impl; [|exact Hfirst]. simpl. tauto.
    + apply Forall_map, Forall_forall. intros i _. apply columnLabel_safe.
  - unfold headerOf. apply Forall_app. split.
    + apply Forall_map. eapply Forall_impl; [|exact Hfirst]. simpl. tauto.
    + apply Forall_map, Forall_forall. intros i _.
      apply allUpper_singleLine, columnLabel_upper.
Qed.

(** *** Escaping and labels *)

(** X4.  [escapeMarkdown] leaves a text as it is exactly when the text has
    no pipe and no line feed. *)
Theorem escapeMarkdown_fixes_plain_text (text : string) :
  escapeMarkdown text = text <-> plainText text = true.
Proof.
  induction text as [|c text IH]; [simpl; tauto|].
  rewrite escapeMarkdown_cons. unfold escapeChar. cbn [plainText].
  destruct (Ascii.eqb c "|") eqn:Ep.
  - apply Ascii.eqb_eq in Ep. subst c. simpl. split; discriminate.
  - destruct (Ascii.eqb c "010") eqn:En.
    + apply Ascii.eqb_eq in En. subst c. simpl. split; discriminate.
    + cbn [negb andb append]. rewrite <- IH. split.
      * now intros [= ->].
      * now intros ->.
Qed.

Lemma loop_append_tail (n : Z) (label tail : string) :
  columnLabelLoop n (label ++ tail) = columnLabelLoop n label ++ tail.
Proof.
  revert tail. funelim (columnLabelLoop n label); intros tail.
  - rewrite (columnLabelLoop_equation_1 n (label ++ tail)), Heq.
    cbn [columnLabelLoop_unfold_clause_1].
    match goal with IH : forall _ : string, _ |- _ => rewrite <- IH end.
    reflexivity.
  - rewrite (columnLabelLoop_equation_1 n (label ++ tail)), Heq.
    reflexivity.
Qed.

Lemma loop_append (n : Z) (label : string) :
  columnLabelLoop n label = columnLabelLoop n "" ++ label.
Proof. exact (loop_append_tail n "" label). Qed.

(** X5.  The labels follow the way spreadsheets count columns: the label
    of an index below 26 is its letter, and the label of
    [26 * (q + 1) + r], for [r] below 26, is the label of [q] followed by
    the letter of [r]. *)
Theorem columnLabel_steps :
  (forall r, r < 26 -> columnLabel r = letter r)
  /\ (forall q r, r < 26 ->
        columnLabel (26 * (q + 1) + r) = columnLabel q ++ letter r).
Proof.
  assert (Hstep : forall q r, r < 26 ->
            columnLabelLoop (26 * (Z.of_nat q + 1) + Z.of_nat r) ""
            = columnLabelLoop (Z.of_nat q) "" ++ letter r).
  { intros q r Hr. rewrite columnLabelLoop_equation_1.
    destruct (Z_le_gt_dec 0 (26 * (Z.of_nat q + 1) + Z.of_nat r))
      as [Hge|Hlt]; [|lia].
    cbn [columnLabelLoop_unfold_clause_1].
    replace (26 * (Z.of_nat q + 1) + Z.of_nat r)%Z
      with (Z.of_nat r + (Z.of_nat q + 1) * 26)%Z by lia.
    rewrite Z.div_add, Z.mod_add, Z.div_small, Z.mod_small by lia.
    replace (0 + (Z.of_nat q + 1) - 1)%Z with (Z.of_nat q) by lia.
    apply loop_append. }
  split.
  - intros r Hr. unfold columnLabel, letter.
    rewrite columnLabelLoop_equation_1.
    destruct (Z_le_gt_dec 0 (Z.of_nat r)) as [Hge|Hlt]; [|lia].
    cbn [columnLabelLoop_unfold_clause_1].
    rewrite Z.div_small, Z.mod_small by lia.
    rewrite columnLabelLoop_equation_1. reflexivity.
  - intros q r Hr. unfold columnLabel.
    replace (Z.of_nat (26 * (q + 1) + r))
      with (26 * (Z.of_nat q + 1) + Z.of_nat r)%Z by lia.
    now apply Hstep.
Qed.

End MoreTables.

(** ** The description of a spreadsheet *)

Section MoreRendering.

Import Formatter Text TableSpec MoreSpec Client Rendering.
Context `{JsRuntime}.

Lemma plainText_singleLine (s : string) :
  plainText s = true -> singleLine s = true.
Proof.
  induction s as [|c s IH]; [reflexivity|]. cbn [plainText singleLine].
  intros Hs. apply andb_true_iff in Hs. destruct Hs as [Hc Hs].
  apply andb_true_iff in Hc. destruct Hc as [_ Hn].
  rewrite Hn. now apply IH.
Qed.

Lemma plainText_scan (s : string) (e : bool) :
  plainText s = true -> exists e', scanCell e s = Some e'.
Proof.
  revert e. induction s as [|c s IH]; intros e Hs.
  - exists e. reflexivity.
  - cbn [plainText] in Hs. apply andb_true_iff in Hs. destruct Hs as [Hc Hs].
    apply andb_true_iff in Hc. destruct Hc as [Hp _].
    apply negb_true_iff in Hp. cbn [scanCell]. rewrite Hp.
    cbn [andb]. now apply IH.
Qed.

Lemma plainText_safe (s : string) : plainText s = true -> cellSafe s = true.
Proof.
  intros Hs. unfold cellSafe.
  destruct (plainText_scan s false Hs) as [e ->]. reflexivity.
Qed.

Lemma join_app (sep : string) (a b : list string) :
  a <> [] -> b <> [] ->
  Js.join sep (a ++ b) = Js.join sep a ++ sep ++ Js.join sep b.
Proof.
  intros Ha Hb. induction a as [|x a IH]; [congruence|].
  destruct a as [|y a].
  - destruct b as [|z b]; [congruence|]. reflexivity.
  - change ((x :: y :: a) ++ b)%list with (x :: ((y :: a) ++ b))%list.
    change ((y :: a) ++ b)%list with (y :: (a ++ b))%list.
    rewrite (join_cons sep x y (a ++ b)).
    change (y :: (a ++ b))%list with ((y :: a) ++ b)%list.
    rewrite IH by discriminate.
    rewrite (join_cons sep x y a). now rewrite !append_assoc.
Qed.

Lemma pushSheet_line (lines : list string) (sheet : SheetInfo) :
  pushSheet lines sheet = (lines ++ [tableLine (sheetCells sheet)])%list.
Proof.
  unfold pushSheet, Js.push, tableLine, sheetCells. cbn [Js.join].
  now rewrite !append_assoc.
Qed.

Lemma fold_pushSheet (sheets : list SheetInfo) (lines : list string) :
  fold_left pushSheet sheets lines
  = (lines ++ map (fun sheet => tableLine (sheetCells sheet)) sheets)%list.
Proof.
  revert lines. induction sheets as [|sheet sheets IH]; intros lines.
  - simpl. now rewrite app_nil_r.
  - cbn [fold_left map]. rewrite IH, pushSheet_line, <- app_assoc.
    reflexivity.
Qed.

(** The lines of the table of the sheets. *)
Lemma formatSpreadsheetInfo_split (info : SpreadsheetInfo) :
  formatSpreadsheetInfo info
  = Js.join Js.nl (infoIntro info) ++ Js.nl
      ++ Js.join Js.nl
           (tableLine sheetsHeader
            :: tableLine (map (fun _ => "---") sheetsHeader)
            :: map (fun sheet => tableLine (sheetCells sheet)) (sheets info)).
Proof.
  unfold formatSpreadsheetInfo. cbv zeta. rewrite fold_pushSheet.
  unfold Js.push. cbn [app].
  set (rowLines := map (fun sheet => tableLine (sheetCells sheet))
                     (sheets info)).
  change (?a :: ?b :: ?c :: ?d :: ?e :: ?f :: ?g :: ?h :: ?i :: ?j
            :: rowLines)
    with ([a; b; c; d; e; f; g; h] ++ i :: j :: rowLines)%list.
  rewrite join_app by discriminate. reflexivity.
Qed.

Lemma sheetCells_safe (sheet : SheetInfo) :
  (forall n, plainText (numberToString n) = true) ->
  Forall (fun c => cellSafe c = true) (sheetCells sheet)
  /\ Forall (fun c => singleLine c = true) (sheetCells sheet).
Proof.
  intros Hnum. unfold sheetCells. split.
  - repeat constructor;
      first [apply escapeMarkdown_safe | apply plainText_safe, Hnum].
  - repeat constructor;
      first [apply escapeMarkdown_singleLine
            | apply plainText_singleLine, Hnum].
Qed.

(** The rendered rows of sheets under the header of the table of the
    sheets are a table. *)
Lemma sheets_table (listed : list SheetInfo) :
  (forall n, plainText (numberToString n) = true) ->
  MarkdownTable sheetsHeader (map sheetCells listed) []
    (Js.join Js.nl
       (tableLine sheetsHeader
        :: tableLine (map (fun _ => "---") sheetsHeader)
        :: map (fun sheet => tableLine (sheetCells sheet)) listed)).
Proof.
  intros Hnum.
  exists (tableLine sheetsHeader),
    (tableLine (map (fun _ => "---") sheetsHeader)),
    (map (fun sheet => tableLine (sheetCells sheet)) listed).
  split.
  { rewrite app_nil_r. apply lines_join_end.
    constructor; [reflexivity|]. constructor; [reflexivity|].
    apply Forall_map, Forall_forall. intros sheet _.
    apply tableLine_singleLine, (sheetCells_safe sheet Hnum). }
  split; [reflexivity|]. split; [reflexivity|]. split.
  - rewrite !map_map. apply map_ext. intros sheet.
    apply tableCells_tableLine;
      [discriminate | apply (sheetCells_safe sheet Hnum)].
  - apply Forall_map, Forall_forall. intros sheet _. reflexivity.
Qed.

(** X6.  The description of a spreadsheet ends with a table of four
    columns, Sheet Name, Sheet ID, Rows and Columns, that has one row for
    each sheet, in the order of the metadata: the escaped title and the
    three numbers.  This holds when the text of a number has no pipe and no
    line feed. *)
Theorem spreadsheet_info_tabulates_sheets (info : SpreadsheetInfo) :
  (forall n, plainText (numberToString n) = true) ->
  exists table,
    formatSpreadsheetInfo info
    = Js.join Js.nl (infoIntro info) ++ Js.nl ++ table
    /\ MarkdownTable sheetsHeader (map sheetCells (sheets info)) [] table.
Proof.
  intros Hnum.
  exists (Js.join Js.nl
            (tableLine sheetsHeader
             :: tableLine (map (fun _ => "---") sheetsHeader)
             :: map (fun sheet => tableLine (sheetCells sheet))
                  (sheets info))).
  split.
  - apply formatSpreadsheetInfo_split.
  - apply sheets_table. exact Hnum.
Qed.

End MoreRendering.

(** ** The logger *)

Section MoreLogger.

Import Logger.

(** A call of [log] returns, having written its line. *)
Lemma log_writes (level : LogLevel) (msg : string) (st : LoggerState) :
  exists st' more,
    log level msg st = (inr tt, st')
    /\ stderr st' = (stderr st ++ formatMessage level msg :: more)%list.
Proof.
  unfold log, sendNotification, consoleError, callNotification, Js.push.
  cbn [mcpServer stderr notified].
  destruct (mcpServer st) as [[[send|]]|].
  - destruct (send (notified st) _) as [thrown|].
    + eexists _, [_]. cbn [stderr]. rewrite <- app_assoc. split; reflexivity.
    + eexists _, []. split; reflexivity.
  - eexists _, []. split; reflexivity.
  - eexists _, []. split; reflexivity.
Qed.

(** X7.  [log] never throws, whatever the server handed to [setServer]
    does.  It keeps the server and what the error stream holds, and writes
    the formatted message to the error stream first; the one line that may
    follow reports that the notification failed.  The notifications handed
    to the server grow by at most one, which carries the level and the
    message as given. *)
Theorem log_never_throws (level : LogLevel) (msg : string)
    (st : LoggerState) :
  exists st' more,
    log level msg st = (inr tt, st')
    /\ mcpServer st' = mcpServer st
    /\ stderr st' = (stderr st ++ formatMessage level msg :: more)%list
    /\ (more = []
        \/ exists thrown, more = ["Log notification failed: " ++ thrown])
    /\ (notified st' = notified st
        \/ notified st'
           = (notified st
                ++ [{| method := "notifications/logging"; level := level;
                       data := msg |}])%list).
Proof.
  unfold log, sendNotification, consoleError, callNotification, Js.push.
  cbn [mcpServer stderr notified].
  destruct (mcpServer st) as [[[send|]]|] eqn:Es.
  - destruct (send (notified st) _) as [thrown|] eqn:Et.
    + eexists _, ["Log notification failed: " ++ thrown].
      cbn [mcpServer stderr notified]. rewrite <- app_assoc.
      repeat split; eauto.
    + eexists _, []. cbn [mcpServer stderr notified]. repeat split; eauto.
  - eexists _, []. cbn [mcpServer stderr notified]. repeat split; eauto.
  - eexists _, []. cbn [mcpServer stderr notified]. repeat split; eauto.
Qed.

End MoreLogger.

(** ** The credentials *)

Section MoreCredentials.

Import Client Logger Credentials.

Variable Json : Type.
Variable parseJson : string -> Thrown + Json.

Lemma loggerDebug_logs (msg : string) (st : LoggerState) :
  exists st' more,
    loggerDebug msg st = (inr tt, st')
    /\ stderr st' = (stderr st ++ formatMessage debug msg :: more)%list.
Proof.
  unfold loggerDebug.
  destruct (log_writes debug msg st) as (st' & more & -> & Hs).
  eauto.
Qed.

Lemma truthy_set (value : option string) (s : string) :
  truthy value = Some s -> value = Some s.
Proof. destruct value as [[|c v]|]; simpl; congruence. Qed.

(** X9.  The inline key takes precedence: when
    [GOOGLE_SERVICE_ACCOUNT_KEY_JSON] is set and not empty, the key path
    and the file system are not looked at.  The outcome and the log are
    the same whatever the path variable holds and whichever files exist,
    and credentials that are returned are the parsed key with the two
    scopes. *)
Theorem inline_key_takes_precedence
    (existsSync existsSync' : string -> bool) (env env' : Env)
    (keyJson : string) (st : LoggerState) :
  truthy (GOOGLE_SERVICE_ACCOUNT_KEY_JSON env) = Some keyJson ->
  GOOGLE_SERVICE_ACCOUNT_KEY_JSON env' = GOOGLE_SERVICE_ACCOUNT_KEY_JSON env ->
  loadCredentials parseJson existsSync' env' st
  = loadCredentials parseJson existsSync env st
  /\ fst (loadCredentials parseJson existsSync env st)
     = match parseJson keyJson with
       | inr credentials => inr (WithCredentials credentials scopes)
       | inl e => inl e
       end.
Proof.
  intros Hkey Hsame. unfold loadCredentials. rewrite Hsame, Hkey.
  split; [reflexivity|].
  destruct (loggerDebug_logs
              "Authenticating with GOOGLE_SERVICE_ACCOUNT_KEY_JSON" st)
    as (st' & more & -> & _).
  reflexivity.
Qed.

(** X10.  The inline key is not written to the log: two environments
    with different keys leave the logger in the same state. *)
Theorem inline_key_is_not_logged
    (existsSync existsSync' : string -> bool) (env env' : Env)
    (keyJson keyJson' : string) (st : LoggerState) :
  truthy (GOOGLE_SERVICE_ACCOUNT_KEY_JSON env) = Some keyJson ->
  truthy (GOOGLE_SERVICE_ACCOUNT_KEY_JSON env') = Some keyJson' ->
  snd (loadCredentials parseJson existsSync env st)
  = snd (loadCredentials parseJson existsSync' env' st).
Proof.
  intros Hkey Hkey'. unfold loadCredentials. rewrite Hkey, Hkey'.
  destruct (loggerDebug_logs
              "Authenticating with GOOGLE_SERVICE_ACCOUNT_KEY_JSON" st)
    as (st' & more & -> & _).
  reflexivity.
Qed.

(** X11.  The client and the command line agree on what a missing
    configuration is: [loadCredentials] throws its configuration error,
    having logged nothing, exactly in the environments in which cli.ts
    exits before it starts the server. *)
Theorem missing_configuration_is_refused_at_startup
    (existsSync : string -> bool) (env : Env) (st : LoggerState) :
  cliStarts env = false
  <-> loadCredentials parseJson existsSync env st
      = (inl (ErrorObject
                "Google authentication not configured. Set GOOGLE_SERVICE_ACCOUNT_KEY_PATH or GOOGLE_SERVICE_ACCOUNT_KEY_JSON environment variable."),
         st).
Proof.
  assert (Hgrows : forall msg out,
            loggerDebug msg st = (inr tt, out) -> out <> st).
  { intros msg out Hout ->.
    destruct (loggerDebug_logs msg st) as (st' & more & E & Hs).
    rewrite E in Hout. injection Hout as ->.
    apply (f_equal (@List.length _)) in Hs.
    rewrite length_app in Hs. simpl in Hs. lia. }
  unfold cliStarts, loadCredentials.
  destruct (truthy (GOOGLE_SERVICE_ACCOUNT_KEY_JSON env)) as [keyJson|].
  - split; [discriminate|].
    destruct (loggerDebug_logs
                "Authenticating with GOOGLE_SERVICE_ACCOUNT_KEY_JSON" st)
      as (st' & more & E & _).
    rewrite E. intros Hpair. exfalso. apply (Hgrows _ _ E).
      now injection Hpair.
  - destruct (truthy (GOOGLE_SERVICE_ACCOUNT_KEY_PATH env)) as [keyPath|].
    + split; [discriminate|].
      destruct (loggerDebug_logs
                  ("Authenticating with key file: " ++ keyPath) st)
        as (st' & more & E & _).
      rewrite E. intros Hpair. exfalso. apply (Hgrows _ _ E).
      now injection Hpair.
    + split; reflexivity.
Qed.

End MoreCredentials.

(** ** The handlers that read *)

Section MoreReading.

Import Formatter Text TableSpec MoreSpec Client Server HandlerSpec
  DispatchSpec Rendering Reading.
Context `{JsRuntime}.
Variable world : World.

(** A [try] block whose [catch] returns never throws. *)
Lemma tryCatch_returns {A : Type} (c : M A) (handler : Thrown -> M A)
    (st : State) :
  (forall e st1, exists a, handler e st1 = (inr a, st1)) ->
  exists a st', tryCatch c handler st = (inr a, st').
Proof.
  intros Hh. unfold tryCatch. destruct (c st) as [[e|a] st1].
  - destruct (Hh e st1) as [a Ha]. eauto.
  - eauto.
Qed.

Lemma client_ready (st : State) :
  ClientAvailable world st ->
  (if clientInstance st then true
   else match loadCredentials world with Some _ => false | None => true end)
  = true.
Proof.
  intros [Hi | Hc]; [now rewrite Hi|]. rewrite Hc.
  now destruct (clientInstance st).
Qed.

(** A [try] block of a handler when the client exists or can be built. *)
Lemma tryCatch_available {A : Type} (k : M A) (handler : Thrown -> M A)
    (st : State) :
  ClientAvailable world st ->
  tryCatch (_ <- getSheetsClient world ;; k) handler st
  = tryCatch k handler {| clientInstance := true; sent := sent st |}.
Proof.
  intros Hc. rewrite tryCatch_client. destruct Hc as [Hi | Hl].
  - rewrite Hi. destruct st as [i s]. cbn in *. now subst i.
  - rewrite Hl. destruct st as [[|] s]; reflexivity.
Qed.

(** X12.  read-values and read-formulas make exactly one call, the read
    of the range with the render option [FORMATTED_VALUE] or [FORMULA],
    whether the service accepts or rejects it.  A rejected read gives an
    error envelope with the message of [handleApiError].  An accepted read
    gives what [formatAsMarkdownTable] makes of its rows, those of an
    answer without values being none: the heading and the table when it
    returns, and an error envelope with the message of the error when it
    throws, as it does on more rows than the engine accepts as the
    arguments of one call. *)
Theorem read_makes_one_call (kind : ReadKind) (params : RangeParams)
    (st : State) :
  ClientAvailable world st ->
  let run := readHandler world kind params st in
  callsMade st (snd run) = [readOf kind params]
  /\ fst run
     = inr match values_get world (sent st) (rangeSpreadsheetId params)
                   (range params) (renderOption kind) with
           | inr values =>
               match formatAsMarkdownTable (rowsOf values) false with
               | inr table =>
                   createTextResponse
                     ("## " ++ readHeading kind ++ " (" ++ range params
                        ++ ")" ++ Js.nl ++ Js.nl ++ table)
               | inl thrown =>
                   createErrorResponse
                     ("Failed to read " ++ readLabel kind ++ ": " ++ thrown)
               end
           | inl failure =>
               createErrorResponse
                 ("Failed to read " ++ readLabel kind ++ ": "
                    ++ readFailure kind params failure)
           end.
Proof.
  intros Hc run. subst run.
  destruct kind; cbn [readHandler renderOption readHeading readLabel];
    unfold readValuesHandler, readFormulasHandler, readOf, readFailure;
    cbn [renderOption readLabel];
    rewrite (tryCatch_available _ _ st Hc);
    unfold tryCatch, bind, getValues, getFormulas, apiCall, call, ret,
      rendered, rowsOf;
    cbn [sent clientInstance];
    match goal with
    | |- context [values_get ?w ?h ?i ?r ?o] =>
        destruct (values_get w h i r o) as [failure|values]
    end;
    cbn [fst snd errorText];
    try match goal with
        | |- context [formatAsMarkdownTable ?rows false] =>
            destruct (formatAsMarkdownTable rows false) as [thrown|table]
        end;
    cbn [fst snd errorText]; (split; [apply callsMade_one | reflexivity]).
Qed.

(** X13.  read-all always makes both reads of the range, the formatted
    values first and the formulas second, also when the first is
    rejected.  When both reads are accepted it answers with what
    [formatValuesAndFormulas] makes of the two answers: the text of the
    two tables, or an error envelope with the message of the error that
    making a table throws.  Otherwise it answers with an error envelope
    that carries the message of a rejected read, whichever of two
    rejections is seen first. *)
Theorem read_all_makes_both_reads (valuesSettleFirst : bool)
    (params : RangeParams) (st : State) :
  ClientAvailable world st ->
  let first := readOf FormattedValues params in
  let second := readOf Formulas params in
  let values :=
    values_get world (sent st) (rangeSpreadsheetId params) (range params)
      "FORMATTED_VALUE" in
  let formulas :=
    values_get world (Js.push (sent st) first) (rangeSpreadsheetId params)
      (range params) "FORMULA" in
  let run := readAllHandler world valuesSettleFirst params st in
  callsMade st (snd run) = [first; second]
  /\ (forall v f,
        values = inr v -> formulas = inr f ->
        fst run
        = inr match formatValuesAndFormulas (rowsOf v) (rowsOf f)
                      (range params) with
              | inr text => createTextResponse text
              | inl thrown =>
                  createErrorResponse
                    ("Failed to read values and formulas: " ++ thrown)
              end)
  /\ ((exists failure, values = inl failure)
      \/ (exists failure, formulas = inl failure) ->
      exists message,
        fst run
        = inr (createErrorResponse
                 ("Failed to read values and formulas: " ++ message))
        /\ ((exists failure,
               values = inl failure
               /\ message = readFailure FormattedValues params failure)
            \/ (exists failure,
                  formulas = inl failure
                  /\ message = readFailure Formulas params failure))).
Proof.
  intros Hc first second values formulas run.
  subst first second values formulas run.
  unfold readAllHandler, readOf, readFailure. cbn [renderOption readLabel].
  rewrite (tryCatch_available _ _ st Hc).
  unfold tryCatch, bind, getValuesAndFormulas, getValues, getFormulas,
    apiCall, call, ret, rendered.
  cbn [sent clientInstance].
  destruct (values_get world (sent st) (rangeSpreadsheetId params)
              (range params) "FORMATTED_VALUE") as [fv|v];
    cbn [sent clientInstance];
    destruct (values_get world
                (Js.push (sent st)
                   (ValuesGet (rangeSpreadsheetId params) (range params)
                      "FORMATTED_VALUE"))
                (rangeSpreadsheetId params) (range params) "FORMULA")
      as [ff|f];
    cbn [fst snd errorText].
  - split; [apply callsMade_two|]. split; [discriminate|].
    intros _. destruct valuesSettleFirst; eexists; (split; [reflexivity|]).
    + left. eauto.
    + right. eauto.
  - split; [apply callsMade_two|]. split; [discriminate|].
    intros _. eexists. split; [reflexivity|]. left. eauto.
  - split; [apply callsMade_two|]. split; [discriminate|].
    intros _. eexists. split; [reflexivity|]. right. eauto.
  - unfold rowsOf.
    destruct (formatValuesAndFormulas _ _ (range params)) as [thrown|text]
      eqn:Et; cbn [fst snd errorText];
      (split; [apply callsMade_two|]); (split;
        [intros v0 f0 [= <-] [= <-]; now rewrite Et
        |intros [[failure E] | [failure E]]; discriminate]).
Qed.


(** X15.  None of the handlers of get-spreadsheet-info, read-values,
    read-formulas, read-all, delete-sheet and update-formatting throws:
    every run ends with a result, whatever the remote service and the
    credentials do. *)
Theorem handlers_never_throw (invocation : Invocation) (st : State) :
  exists result st', invoke world invocation st = (inr result, st').
Proof.
  destruct invocation; cbn [invoke];
    unfold getSpreadsheetInfoHandler, readValuesHandler, readFormulasHandler,
      readAllHandler, deleteSheetHandler, updateFormattingHandler;
    apply tryCatch_returns; intros e st1; eexists; reflexivity.
Qed.

(** X16.  When the client does not exist and the credentials cannot be
    loaded, each of these handlers answers with an error envelope that
    carries the message of the thrown error, makes no call, and leaves the
    client absent, so that the next call loads the credentials again. *)
Theorem handlers_report_missing_credentials (invocation : Invocation)
    (st : State) (e : Thrown) :
  clientInstance st = false ->
  loadCredentials world = Some e ->
  invoke world invocation st
  = (inr (createErrorResponse (failurePrefix invocation ++ errorText e)),
     st).
Proof.
  intros Hi Hl.
  destruct invocation; cbn [invoke failurePrefix];
    unfold getSpreadsheetInfoHandler, readValuesHandler, readFormulasHandler,
      readAllHandler, deleteSheetHandler, updateFormattingHandler;
    rewrite tryCatch_client, Hi, Hl; reflexivity.
Qed.

(** X17.  The client is a singleton: once [getSheetsClient] has returned,
    every later call returns without loading the credentials, whatever
    loading them would do by then, and changes nothing; a call that throws
    leaves the client absent. *)
Theorem client_is_built_once (world' : World) (st st1 : State)
    (outcome : Thrown + unit) :
  getSheetsClient world st = (outcome, st1) ->
  sent st1 = sent st
  /\ match outcome with
     | inr _ => getSheetsClient world' st1 = (inr tt, st1)
     | inl e =>
         st1 = st /\ clientInstance st = false
         /\ loadCredentials world = Some e
     end.
Proof.
  unfold getSheetsClient. destruct (clientInstance st) eqn:Hi.
  - intros [= <- <-]. now rewrite Hi.
  - destruct (loadCredentials world) as [e|] eqn:Hl; intros [= <- <-].
    + repeat split; assumption.
    + split; reflexivity.
Qed.

Lemma find_first {A : Type} (test : A -> bool) (before after : list A)
    (x : A) :
  Forall (fun y => test y = false) before ->
  test x = true ->
  find test (before ++ x :: after) = Some x.
Proof.
  intros Hb Hx. induction Hb as [|y before Hy Hb IH]; simpl.
  - now rewrite Hx.
  - now rewrite Hy.
Qed.

(** X18.  [resolveSheetId] compares titles without regard to case and
    takes the first sheet of the metadata that matches: it makes the one
    read of the metadata and returns the id of that sheet, whatever sheets
    follow it. *)
Theorem resolve_takes_first_match (st : State)
    (spreadsheetId sheetTitle : string) (data : Spreadsheet)
    (before after : list SheetInfo) (sheet : SheetInfo) :
  MetadataIs world st spreadsheetId data ->
  sheets (spreadsheetInfoOf data) = (before ++ sheet :: after)%list ->
  Forall (fun s => toLowerCase (title s) <> toLowerCase sheetTitle) before ->
  toLowerCase (title sheet) = toLowerCase sheetTitle ->
  resolveSheetId world spreadsheetId sheetTitle st
  = (inr (infoSheetId sheet),
     {| clientInstance := clientInstance st;
        sent := Js.push (sent st) (metadataRead spreadsheetId) |}).
Proof.
  intros Hm Hs Hb Hx.
  unfold resolveSheetId, bind, getSpreadsheetInfo, apiCall, call.
  unfold MetadataIs in Hm. rewrite Hm. rewrite Hs.
  rewrite (find_first (sameTitle sheetTitle) before after sheet).
  - reflexivity.
  - eapply Forall_impl; [|exact Hb]. cbv beta. intros s Hne.
    unfold sameTitle. now apply String.eqb_neq.
  - unfold sameTitle. now apply String.eqb_eq.
Qed.

End MoreReading.

(** ** The tool definitions and the validation of arguments *)

Section MoreRegistry.

Import Zod Server DispatchSpec MoreSpec Client.
Context `{JsRuntime}.

(** X19.  The tool definitions that the server advertises agree with the
    schemas that validate the calls: the tools are the eleven keys of
    [schemas] in their order, and the input schema of each describes what
    the zod schema of the tool accepts, key by key, with exactly the keys
    that are not optional listed as required. *)
Theorem advertised_schemas_agree_with_validation :
  Registry.listTools = map advertised allTools.
Proof. reflexivity. Qed.

(** X20.  The advertised tools are exactly the names that the dispatcher
    finds a handler and a schema for. *)
Theorem advertised_tools_are_the_callable_ones (name : string) :
  In name (map Registry.name Registry.listTools)
  <-> exists tool, lookup name = Own tool.
Proof.
  change (map Registry.name Registry.listTools) with (map toolKey allTools).
  unfold lookup. split.
  - intros Hin. apply in_map_iff in Hin. destruct Hin as (tool & <- & _).
    exists tool. destruct tool; reflexivity.
  - intros [tool Hl].
    destruct (find (fun t => String.eqb (toolKey t) name) allTools)
      as [found|] eqn:Hf.
    + apply find_some in Hf. destruct Hf as [Hin Heq].
      apply String.eqb_eq in Heq. subst name. now apply in_map.
    + destruct (existsb (String.eqb name) objectPrototypeKeys);
        discriminate.
Qed.

Lemma outputOf_object (shape : list (string * Schema))
    (fields : list (string * Value)) :
  outputOf (ZObject shape) (VObject fields)
  = VObject
      (flat_map (fun member =>
                   let out := outputOf (snd member) (prop fields (fst member))
                   in
                   if isUndefined out && isUndefined (prop fields (fst member))
                   then [] else [(fst member, out)])
                shape).
Proof.
  cbn [outputOf]. f_equal.
  induction shape as [|[key member] shape IH]; [reflexivity|].
  cbn [flat_map fst snd]. rewrite IH. cbv zeta.
  now destruct (isUndefined (outputOf member (prop fields key))
                && isUndefined (prop fields key)).
Qed.

Lemma flat_map_ext_in {A B : Type} (f g : A -> list B) (l : list A) :
  (forall x, In x l -> f x = g x) -> flat_map f l = flat_map g l.
Proof.
  induction l as [|x l IH]; intros Hfg; [reflexivity|].
  cbn [flat_map]. rewrite (Hfg x (or_introl eq_refl)), IH; [reflexivity|].
  intros y Hy. apply Hfg. now right.
Qed.

(** Parsing against an object schema reads the declared keys alone. *)
Lemma parse_reads_declared_keys (shape : list (string * Schema))
    (fields fields' : list (string * Value)) :
  (forall key, In key (map fst shape) -> prop fields' key = prop fields key) ->
  parse (ZObject shape) (VObject fields')
  = parse (ZObject shape) (VObject fields).
Proof.
  intros Hsame. unfold parse.
  rewrite !issuesOf_object, !outputOf_object.
  assert (Hi : forall path,
            flat_map (fun member =>
                        issuesOf (snd member) (Js.push path (Key (fst member)))
                          (prop fields' (fst member))) shape
            = flat_map (fun member =>
                          issuesOf (snd member)
                            (Js.push path (Key (fst member)))
                            (prop fields (fst member))) shape).
  { intros path. apply flat_map_ext_in. intros member Hin.
    rewrite Hsame; [reflexivity|]. now apply in_map. }
  rewrite Hi.
  assert (Ho : flat_map (fun member =>
                 let out := outputOf (snd member) (prop fields' (fst member))
                 in
                 if isUndefined out && isUndefined (prop fields' (fst member))
                 then [] else [(fst member, out)]) shape
               = flat_map (fun member =>
                 let out := outputOf (snd member) (prop fields (fst member))
                 in
                 if isUndefined out && isUndefined (prop fields (fst member))
                 then [] else [(fst member, out)]) shape).
  { apply flat_map_ext_in. intros member Hin.
    rewrite Hsame; [reflexivity|]. now apply in_map. }
  now rewrite Ho.
Qed.

Lemma schemas_are_objects (tool : ToolName) :
  schemas tool = ZObject (fieldsOf (schemas tool)).
Proof. destruct tool; reflexivity. Qed.

(** X21.  A call ignores the arguments that the schema of the tool does
    not declare: two argument objects that agree on the declared keys are
    validated alike, with the same issues or the same validated value, and
    the call answers and acts alike. *)
Theorem undeclared_arguments_are_ignored
    (handlers : ToolName -> Value -> M CallToolResult) (name : string)
    (fields fields' : list (string * Value)) (st : State) :
  (forall tool key,
      lookup name = Own tool -> In key (declaredKeys tool) ->
      prop fields' key = prop fields key) ->
  callTool handlers name (VObject fields') st
  = callTool handlers name (VObject fields) st.
Proof.
  intros Hsame. unfold callTool.
  destruct (lookup name) as [tool| |] eqn:Hl; try reflexivity.
  rewrite (schemas_are_objects tool).
  rewrite (parse_reads_declared_keys _ fields fields'); [reflexivity|].
  intros key Hin. now apply (Hsame tool).
Qed.

Lemma flat_map_nil {A B : Type} (f : A -> list B) (l : list A) (x : A) :
  flat_map f l = [] -> In x l -> f x = [].
Proof.
  induction l as [|y l IH]; [contradiction|]. cbn [flat_map].
  intros E [-> | Hin]; apply app_eq_nil in E; destruct E as [E1 E2];
    [assumption | now apply IH].
Qed.

(** X22.  The value that validation hands to a handler is an object that
    has no key but declared ones and that has every required key of the
    schema of the tool. *)
Theorem validated_arguments_have_the_declared_shape (tool : ToolName)
    (args validated : Value) :
  parse (schemas tool) args = inr validated ->
  exists out,
    validated = VObject out
    /\ incl (map fst out) (declaredKeys tool)
    /\ (forall key member,
          In (key, member) (fieldsOf (schemas tool)) ->
          required member = true ->
          In key (map fst out)).
Proof.
  intros Hp. unfold declaredKeys.
  destruct (declared_fields tool) as (shape & Es & Hok).
  rewrite Es in *. cbn [fieldsOf]. unfold parse in Hp.
  destruct (issuesOf (ZObject shape) [] args) as [|issue issues] eqn:Hi;
    [|discriminate].
  assert (Ev : validated = outputOf (ZObject shape) args)
    by (now injection Hp).
  clear Hp. destruct args as [| | | | | |fields]; try discriminate.
  rewrite issuesOf_object in Hi. rewrite outputOf_object in Ev.
  subst validated.
  eexists. split; [reflexivity|]. split.
  - intros key Hin. apply in_map_iff in Hin.
    destruct Hin as ([k out] & <- & Hin). apply in_flat_map in Hin.
    destruct Hin as (member & Hm & Hin). cbv zeta in Hin.
    destruct (isUndefined _ && isUndefined _); [contradiction|].
    destruct Hin as [E | []]. injection E as <- _. cbn [fst].
    exact (in_map fst shape member Hm).
  - intros key member Hin Hreq.
    rewrite forallb_forall in Hok. specialize (Hok (key, member) Hin).
    cbn [fst snd] in Hok. rewrite Hreq in Hok. cbn [negb orb] in Hok.
    apply andb_true_iff in Hok. destruct Hok as [Hplain _].
    pose proof (flat_map_nil _ _ (key, member) Hi Hin) as Hnone.
    cbn [fst snd] in Hnone.
    assert (Hdef : isUndefined (prop fields key) = false).
    { destruct (prop fields key) eqn:Ep; try reflexivity.
      destruct (plain_refuses_undefined member (Js.push [] (Key key)) Hplain)
        as (issue & E & _).
      rewrite E in Hnone. discriminate. }
    apply in_map_iff.
    exists (key, outputOf member (prop fields key)). split; [reflexivity|].
    apply in_flat_map. exists (key, member). split; [assumption|].
    cbn [fst snd]. cbv zeta. rewrite Hdef, andb_false_r. now left.
Qed.

End MoreRegistry.

(** ** The handlers that write *)

Section MoreService.

Import Formatter Client Server Service ServiceSpec.
Context `{JsRuntime}.
Variable remote : Remote.

Lemma callsSince_app (st : ProcessState) (c : bool) (made : list Call) :
  callsSince st {| client := c; calls := (calls st ++ made)%list |} = made.
Proof.
  unfold callsSince. cbn [calls].
  rewrite skipn_app, skipn_all, Nat.sub_diag. reflexivity.
Qed.

Lemma callsSince_one (st : ProcessState) (c : bool) (a : Call) :
  callsSince st {| client := c; calls := Js.push (calls st) a |} = [a].
Proof. apply callsSince_app. Qed.


Lemma callsSince_none (st : ProcessState) : callsSince st st = [].
Proof. unfold callsSince. apply skipn_all. Qed.

(** A [try] block whose [catch] returns never throws. *)
Lemma service_tryCatch_returns {A : Type} (c : S A) (handler : Thrown -> S A)
    (st : ProcessState) :
  (forall e st1, exists a, handler e st1 = (inr a, st1)) ->
  exists a st', tryCatch c handler st = (inr a, st').
Proof.
  intros Hh. unfold tryCatch. destruct (c st) as [[e|a] st1].
  - destruct (Hh e st1) as [a Ha]. eauto.
  - eauto.
Qed.

Lemma service_client_ready (st : ProcessState) :
  Ready remote st ->
  Service.getSheetsClient remote st
  = (inr tt, {| client := true; calls := calls st |}).
Proof.
  unfold Service.getSheetsClient, knownCall, Client.getSheetsClient.
  cbn [clientInstance sent]. intros [Hc | Hl].
  - rewrite Hc. cbn [clientInstance sent map]. now rewrite app_nil_r.
  - rewrite Hl. destruct (client st); cbn [clientInstance sent map];
      now rewrite app_nil_r.
Qed.

Lemma service_client_missing (st : ProcessState) (e : Thrown) :
  client st = false ->
  loadCredentials (known remote (calls st)) = Some e ->
  Service.getSheetsClient remote st = (inl e, st).
Proof.
  unfold Service.getSheetsClient, knownCall, Client.getSheetsClient.
  cbn [clientInstance sent]. intros Hc Hl. rewrite Hc, Hl.
  cbn [clientInstance sent map]. rewrite app_nil_r.
  destruct st as [c l]. cbn in *. now subst c.
Qed.

(** A [try] block of a handler when the client exists or can be built. *)
Lemma service_tryCatch_ready {A : Type} (k : S A) (handler : Thrown -> S A)
    (st : ProcessState) :
  Ready remote st ->
  tryCatch (_ <~ Service.getSheetsClient remote ;; k) handler st
  = tryCatch k handler {| client := true; calls := calls st |}.
Proof.
  intros Hr. unfold tryCatch, bind. now rewrite (service_client_ready st Hr).
Qed.









(** X27.  get-formatting makes one call, which asks for the grid data of
    the range with the fields [effectiveFormat] and [formattedValue], and
    describes the rows of the first grid of the first sheet of the answer
    alone.  When the answer has no such rows the text says that no
    formatting data was found; a rejected call gives an error envelope. *)
Theorem get_formatting_reads_the_first_grid (params : Reading.RangeParams)
    (st : ProcessState) :
  Ready remote st ->
  let id := Reading.rangeSpreadsheetId params in
  let range := Reading.range params in
  let answer := grid_get remote (calls st) id [range] true formattingFields in
  let run := getFormattingHandler remote params st in
  callsSince st (snd run) = [GridGet id [range] true formattingFields]
  /\ fst run
     = inr match answer with
           | inr sheets =>
               createTextResponse
                 (formatCellFormatting (firstRows sheets) range)
           | inl failure =>
               createErrorResponse
                 ("Failed to get formatting: "
                    ++ handleApiError failure
                         ("Failed to get formatting for " ++ range))
           end
  /\ formatCellFormatting [] range
     = "## Cell Formatting (" ++ range ++ ")" ++ Js.nl ++ Js.nl
         ++ "No formatting data found.".
Proof.
  intros Hr id range answer run. subst id range answer run.
  unfold getFormattingHandler. rewrite (service_tryCatch_ready _ _ st Hr).
  unfold tryCatch, bind, getFormatting, apiCall. cbn [client calls].
  split; [|split].
  - destruct (grid_get remote _ _ _ _ _); cbn [fst snd ret];
      apply callsSince_one.
  - destruct (grid_get remote _ _ _ _ _) as [failure|sheets];
      reflexivity.
  - unfold formatCellFormatting. cbn. now rewrite append_assoc.
Qed.

(** X28.  None of the handlers of update-cells, batch-update-cells,
    append-rows, add-sheet and get-formatting throws: every run ends with
    a result, whatever the remote service and the credentials do. *)
Theorem writing_handlers_never_throw (invocation : Invocation)
    (st : ProcessState) :
  exists result st', invoke remote invocation st = (inr result, st').
Proof.
  destruct invocation; cbn [invoke];
    unfold updateCellsHandler, batchUpdateCellsHandler, appendRowsHandler,
      addSheetHandler, getFormattingHandler;
    apply service_tryCatch_returns; intros e st1; eexists; reflexivity.
Qed.

(** X29.  When the client does not exist and the credentials cannot be
    loaded, each of these handlers answers with an error envelope that
    carries the message of the thrown error and makes no call: nothing
    is written. *)
Theorem writing_handlers_report_missing_credentials
    (invocation : Invocation) (st : ProcessState) (e : Thrown) :
  client st = false ->
  loadCredentials (known remote (calls st)) = Some e ->
  invoke remote invocation st
  = (inr (createErrorResponse (failurePrefix invocation ++ errorText e)),
     st).
Proof.
  intros Hc Hl.
  destruct invocation; cbn [invoke failurePrefix];
    unfold updateCellsHandler, batchUpdateCellsHandler, appendRowsHandler,
      addSheetHandler, getFormattingHandler, tryCatch, bind;
    rewrite (service_client_missing st e Hc Hl); reflexivity.
Qed.

End MoreService.

(** ** The messages of rejected calls, and colours *)

Section MoreErrors.

Import Formatter Text Client.
Context `{JsRuntime}.

Lemma handleApiError_other (status : Z) (message : option string)
    (context : string) :
  status <> 400%Z -> status <> 403%Z -> status <> 404%Z ->
  handleApiError (Coded (NumericCode status) message) context
  = context ++ " (" ++ Js.intToString status ++ "): "
      ++ orElse message "Unknown error".
Proof.
  intros H400 H403 H404. unfold handleApiError.
  destruct status as [|p|p]; try reflexivity.
  do 9 (try (destruct p as [p|p|]; try reflexivity)); congruence.
Qed.

Lemma orElse_includes (message fallback : string) :
  message <> "" -> orElse (Some message) fallback = message.
Proof. destruct message; [congruence | reflexivity]. Qed.

(** X8.  The message that [handleApiError] throws always starts with the
    context, the operation that failed.  For the codes 403 and 404 it
    does not depend on the message of the rejection; for every other
    rejection that has a code and a message that is not empty, it contains
    that message; for a rejection without a code it is the context, a
    colon and the message of the error. *)
Theorem api_errors_name_the_operation (failure : ApiFailure)
    (context : string) :
  String.prefix context (handleApiError failure context) = true
  /\ (forall status message message',
        (status = 403 \/ status = 404)%Z ->
        handleApiError (Coded (NumericCode status) message) context
        = handleApiError (Coded (NumericCode status) message') context)
  /\ (forall code message,
        failure = Coded code (Some message) ->
        code <> NumericCode 403 -> code <> NumericCode 404 ->
        message <> "" ->
        includes (handleApiError failure context) message = true)
  /\ (forall e,
        failure = Uncoded e ->
        handleApiError failure context = context ++ ": " ++ errorText e).
Proof.
  split; [|split; [|split]].
  - destruct failure as [[status|text] message|e];
      [|cbn [handleApiError]; apply prefix_app ..].
    destruct (Z.eq_dec status 400) as [->|H400]; [apply prefix_app|].
    destruct (Z.eq_dec status 403) as [->|H403]; [apply prefix_app|].
    destruct (Z.eq_dec status 404) as [->|H404]; [apply prefix_app|].
    rewrite (handleApiError_other status message context H400 H403 H404).
    apply prefix_app.
  - intros status message message' [-> | ->]; reflexivity.
  - intros code message -> H403 H404 Hne.
    destruct code as [status|text].
    + destruct (Z.eq_dec status 400) as [->|H400].
      * cbn [handleApiError]. rewrite (orElse_includes _ _ Hne).
        apply includes_app_r, includes_app_r, includes_refl.
      * rewrite handleApiError_other by congruence.
        rewrite (orElse_includes _ _ Hne).
        do 4 apply includes_app_r. apply includes_refl.
    + cbn [handleApiError]. rewrite (orElse_includes _ _ Hne).
      do 4 apply includes_app_r. apply includes_refl.
  - intros e ->. reflexivity.
Qed.

Lemma padStart2_length (s : string) :
  2 <= String.length (Js.padStart2 s)
  /\ (String.length (Js.padStart2 s) = 2 <-> String.length s <= 2).
Proof.
  unfold Js.padStart2. destruct s as [|a [|b [|c s]]]; cbn; lia.
Qed.

Lemma length_append (a b : string) :
  String.length (a ++ b) = String.length a + String.length b.
Proof. induction a as [|c a IH]; cbn; [reflexivity | now rewrite IH]. Qed.

(** X30.  [formatColor] pads every channel to two characters and never
    cuts one: the text has at least seven characters, the number sign and
    two for each channel, and has exactly seven when and only when no
    channel is written with more than two, a missing channel being written
    as 00. *)
Theorem formatColor_pads_channels (color : Color) :
  let written (channel : option Number) : nat :=
    match channel with
    | Some x => String.length (scaledHex x)
    | None => 1
    end in
  7 <= String.length (formatColor color)
  /\ (String.length (formatColor color) = 7
      <-> written (Formatter.red color) <= 2 /\ written (Formatter.green color) <= 2
          /\ written (Formatter.blue color) <= 2)
  /\ (Formatter.red color = None -> Formatter.green color = None -> Formatter.blue color = None ->
      formatColor color = "#000000").
Proof.
  intros written. unfold formatColor.
  change ("#" ++ ?x) with (String "#" x). cbn [String.length].
  rewrite !length_append. unfold channelHex.
  assert (Hw : forall channel,
            written channel
            = String.length (match channel with
                             | Some x => scaledHex x
                             | None => "0"
                             end)).
  { intros [x|]; reflexivity. }
  rewrite !Hw.
  destruct (padStart2_length (match Formatter.red color with
                              | Some x => scaledHex x | None => "0" end))
    as [Hr1 Hr2].
  destruct (padStart2_length (match Formatter.green color with
                              | Some x => scaledHex x | None => "0" end))
    as [Hg1 Hg2].
  destruct (padStart2_length (match Formatter.blue color with
                              | Some x => scaledHex x | None => "0" end))
    as [Hb1 Hb2].
  split; [lia|]. split.
  - split.
    + intros E. repeat split; [apply Hr2 | apply Hg2 | apply Hb2]; lia.
    + intros (Hr & Hg & Hb). apply Hr2 in Hr. apply Hg2 in Hg.
      apply Hb2 in Hb. lia.
  - intros -> -> ->. reflexivity.
Qed.

End MoreErrors.

(** ** The properties at concrete inputs *)

Section MoreInstances.

Import Formatter Text TableSpec MoreSpec Client Zod Server HandlerSpec
  DispatchSpec Sample MoreSample.

#[local] Existing Instance integerRuntime.

Lemma digits_plain (d : Decimal.uint) :
  plainText (NilEmpty.string_of_uint d) = true.
Proof. induction d; cbn; auto. Qed.

Lemma intToString_plain (z : Z) : plainText (Js.intToString z) = true.
Proof.
  unfold Js.intToString, NilZero.string_of_int, NilZero.string_of_uint.
  destruct (Z.to_int z) as [d|d].
  - destruct d eqn:E; try reflexivity; rewrite <- E; apply digits_plain.
  - cbn [plainText]. destruct d eqn:E; try reflexivity; rewrite <- E;
      apply digits_plain.
Qed.

(** X2 at [sampleBlock]. *)
Lemma small_block_is_shown_whole_witness :
  0 < list_max (map (@List.length Cell) sampleBlock)
  /\ List.length sampleBlock <= MAX_ROWS
  /\ exists output,
       formatAsMarkdownTable sampleBlock false = inr output
       /\ MarkdownTable (labels 2) (map (expectedCells 2) sampleBlock) []
            output.
Proof.
  assert (H1 : 0 < list_max (map (@List.length Cell) sampleBlock))
    by (vm_compute; lia).
  assert (H2 : List.length sampleBlock <= MAX_ROWS)
    by (unfold MAX_ROWS; simpl; lia).
  exact (conj H1 (conj H2 (small_block_is_shown_whole sampleBlock H1 H2))).
Defined.

(** X3 at [sampleBlock], its first row the header. *)
Lemma first_row_as_header_witness :
  0 < list_max (map (@List.length Cell) sampleBlock)
  /\ (N.of_nat (List.length sampleBlock) <= spreadLimit)%N
  /\ exists output,
       formatAsMarkdownTable sampleBlock true = inr output
       /\ output
          = "| Name | Age |" ++ Js.nl ++ "| --- | --- |" ++ Js.nl
              ++ "| Ann |  |"
       /\ MarkdownTable ["Name"; "Age"]
            (map (expectedCells 2) [[CString "Ann"]]) [] output.
Proof.
  assert (H1 : 0 < list_max (map (@List.length Cell) sampleBlock))
    by (vm_compute; lia).
  assert (H2 : (N.of_nat (List.length sampleBlock) <= spreadLimit)%N)
    by (vm_compute; discriminate).
  assert (H3 : Forall (fun cell => cellSafe (cellText cell) = true
                                   /\ singleLine (cellText cell) = true)
                 [CString "Name"; CString "Age"])
    by (repeat constructor).
  destruct (first_row_as_header [CString "Name"; CString "Age"]
              [[CString "Ann"]] H1 H2) as (output & Hout & Htext & Htable).
  exact (conj H1 (conj H2
           (ex_intro _ output (conj Hout (conj Htext (Htable H3)))))).
Defined.

(** X6 at the metadata of the sample spreadsheet. *)
Lemma spreadsheet_info_tabulates_sheets_witness :
  (forall n, plainText (numberToString n) = true)
  /\ exists table,
       Rendering.formatSpreadsheetInfo (spreadsheetInfoOf spreadsheet)
       = Js.join Js.nl (infoIntro (spreadsheetInfoOf spreadsheet))
           ++ Js.nl ++ table
       /\ MarkdownTable sheetsHeader
            (map sheetCells (sheets (spreadsheetInfoOf spreadsheet))) []
            table.
Proof.
  exact (conj intToString_plain
           (spreadsheet_info_tabulates_sheets (spreadsheetInfoOf spreadsheet)
              intToString_plain)).
Defined.

(** X9 at an environment with an inline key and the path of a file that
    does not exist, against the environment without the path. *)
Lemma inline_key_takes_precedence_witness :
  Credentials.truthy (Credentials.GOOGLE_SERVICE_ACCOUNT_KEY_JSON inlineEnv)
  = Some "{}"
  /\ Credentials.GOOGLE_SERVICE_ACCOUNT_KEY_JSON inlineOnlyEnv
     = Credentials.GOOGLE_SERVICE_ACCOUNT_KEY_JSON inlineEnv
  /\ Credentials.loadCredentials acceptJson (fun _ => true) inlineOnlyEnv
       quietLogger
     = Credentials.loadCredentials acceptJson (fun _ => false) inlineEnv
         quietLogger
  /\ fst (Credentials.loadCredentials acceptJson (fun _ => false) inlineEnv
            quietLogger)
     = inr (Credentials.WithCredentials "{}" Credentials.scopes).
Proof.
  assert (H1 : Credentials.truthy
                 (Credentials.GOOGLE_SERVICE_ACCOUNT_KEY_JSON inlineEnv)
               = Some "{}") by reflexivity.
  assert (H2 : Credentials.GOOGLE_SERVICE_ACCOUNT_KEY_JSON inlineOnlyEnv
               = Credentials.GOOGLE_SERVICE_ACCOUNT_KEY_JSON inlineEnv)
    by reflexivity.
  exact (conj H1 (conj H2
           (inline_key_takes_precedence string acceptJson (fun _ => false)
              (fun _ => true) inlineEnv inlineOnlyEnv "{}" quietLogger
              H1 H2))).
Defined.

(** X10 at two environments with different inline keys. *)
Lemma inline_key_is_not_logged_witness :
  Credentials.truthy
    (Credentials.GOOGLE_SERVICE_ACCOUNT_KEY_JSON inlineOnlyEnv) = Some "{}"
  /\ Credentials.truthy
       (Credentials.GOOGLE_SERVICE_ACCOUNT_KEY_JSON otherKeyEnv) = Some "[]"
  /\ snd (Credentials.loadCredentials acceptJson (fun _ => false)
            inlineOnlyEnv quietLogger)
     = snd (Credentials.loadCredentials acceptJson (fun _ => false)
              otherKeyEnv quietLogger).
Proof.
  assert (H1 : Credentials.truthy
                 (Credentials.GOOGLE_SERVICE_ACCOUNT_KEY_JSON inlineOnlyEnv)
               = Some "{}") by reflexivity.
  assert (H2 : Credentials.truthy
                 (Credentials.GOOGLE_SERVICE_ACCOUNT_KEY_JSON otherKeyEnv)
               = Some "[]") by reflexivity.
  exact (conj H1 (conj H2
           (inline_key_is_not_logged string acceptJson (fun _ => false)
              (fun _ => false) inlineOnlyEnv otherKeyEnv "{}" "[]"
              quietLogger H1 H2))).
Defined.

(** X12 at a call of read-formulas on the sample service. *)
Lemma read_makes_one_call_witness :
  ClientAvailable world initialState
  /\ callsMade initialState
       (snd (Reading.readFormulasHandler world readParams initialState))
     = [ValuesGet "X" "Data!A1:B1" "FORMULA"].
Proof.
  assert (H1 : ClientAvailable world initialState)
    by (apply sample_available; reflexivity).
  destruct (read_makes_one_call world Formulas readParams initialState H1)
    as [Hcalls _].
  exact (conj H1 Hcalls).
Defined.

(** X13 at a call of read-all on the sample service. *)
Lemma read_all_makes_both_reads_witness :
  ClientAvailable world initialState
  /\ callsMade initialState
       (snd (Reading.readAllHandler world true readParams initialState))
     = [ValuesGet "X" "Data!A1:B1" "FORMATTED_VALUE";
        ValuesGet "X" "Data!A1:B1" "FORMULA"].
Proof.
  assert (H1 : ClientAvailable world initialState)
    by (apply sample_available; reflexivity).
  destruct (read_all_makes_both_reads world true readParams initialState H1)
    as [Hcalls _].
  exact (conj H1 Hcalls).
Defined.


(** X16 at a call of read-values when the credentials cannot be loaded. *)
Lemma handlers_report_missing_credentials_witness :
  clientInstance initialState = false
  /\ loadCredentials lockedWorld = Some (ErrorObject "no key")
  /\ Reading.readValuesHandler lockedWorld readParams initialState
     = (inr (createErrorResponse "Failed to read values: no key"),
        initialState).
Proof.
  assert (H1 : clientInstance initialState = false) by reflexivity.
  assert (H2 : loadCredentials lockedWorld = Some (ErrorObject "no key"))
    by reflexivity.
  exact (conj H1 (conj H2
           (handlers_report_missing_credentials lockedWorld
              (ReadValues readParams) initialState (ErrorObject "no key")
              H1 H2))).
Defined.

(** X17 at the first use of the client on the sample service, followed by
    a use when the credentials can no longer be loaded. *)
Lemma client_is_built_once_witness :
  getSheetsClient world initialState
  = (inr tt, {| clientInstance := true; sent := [] |})
  /\ getSheetsClient lockedWorld {| clientInstance := true; sent := [] |}
     = (inr tt, {| clientInstance := true; sent := [] |}).
Proof.
  assert (H1 : getSheetsClient world initialState
               = (inr tt, {| clientInstance := true; sent := [] |}))
    by reflexivity.
  destruct (client_is_built_once world lockedWorld initialState _ _ H1)
    as [_ Hnext].
  exact (conj H1 Hnext).
Defined.

(** X18 at the title [sheet1] on the sample spreadsheet, whose first
    sheet is Sheet1. *)
Lemma resolve_takes_first_match_witness :
  MetadataIs world initialState "X" spreadsheet
  /\ toLowerCase "Sheet1" = toLowerCase "sheet1"
  /\ resolveSheetId world "X" "sheet1" initialState
     = (inr 0%Z,
        {| clientInstance := false; sent := [metadataRead "X"] |}).
Proof.
  assert (H1 : MetadataIs world initialState "X" spreadsheet) by reflexivity.
  assert (H2 : toLowerCase "Sheet1" = toLowerCase "sheet1") by reflexivity.
  exact (conj H1 (conj H2
           (resolve_takes_first_match world initialState "X" "sheet1"
              spreadsheet []
              [dataSheet]
              {| infoSheetId := 0%Z; title := "Sheet1"; rowCount := 0%Z;
                 columnCount := 0%Z |}
              H1 eq_refl (Forall_nil _) H2))).
Defined.

(** X21 at a call of read-values with a key that the schema does not
    declare. *)
Lemma undeclared_arguments_are_ignored_witness :
  (forall tool key,
      lookup "read-values" = Own tool -> In key (declaredKeys tool) ->
      prop paddedArguments key = prop readArguments key)
  /\ callTool handlers "read-values" (VObject paddedArguments) initialState
     = callTool handlers "read-values" (VObject readArguments) initialState.
Proof.
  assert (H1 : forall tool key,
             lookup "read-values" = Own tool -> In key (declaredKeys tool) ->
             prop paddedArguments key = prop readArguments key).
  { intros tool key Hl Hin. injection Hl as <-.
    destruct Hin as [<- | [<- | []]]; reflexivity. }
  exact (conj H1
           (undeclared_arguments_are_ignored handlers "read-values"
              readArguments paddedArguments initialState H1)).
Defined.

(** X22 at the arguments of a call of read-values with a key that the
    schema does not declare. *)
Lemma validated_arguments_have_the_declared_shape_witness :
  parse (schemas read_values) (VObject paddedArguments)
  = inr (VObject readArguments)
  /\ exists out,
       VObject readArguments = VObject out
       /\ incl (map fst out) (declaredKeys read_values)
       /\ (forall key member,
             In (key, member) (fieldsOf (schemas read_values)) ->
             required member = true -> In key (map fst out)).
Proof.
  assert (H1 : parse (schemas read_values) (VObject paddedArguments)
               = inr (VObject readArguments)) by reflexivity.
  exact (conj H1
           (validated_arguments_have_the_declared_shape read_values
              (VObject paddedArguments) (VObject readArguments) H1)).
Defined.

End MoreInstances.

Section ServiceInstances.

Import Formatter Client Server Service ServiceSpec Sample MoreSample.

#[local] Existing Instance integerRuntime.

Lemma sample_ready : Ready remote startState.
Proof. right. reflexivity. Qed.





(** X27 at a call of get-formatting on the sample service, which has no
    grid data. *)
Lemma get_formatting_reads_the_first_grid_witness :
  Ready remote startState
  /\ fst (getFormattingHandler remote readParams startState)
     = inr (createTextResponse
              ("## Cell Formatting (Data!A1:B1)" ++ Js.nl ++ Js.nl
                 ++ "No formatting data found.")).
Proof.
  destruct (get_formatting_reads_the_first_grid remote readParams
              startState sample_ready) as (_ & Hres & _).
  exact (conj sample_ready Hres).
Defined.

(** X29 at a call of update-cells when the credentials cannot be loaded. *)
Lemma writing_handlers_report_missing_credentials_witness :
  client startState = false
  /\ loadCredentials (known lockedRemote (calls startState))
     = Some (ErrorObject "no key")
  /\ updateCellsHandler lockedRemote valuesParams startState
     = (inr (createErrorResponse "Failed to update cells: no key"),
        startState).
Proof.
  assert (H1 : client startState = false) by reflexivity.
  assert (H2 : loadCredentials (known lockedRemote (calls startState))
               = Some (ErrorObject "no key")) by reflexivity.
  exact (conj H1 (conj H2
           (writing_handlers_report_missing_credentials lockedRemote
              (UpdateCells valuesParams) startState (ErrorObject "no key")
              H1 H2))).
Defined.

End ServiceInstances.

